(** * ra-server: a shallow embedding of the helper package, the virtual
    machine repository, the response codes and the LXC image builder,
    with the properties the specification states about them and further
    properties of the code.

    Layout: the embedding of the code (modules [Helper], [Database],
    [Script], [LXC], [SandboxLXC], [Response]), the definitions the statements use (the
    [...Data], [...Obs] and [LXCSim] modules), then the lemmas and
    theorems, grouped per module ([...Facts]). *)

From Stdlib Require Import ZArith Lia Ascii.
From stdpp Require Import gmap strings list pretty.

Local Open Scope Z_scope.

(* ===================================================================== *)
(** ** internal/helper/random.go                                          *)
(* ===================================================================== *)

Module Helper.

Section Random.

(** Width of Go's [int] (32 or 64, depending on the platform). *)
Variable bits : Z.

(** [rand.Intn] of the package-level source, as the draw it yields for the
    argument it is called with.  The standard library documents
    [0 <= Intn n < n] for [n > 0] and a panic for [n <= 0]; the panic is
    written out in the functions below, the range is the hypothesis
    [Intn_range] of the theorems. *)
Variable Intn : Z -> Z.

(** [rand.New(rand.NewSource(s)).Intn(n)]: the first draw of a generator
    seeded with [s]. *)
Variable seededIntn : Z -> Z -> Z.

(** Two's complement wrap-around of [int] arithmetic. *)
Definition wrap (z : Z) : Z :=
  (z + 2 ^ (bits - 1)) mod 2 ^ bits - 2 ^ (bits - 1).

(** The body of [for i := 1; i < length; i++], run [n] times. *)
Fixpoint digits_loop (n : nat) (minimum maximum : Z) : Z * Z :=
  match n with
  | O => (minimum, maximum)
  | S k => digits_loop k (wrap (minimum * 10)) (wrap (wrap (maximum * 10) + 9))
  end.

(** [GenerateRandomNumber]; [None] is the panic of [rand.Intn]. *)
Definition GenerateRandomNumber (length : Z) : option Z :=
  if length <=? 0 then Some 0
  else
    let '(minimum, maximum) := digits_loop (Z.to_nat (length - 1)) 1 1 in
    let n := wrap (wrap (maximum - minimum) + 1) in
    if n <=? 0 then None
    else Some (wrap (minimum + Intn n)).

(** [GenerateRandomNumberInRange]; [now] is what [time.Now().UnixNano()]
    returns when the call is made, [None] is the panic of [Intn]. *)
Definition GenerateRandomNumberInRange (min max seed : Z) (now : Z) : option Z :=
  if min >=? max then Some min
  else
    let source := if seed >? 0 then seed else now in
    let n := wrap (wrap (max - min) + 1) in
    if n <=? 0 then None
    else Some (wrap (min + seededIntn source n)).

End Random.

(** *** internal/helper/helper.go *)

(** [PtrOrDefault(p, def)]; a nil pointer is [None]. *)
Definition PtrOrDefault {T : Type} (p : option T) (def : T) : T :=
  match p with
  | Some v => v
  | None => def
  end.

(** [Containsint32(slice, item)] *)
Fixpoint Containsint32 (slice : list Z) (item : Z) : bool :=
  match slice with
  | [] => false
  | v :: rest => if v =? item then true else Containsint32 rest item
  end.


End Helper.

(* ===================================================================== *)
(** ** The virtual machine repository                                     *)
(* ===================================================================== *)

Module Database.

(** [entity.VirtualMachine]; [Id] comes from the embedded essential
    entity. *)
Record VirtualMachine := {
  Id : Z;
  Name : string;
  Description : string;
  Status : string;
  Type_ : string;
  Resources : string;
  IPAddress : string;
  UserID : Z;
  Port : Z
}.

(** Errors of the store: gorm's sentinel [ErrRecordNotFound], compared by
    identity in the source, and every other error. *)
Inductive db_error :=
| ErrRecordNotFound
| ErrOther (msg : string).

(** The store, as what [DB.WithContext(ctx).First(&vm, id)] yields: the
    row found, or the [Error] field of the result. *)
Record DB := { First : Z -> VirtualMachine + db_error }.

Record VirtualMachineRepo := { repo_DB : DB }.

Definition NewVirtualMachineRepo (db : DB) : VirtualMachineRepo :=
  {| repo_DB := db |}.

(** [VirtualMachineRepo.Get]: the pair (entity pointer, error). *)
Definition Get (r : VirtualMachineRepo) (id : Z)
  : option VirtualMachine * option db_error :=
  match First (repo_DB r) id with
  | inr err =>
      match err with
      | ErrRecordNotFound => (None, None)
      | _ => (None, Some err)
      end
  | inl vm => (Some vm, None)
  end.

End Database.

(* ===================================================================== *)
(** ** The package-index refresh step of the provisioning scripts         *)
(* ===================================================================== *)

(** The two scripts are shell text that the builder writes to disk and
    runs with [/bin/bash].  Their refresh steps are embedded as functions
    over the state of the running shell; [apt k] is the exit status of the
    [k]-th run of [apt-get update] (0 is success). *)
Module Script.

Inductive action :=
| Echo (text : string)
| AptGetUpdate (status : nat)
| Sleep (seconds : nat).

Record shell := {
  runs : nat;                 (* runs of apt-get update so far *)
  actions : list action;      (* what the script did, oldest first *)
  UPDATE_SUCCESS : bool       (* the shell variable of that name *)
}.

Definition emit (a : action) (sh : shell) : shell :=
  {| runs := runs sh; actions := actions sh ++ [a];
     UPDATE_SUCCESS := UPDATE_SUCCESS sh |}.

Definition set_UPDATE_SUCCESS (b : bool) (sh : shell) : shell :=
  {| runs := runs sh; actions := actions sh; UPDATE_SUCCESS := b |}.

(** Running [apt-get update]: the status, and the shell afterwards. *)
Definition apt_get_update (apt : nat -> nat) (sh : shell) : nat * shell :=
  let status := apt (runs sh) in
  (status,
   {| runs := S (runs sh); actions := actions sh ++ [AptGetUpdate status];
      UPDATE_SUCCESS := UPDATE_SUCCESS sh |}).

(** Decimal rendering of [$i] and [$?]. *)
Definition show (n : nat) : string := pretty n.

Section Steps.
Variable apt : nat -> nat.

(** [for i in {1..3}; do ... done] of the Java 8 script: the body for
    the values of [i] still to come.  [break] ends the loop. *)
Fixpoint java8_update_loop (todo : list nat) (sh : shell) : shell :=
  match todo with
  | [] => sh
  | i :: rest =>
      let sh1 := emit (Echo ("Attempt " +:+ show i +:+ ": Running apt-get update...")) sh in
      let '(status, sh2) := apt_get_update apt sh1 in
      if (status =? 0)%nat then
        set_UPDATE_SUCCESS true
          (emit (Echo ("✅ apt-get update succeeded on attempt " +:+ show i)) sh2)
      else
        java8_update_loop rest
          (emit (Sleep 5)
             (emit (Echo ("❌ Attempt " +:+ show i
                         +:+ " failed: apt-get update failed (exit code "
                         +:+ show status +:+ ")")) sh2))
  end.

(** The step [# Update package lists with retries] of the Java 8 script.
    The second component is [Some code] when the script exits there. *)
Definition java8_update_step (sh : shell) : shell * option nat :=
  let sh1 := emit (Echo "📦 RUN apt-get update") sh in
  let sh2 := set_UPDATE_SUCCESS false sh1 in
  let sh3 := java8_update_loop [1; 2; 3]%nat sh2 in
  if UPDATE_SUCCESS sh3 then (sh3, None)
  else (emit (Echo "❌ All apt-get update attempts failed") sh3, Some 1%nat).

(** The step [# Update package lists] of the base script, which runs
    under [set -e]: a failing command ends the script with its status. *)
Definition base_update_step (sh : shell) : shell * option nat :=
  let sh1 := emit (Echo "📦 RUN apt-get update") sh in
  let '(status, sh2) := apt_get_update apt sh1 in
  if (status =? 0)%nat then (sh2, None) else (sh2, Some status).

End Steps.

End Script.

(* ===================================================================== *)
(** ** sandbox/images: the LXC image builder                              *)
(* ===================================================================== *)

Module LXC.

(** *** Strings and paths *)

Definition dq : string := String (ascii_of_nat 34) EmptyString.
Definition nl : string := String (ascii_of_nat 10) EmptyString.

(** [strings.Join(elems, sep)]. *)
Fixpoint strings_Join (elems : list string) (sep : string) : string :=
  match elems with
  | [] => EmptyString
  | [e] => e
  | e :: rest => e +:+ sep +:+ strings_Join rest sep
  end.

(** [filepath.Join]: empty elements are ignored, the others are joined by
    the separator.  The final [Clean] is not modelled: the elements the
    builder joins are clean paths and plain names. *)
Definition Join (elems : list string) : string :=
  strings_Join (List.filter (fun e => negb (String.eqb e EmptyString)) elems) "/".

(** [filepath.Base]: trailing separators are dropped, then the part after
    the last separator is taken. *)
Fixpoint drop_trailing_slashes (rev_path : list ascii) : list ascii :=
  match rev_path with
  | c :: r => if Ascii.eqb c "/" then drop_trailing_slashes r else rev_path
  | [] => []
  end.

Fixpoint take_until_slash (rev_path : list ascii) : list ascii :=
  match rev_path with
  | c :: r => if Ascii.eqb c "/" then [] else c :: take_until_slash r
  | [] => []
  end.

Definition Base (path : string) : string :=
  match path with
  | EmptyString => "."
  | _ =>
      match drop_trailing_slashes (rev (String.list_ascii_of_string path)) with
      | [] => "/"
      | r => String.string_of_list_ascii (rev (take_until_slash r))
      end
  end.

(** [strings.ReplaceAll(s, old, new)] for a non-empty [old]: matches are
    found left to right and do not overlap; [skip] counts the characters
    of a match that are still to be passed over. *)
Fixpoint replace_from (old new : string) (skip : nat) (s : string) : string :=
  match s with
  | EmptyString => EmptyString
  | String c s' =>
      match skip with
      | S k => replace_from old new k s'
      | O =>
          if String.prefix old s
          then new +:+ replace_from old new (String.length old - 1) s'
          else String c (replace_from old new 0 s')
      end
  end.

(** For an empty [old], [new] is put before every character and at the
    end (characters stand for the runes of the source here). *)
Fixpoint interleave (new s : string) : string :=
  match s with
  | EmptyString => new
  | String c s' => new +:+ String c (interleave new s')
  end.

Definition strings_ReplaceAll (s old new : string) : string :=
  match old with
  | EmptyString => interleave new s
  | _ => replace_from old new 0 s
  end.

Fixpoint last_char (s : string) : option ascii :=
  match s with
  | EmptyString => None
  | String c EmptyString => Some c
  | String _ s' => last_char s'
  end.

(** *** Time *)

Record Time := {
  year : nat; month : nat; day : nat;
  hour : nat; minute : nat; second : nat;
  zone : string                      (* the offset as RFC 3339 prints it *)
}.

Definition digit (n : nat) : ascii := ascii_of_nat (48 + n mod 10).

Definition pad2 (n : nat) : string :=
  String (digit (n / 10)) (String (digit n) EmptyString).

Definition pad4 (n : nat) : string :=
  String (digit (n / 1000)) (String (digit (n / 100)) (pad2 n)).

(** [t.Format("15:04:05")] *)
Definition Format_clock (t : Time) : string :=
  pad2 (hour t) +:+ ":" +:+ pad2 (minute t) +:+ ":" +:+ pad2 (second t).

(** [t.Format("20060102-150405")] *)
Definition Format_stamp (t : Time) : string :=
  pad4 (year t) +:+ pad2 (month t) +:+ pad2 (day t) +:+ "-"
    +:+ pad2 (hour t) +:+ pad2 (minute t) +:+ pad2 (second t).

(** [t.Format(time.RFC3339)] *)
Definition Format_RFC3339 (t : Time) : string :=
  pad4 (year t) +:+ "-" +:+ pad2 (month t) +:+ "-" +:+ pad2 (day t) +:+ "T"
    +:+ pad2 (hour t) +:+ ":" +:+ pad2 (minute t) +:+ ":" +:+ pad2 (second t)
    +:+ zone t.

(** *** Errors *)

Inductive errno := ENOENT | EEXIST | ENOTEMPTY | EISDIR | EINVAL.

Inductive error :=
| PathError (op path : string) (e : errno)   (* errors of package os *)
| ExitError (msg : string)                   (* errors of os/exec *)
| ErrorString (msg : string)                 (* fmt.Errorf without %w *)
| Wrapped (msg : string) (cause : error).    (* fmt.Errorf("msg: %w", cause) *)

Definition errno_text (e : errno) : string :=
  match e with
  | ENOENT => "no such file or directory"
  | EEXIST => "file exists"
  | ENOTEMPTY => "directory not empty"
  | EISDIR => "is a directory"
  | EINVAL => "invalid argument"
  end.

(** [err.Error()], which is what [%v] prints. *)
Fixpoint Error (e : error) : string :=
  match e with
  | PathError op path n => op +:+ " " +:+ path +:+ ": " +:+ errno_text n
  | ExitError msg => msg
  | ErrorString msg => msg
  | Wrapped msg cause => msg +:+ ": " +:+ Error cause
  end.

(** [os.IsNotExist(err)] *)
Definition IsNotExist (err : option error) : bool :=
  match err with
  | Some (PathError _ _ ENOENT) => true
  | _ => false
  end.

(** *** The file system and the host *)

(** The disk is a finite map from paths to what they name.  A path is the
    text the builder computes: links are not followed when a path is
    looked up or written, a file can be created whatever lies above it, and
    permissions are not modelled.  External commands are not interpreted:
    what a command prints, returns and does to the disk is given by the
    [host] of the world, one outcome per command run. *)

(** What a path names.  An archive written by [tar] is kept as the
    directory it was taken from ([-C]) and the members it was given. *)
Inductive node :=
| File (data : string)
| Dir
| Symlink (target : string)
| Archive (root : string) (members : list string).

(** What running an external command gives: its combined output, its
    error ([None] for exit status 0) and the file system it leaves. *)
Record Outcome := {
  out_text : string;
  out_err : option error;
  out_fs : gmap string node
}.

(** The system calls and commands a build issues, in order. *)
Inductive event :=
| EvExec (name : string) (args : list string) (ok : bool)
| EvWriteFile (path : string) (data : string) (ok : bool)
| EvRemove (path : string) (ok : bool)
| EvSymlink (target path : string) (ok : bool).

(** What the builder acts on and what it leaves behind. *)
Record World := {
  fs : gmap string node;        (* the disk, by path *)
  stdout : list string;         (* what was printed, oldest first *)
  logfile : list string;        (* what was written through LogFile *)
  trace : list event;
  ticks : nat;                  (* calls of time.Now so far *)
  clock : nat -> Time;          (* what the k-th call of time.Now returns *)
  spawned : nat;                (* external commands run so far *)
  host : nat -> gmap string node -> string -> list string -> Outcome
                                (* what the k-th external command does *)
}.

(** An open [*os.File]; what is written through it goes to [logfile]. *)
Inductive os_File := Handle.

(** [LXCBuilder] *)
Record LXCBuilder := {
  WorkDir : string;
  ContainerDir : string;
  LogFile : option os_File      (* nil when the log file could not be created *)
}.

Definition with_fs (f : gmap string node) (w : World) : World :=
  {| fs := f; stdout := stdout w; logfile := logfile w; trace := trace w;
     ticks := ticks w; clock := clock w; spawned := spawned w; host := host w |}.

Definition with_event (e : event) (w : World) : World :=
  {| fs := fs w; stdout := stdout w; logfile := logfile w; trace := trace w ++ [e];
     ticks := ticks w; clock := clock w; spawned := spawned w; host := host w |}.

(** *** Sequencing *)

Definition M (A : Type) : Type := World -> A * World.

Definition ret {A} (a : A) : M A := fun w => (a, w).

Definition bind {A B} (m : M A) (k : A -> M B) : M B :=
  fun w => let r := m w in k r.1 r.2.

#[global] Instance M_ret : MRet M := @ret.
#[global] Instance M_bind : MBind M := fun A B k m => bind m k.

(** *** Primitives of the standard library *)

Definition time_Now : M Time := fun w =>
  (clock w (ticks w),
   {| fs := fs w; stdout := stdout w; logfile := logfile w; trace := trace w;
      ticks := S (ticks w); clock := clock w; spawned := spawned w; host := host w |}).

Definition fmt_Print (s : string) : M unit := fun w =>
  (tt,
   {| fs := fs w; stdout := stdout w ++ [s]; logfile := logfile w; trace := trace w;
      ticks := ticks w; clock := clock w; spawned := spawned w; host := host w |}).

Definition fmt_Println (s : string) : M unit := fmt_Print (s +:+ nl).

(** [f.WriteString(s); f.Sync()] on the log file. *)
Definition File_WriteString (s : string) : M unit := fun w =>
  (tt,
   {| fs := fs w; stdout := stdout w; logfile := logfile w ++ [s]; trace := trace w;
      ticks := ticks w; clock := clock w; spawned := spawned w; host := host w |}).

(** [exec.Command(name, args...).CombinedOutput()] *)
Definition CombinedOutput (name : string) (args : list string)
  : M (string * option error) := fun w =>
  let o := host w (spawned w) (fs w) name args in
  ((out_text o, out_err o),
   {| fs := out_fs o; stdout := stdout w; logfile := logfile w;
      trace := trace w ++ [EvExec name args (bool_decide (out_err o = None))];
      ticks := ticks w; clock := clock w; spawned := S (spawned w); host := host w |}).

(** [os.Stat(path)], error only. *)
Definition os_Stat (path : string) : M (option error) := fun w =>
  (match fs w !! path with
   | Some _ => None
   | None => Some (PathError "stat" path ENOENT)
   end, w).

(** Whether a directory has entries: some path lies below it. *)
Definition has_child (f : gmap string node) (path : string) : bool :=
  existsb (fun q => String.prefix (path +:+ "/") q) (map fst (map_to_list f)).

(** [os.Remove(path)]: unlinks a file or link, removes an empty directory. *)
Definition os_Remove (path : string) : M (option error) := fun w =>
  match fs w !! path with
  | None =>
      (Some (PathError "remove" path ENOENT), with_event (EvRemove path false) w)
  | Some Dir =>
      if has_child (fs w) path
      then (Some (PathError "remove" path ENOTEMPTY), with_event (EvRemove path false) w)
      else (None, with_event (EvRemove path true) (with_fs (delete path (fs w)) w))
  | Some _ =>
      (None, with_event (EvRemove path true) (with_fs (delete path (fs w)) w))
  end.

(** [os.Symlink(target, path)]: fails when [path] is taken. *)
Definition os_Symlink (target path : string) : M (option error) := fun w =>
  match fs w !! path with
  | Some _ =>
      (Some (PathError "symlink" path EEXIST), with_event (EvSymlink target path false) w)
  | None =>
      (None, with_event (EvSymlink target path true)
               (with_fs (<[path := Symlink target]> (fs w)) w))
  end.

(** [os.WriteFile(path, data, perm)]: creates or truncates the file. *)
Definition os_WriteFile (path data : string) : M (option error) := fun w =>
  match fs w !! path with
  | Some Dir =>
      (Some (PathError "open" path EISDIR), with_event (EvWriteFile path data false) w)
  | _ =>
      (None, with_event (EvWriteFile path data true)
               (with_fs (<[path := File data]> (fs w)) w))
  end.

(** [os.ReadFile(path)]: the bytes of a plain file.  Links are not
    followed and the bytes of an archive are not modelled: reading either
    is an error here. *)
Definition os_ReadFile (path : string) : M (string * option error) := fun w =>
  (match fs w !! path with
   | Some (File data) => (data, None)
   | Some Dir => (EmptyString, Some (PathError "read" path EISDIR))
   | Some _ => (EmptyString, Some (PathError "read" path EINVAL))
   | None => (EmptyString, Some (PathError "open" path ENOENT))
   end, w).

(** *** The builder *)

(** [l.log(format, args...)]; [msg] is the formatted message. *)
Definition log (l : LXCBuilder) (msg : string) : M unit :=
  now ← time_Now;
  let timestamp := Format_clock now in
  let message := "[" +:+ timestamp +:+ "] " +:+ msg in
  fmt_Println message ;;
  match LogFile l with
  | Some _ => File_WriteString (message +:+ nl)
  | None => ret tt
  end.

(** [l.runCommand(name, args...)] *)
Definition runCommand (l : LXCBuilder) (name : string) (args : list string)
  : M (option error) :=
  log l ("Running: " +:+ name +:+ " " +:+ strings_Join args " ") ;;
  r ← CombinedOutput name args;
  let output := r.1 in
  let err := r.2 in
  (if (0 <? String.length output)%nat then
     fmt_Print output ;;
     match LogFile l with
     | Some _ => File_WriteString output
     | None => ret tt
     end
   else ret tt) ;;
  ret err.

(** [l.dirExists(path)] *)
Definition dirExists (l : LXCBuilder) (path : string) : M bool :=
  err ← os_Stat path;
  if IsNotExist err then ret false else ret true.

Definition osReleaseContent : string :=
  "NAME=" +:+ dq +:+ "Ubuntu" +:+ dq +:+ nl
  +:+ "VERSION=" +:+ dq +:+ "22.04.5 LTS (Jammy Jellyfish)" +:+ dq +:+ nl
  +:+ "ID=ubuntu" +:+ nl
  +:+ "ID_LIKE=debian" +:+ nl
  +:+ "PRETTY_NAME=" +:+ dq +:+ "Ubuntu 22.04.5 LTS" +:+ dq +:+ nl
  +:+ "VERSION_ID=" +:+ dq +:+ "22.04" +:+ dq +:+ nl
  +:+ "HOME_URL=" +:+ dq +:+ "https://www.ubuntu.com/" +:+ dq +:+ nl
  +:+ "SUPPORT_URL=" +:+ dq +:+ "https://help.ubuntu.com/" +:+ dq +:+ nl
  +:+ "BUG_REPORT_URL=" +:+ dq +:+ "https://bugs.launchpad.net/ubuntu/" +:+ dq +:+ nl
  +:+ "PRIVACY_POLICY_URL=" +:+ dq
  +:+ "https://www.ubuntu.com/legal/terms-and-policies/privacy-policy" +:+ dq +:+ nl
  +:+ "VERSION_CODENAME=jammy" +:+ nl
  +:+ "UBUNTU_CODENAME=jammy" +:+ nl.

Definition lsbReleaseContent : string :=
  "DISTRIB_ID=Ubuntu" +:+ nl
  +:+ "DISTRIB_RELEASE=22.04" +:+ nl
  +:+ "DISTRIB_CODENAME=jammy" +:+ nl
  +:+ "DISTRIB_DESCRIPTION=" +:+ dq +:+ "Ubuntu 22.04.5 LTS" +:+ dq +:+ nl.

(** [l.createProxmoxMetadata(rootfsPath)] *)
Definition createProxmoxMetadata (l : LXCBuilder) (rootfsPath : string)
  : M (option error) :=
  log l "📝 Creating Proxmox metadata..." ;;
  let osReleasePath := Join [rootfsPath; "etc"; "os-release"] in
  err ← os_WriteFile osReleasePath osReleaseContent;
  match err with
  | Some e => ret (Some (Wrapped "failed to create os-release" e))
  | None =>
      let lsbReleasePath := Join [rootfsPath; "etc"; "lsb-release"] in
      err ← os_WriteFile lsbReleasePath lsbReleaseContent;
      match err with
      | Some e => ret (Some (Wrapped "failed to create lsb-release" e))
      | None => ret None
      end
  end.

(** [l.exportBaseContainer(workDir, containerPath)] *)
Definition exportBaseContainer (l : LXCBuilder) (workDir containerPath : string)
  : M (option error) :=
  log l "📦 Exporting base container as Proxmox-compatible tar.gz template..." ;;
  now ← time_Now;
  let timestamp := Format_stamp now in
  let tarGzName := "lxc-ubuntu-base-" +:+ timestamp +:+ ".tar.gz" in
  let tarGzPath := Join [workDir; tarGzName] in
  let rootfsPath := Join [containerPath; "rootfs"] in
  err ← createProxmoxMetadata l rootfsPath;
  match err with
  | Some e => log l ("Warning: failed to create metadata: " +:+ Error e)
  | None => ret tt
  end ;;
  log l ("Creating Proxmox-compatible tar.gz archive: " +:+ tarGzPath) ;;
  err ← runCommand l "tar" ["-czf"; tarGzPath; "-C"; rootfsPath; "."];
  match err with
  | Some e => ret (Some (Wrapped "failed to create tar.gz archive" e))
  | None =>
      let symlinkPath := Join [workDir; "lxc-ubuntu-latest.tar.gz"] in
      _ ← os_Remove symlinkPath;
      err ← os_Symlink tarGzName symlinkPath;
      match err with
      | Some e => log l ("Warning: failed to create symlink: " +:+ Error e)
      | None => ret tt
      end ;;
      log l "✅ Proxmox-compatible container template exported!" ;;
      log l ("📁 Archive location: " +:+ tarGzPath) ;;
      log l ("🔗 Latest symlink: " +:+ symlinkPath) ;;
      log l "📋 Usage: Copy to /var/lib/vz/template/cache/ on Proxmox" ;;
      ret None
  end.

(** [l.createLayerMetadata(workDir, layerName, parentLayer, archiveName)] *)
Definition createLayerMetadata (l : LXCBuilder)
    (workDir layerName parentLayer archiveName : string) : M unit :=
  now ← time_Now;
  let metadata :=
    "{" +:+ nl
    +:+ "  " +:+ dq +:+ "layer_name" +:+ dq +:+ ": " +:+ dq +:+ layerName +:+ dq +:+ "," +:+ nl
    +:+ "  " +:+ dq +:+ "parent_layer" +:+ dq +:+ ": " +:+ dq +:+ parentLayer +:+ dq +:+ ", " +:+ nl
    +:+ "  " +:+ dq +:+ "archive" +:+ dq +:+ ": " +:+ dq +:+ archiveName +:+ dq +:+ "," +:+ nl
    +:+ "  " +:+ dq +:+ "created" +:+ dq +:+ ": " +:+ dq +:+ Format_RFC3339 now +:+ dq +:+ "," +:+ nl
    +:+ "  " +:+ dq +:+ "type" +:+ dq +:+ ": " +:+ dq +:+ "diff_layer" +:+ dq +:+ nl
    +:+ "}" in
  let metadataPath := Join [workDir; layerName +:+ "-layer.json"] in
  _ ← os_WriteFile metadataPath metadata;
  log l ("📄 Layer metadata: " +:+ metadataPath).

Definition possibleFiles : list string :=
  ["usr/lib/jvm"; "etc/environment"; "etc/bash.bashrc"; "usr/bin/java"; "usr/bin/javac"].

(** The loop [for _, file := range possibleFiles] of
    [exportLayeredContainer], over the files still to visit. *)
Fixpoint collectFiles (l : LXCBuilder) (containerRootfs : string)
    (files filesToTar : list string) : M (list string) :=
  match files with
  | [] => ret filesToTar
  | file :: rest =>
      let fullPath := Join [containerRootfs; file] in
      err ← os_Stat fullPath;
      filesToTar' ←
        match err with
        | None => log l ("✓ Found: " +:+ file) ;; ret (filesToTar ++ [file])
        | Some _ => log l ("✗ Missing: " +:+ file) ;; ret filesToTar
        end;
      collectFiles l containerRootfs rest filesToTar'
  end.

(** [l.exportLayeredContainer(workDir, containerPath, containerName)] *)
Definition exportLayeredContainer (l : LXCBuilder)
    (workDir containerPath containerName : string) : M (option error) :=
  log l "📦 Exporting layered container with diff-only approach..." ;;
  let parentLayer := "ubuntu-base" in
  let parentPath := Join [ContainerDir l; parentLayer] in
  present ← dirExists l parentPath;
  if negb present then
    log l "Warning: Parent layer not found, exporting full container" ;;
    exportBaseContainer l workDir containerPath
  else
    now ← time_Now;
    let timestamp := Format_stamp now in
    let tarGzName := "lxc-" +:+ containerName +:+ "-layer-" +:+ timestamp +:+ ".tar.gz" in
    let tarGzPath := Join [workDir; tarGzName] in
    let containerRootfs := Join [containerPath; "rootfs"] in
    log l "🔍 Creating layer diff archive with Java-specific files..." ;;
    filesToTar ← collectFiles l containerRootfs possibleFiles [];
    if (length filesToTar =? 0)%nat then
      ret (Some (ErrorString
        "no Java files found in container - Java installation may have failed"))
    else
      let args := ["-czf"; tarGzPath; "-C"; containerRootfs] ++ filesToTar in
      err ← runCommand l "tar" args;
      match err with
      | Some e => ret (Some (Wrapped "failed to create layer diff archive" e))
      | None =>
          let symlinkPath :=
            Join [workDir; "lxc-" +:+ containerName +:+ "-layer-latest.tar.gz"] in
          _ ← os_Remove symlinkPath;
          err ← os_Symlink tarGzName symlinkPath;
          match err with
          | Some e => log l ("Warning: failed to create symlink: " +:+ Error e)
          | None => ret tt
          end ;;
          createLayerMetadata l workDir containerName parentLayer tarGzName ;;
          log l "✅ Layer diff exported successfully!" ;;
          log l ("📁 Archive location: " +:+ tarGzPath) ;;
          log l ("🔗 Latest symlink: " +:+ symlinkPath) ;;
          log l ("📋 This layer contains only changes from " +:+ parentLayer) ;;
          ret None
      end.

(** [exportContainerAsTarGz(l, workDir, containerPath)] *)
Definition exportContainerAsTarGz (l : LXCBuilder) (workDir containerPath : string)
  : M (option error) :=
  let containerName := Base containerPath in
  if negb (String.eqb containerName "ubuntu-base") then
    exportLayeredContainer l workDir containerPath containerName
  else
    exportBaseContainer l workDir containerPath.

(** [l.createLayerFromParent(containerName, parentLayer)] *)
Definition createLayerFromParent (l : LXCBuilder) (containerName parentLayer : string)
  : M (option error) :=
  log l ("📋 Copying from parent layer: " +:+ parentLayer) ;;
  let parentPath := Join [ContainerDir l; parentLayer] in
  let newPath := Join [ContainerDir l; containerName] in
  err ← runCommand l "cp" ["-r"; parentPath; newPath];
  match err with
  | Some e => ret (Some (Wrapped "failed to copy parent layer" e))
  | None =>
      let configPath := Join [newPath; "config"] in
      r ← os_ReadFile configPath;
      match r.2 with
      | None =>
          let newContent := r.1 in
          let updatedContent := strings_ReplaceAll newContent parentLayer containerName in
          if negb (String.eqb updatedContent newContent) then
            _ ← os_WriteFile configPath updatedContent;
            ret tt
          else ret tt
      | Some _ => ret tt
      end ;;
      ret None
  end.

(** The text of the Java 8 set-up script, as [buildJava8Layer] writes it. *)
Definition java8SetupScript : string :=
  "#!/bin/bash" +:+ nl
  +:+ "# Removed set -e to continue on errors and debug issues" +:+ nl
  +:+ nl
  +:+ "# Setup DNS resolution first" +:+ nl
  +:+ "echo " +:+ dq +:+ "🌐 Setting up DNS resolution..." +:+ dq +:+ nl
  +:+ "cat > /etc/resolv.conf << 'EOF'" +:+ nl
  +:+ "nameserver 8.8.8.8" +:+ nl
  +:+ "nameserver 8.8.4.4" +:+ nl
  +:+ "nameserver 1.1.1.1" +:+ nl
  +:+ "nameserver 1.0.0.1" +:+ nl
  +:+ "EOF" +:+ nl
  +:+ nl
  +:+ "echo " +:+ dq +:+ "✅ DNS configuration written" +:+ dq +:+ nl
  +:+ nl
  +:+ "# Test DNS resolution  " +:+ nl
  +:+ "echo " +:+ dq +:+ "🔍 Testing DNS resolution..." +:+ dq +:+ nl
  +:+ "if nslookup archive.ubuntu.com; then" +:+ nl
  +:+ "    echo " +:+ dq +:+ "✅ DNS resolution working" +:+ dq +:+ nl
  +:+ "else" +:+ nl
  +:+ "    echo " +:+ dq +:+ "⚠️ DNS test failed, but continuing..." +:+ dq +:+ nl
  +:+ "fi" +:+ nl
  +:+ nl
  +:+ "# Update package lists with retries" +:+ nl
  +:+ "echo " +:+ dq +:+ "📦 RUN apt-get update" +:+ dq +:+ nl
  +:+ "UPDATE_SUCCESS=false" +:+ nl
  +:+ "for i in {1..3}; do" +:+ nl
  +:+ "    echo " +:+ dq +:+ "Attempt $i: Running apt-get update..." +:+ dq +:+ nl
  +:+ "    if apt-get update; then" +:+ nl
  +:+ "        echo " +:+ dq +:+ "✅ apt-get update succeeded on attempt $i" +:+ dq +:+ nl
  +:+ "        UPDATE_SUCCESS=true" +:+ nl
  +:+ "        break" +:+ nl
  +:+ "    else" +:+ nl
  +:+ "        echo " +:+ dq +:+ "❌ Attempt $i failed: apt-get update failed (exit code $?)" +:+ dq +:+ nl
  +:+ "        sleep 5" +:+ nl
  +:+ "    fi" +:+ nl
  +:+ "done" +:+ nl
  +:+ nl
  +:+ "if [ " +:+ dq +:+ "$UPDATE_SUCCESS" +:+ dq +:+ " = " +:+ dq +:+ "false" +:+ dq +:+ " ]; then" +:+ nl
  +:+ "    echo " +:+ dq +:+ "❌ All apt-get update attempts failed" +:+ dq +:+ nl
  +:+ "    exit 1" +:+ nl
  +:+ "fi" +:+ nl
  +:+ nl
  +:+ "# Install OpenJDK 8 with more specific package handling" +:+ nl
  +:+ "echo " +:+ dq +:+ "☕ RUN apt-get install -y openjdk-8-jdk" +:+ dq +:+ nl
  +:+ "echo " +:+ dq +:+ "Setting DEBIAN_FRONTEND=noninteractive..." +:+ dq +:+ nl
  +:+ "export DEBIAN_FRONTEND=noninteractive" +:+ nl
  +:+ nl
  +:+ "echo " +:+ dq +:+ "Running apt-get install..." +:+ dq +:+ nl
  +:+ "if apt-get install -y --no-install-recommends openjdk-8-jdk; then" +:+ nl
  +:+ "    echo " +:+ dq +:+ "✅ Java 8 installation completed successfully" +:+ dq +:+ nl
  +:+ "else" +:+ nl
  +:+ "    echo " +:+ dq +:+ "❌ Java 8 installation failed (exit code $?)" +:+ dq +:+ nl
  +:+ "    echo " +:+ dq +:+ "Checking available packages..." +:+ dq +:+ nl
  +:+ "    apt-cache search openjdk-8 || echo " +:+ dq +:+ "Package search failed" +:+ dq +:+ nl
  +:+ "    exit 1" +:+ nl
  +:+ "fi" +:+ nl
  +:+ nl
  +:+ "# Verify Java installation immediately" +:+ nl
  +:+ "echo " +:+ dq +:+ "🔍 Initial Java verification..." +:+ dq +:+ nl
  +:+ "which java || echo " +:+ dq +:+ "Java binary not found in PATH" +:+ dq +:+ nl
  +:+ "ls -la /usr/lib/jvm/ || echo " +:+ dq +:+ "JVM directory not found" +:+ dq +:+ nl
  +:+ nl
  +:+ "# Set JAVA_HOME environment variable" +:+ nl
  +:+ "JAVA_HOME_PATH=" +:+ dq +:+ "/usr/lib/jvm/java-8-openjdk-amd64" +:+ dq +:+ nl
  +:+ "if [ -d " +:+ dq +:+ "$JAVA_HOME_PATH" +:+ dq +:+ " ]; then" +:+ nl
  +:+ "    echo " +:+ dq +:+ "🔧 ENV JAVA_HOME=$JAVA_HOME_PATH" +:+ dq +:+ nl
  +:+ "    echo " +:+ dq +:+ "JAVA_HOME=$JAVA_HOME_PATH" +:+ dq +:+ " >> /etc/environment" +:+ nl
  +:+ "    echo " +:+ dq +:+ "export JAVA_HOME=$JAVA_HOME_PATH" +:+ dq +:+ " >> /etc/bash.bashrc" +:+ nl
  +:+ "    " +:+ nl
  +:+ "    # Add Java to PATH" +:+ nl
  +:+ "    echo " +:+ dq +:+ "🔧 ENV PATH=$JAVA_HOME_PATH/bin:\$PATH" +:+ dq +:+ nl
  +:+ "    echo " +:+ dq +:+ "export PATH=$JAVA_HOME_PATH/bin:\$PATH" +:+ dq +:+ " >> /etc/bash.bashrc" +:+ nl
  +:+ "else" +:+ nl
  +:+ "    echo " +:+ dq +:+ "⚠️  Warning: JAVA_HOME directory not found at $JAVA_HOME_PATH" +:+ dq +:+ nl
  +:+ "    echo " +:+ dq +:+ "Available JVM directories:" +:+ dq +:+ nl
  +:+ "    ls -la /usr/lib/jvm/ || echo " +:+ dq +:+ "No JVM directories found" +:+ dq +:+ nl
  +:+ "fi" +:+ nl
  +:+ nl
  +:+ "# Source the environment and verify Java installation" +:+ nl
  +:+ "echo " +:+ dq +:+ "✅ Verifying Java installation..." +:+ dq +:+ nl
  +:+ "export JAVA_HOME=" +:+ dq +:+ "$JAVA_HOME_PATH" +:+ dq +:+ nl
  +:+ "export PATH=" +:+ dq +:+ "$JAVA_HOME_PATH/bin:$PATH" +:+ dq +:+ nl
  +:+ "java -version || echo " +:+ dq +:+ "Java verification failed" +:+ dq +:+ nl
  +:+ "javac -version || echo " +:+ dq +:+ "Javac verification failed" +:+ dq +:+ nl
  +:+ nl
  +:+ "# Show installed Java files" +:+ nl
  +:+ "echo " +:+ dq +:+ "📁 Java installation contents:" +:+ dq +:+ nl
  +:+ "ls -la /usr/lib/jvm/ || echo " +:+ dq +:+ "No JVM directory" +:+ dq +:+ nl
  +:+ "ls -la /usr/bin/java* || echo " +:+ dq +:+ "No Java binaries in /usr/bin" +:+ dq +:+ nl
  +:+ nl
  +:+ "# Clean up" +:+ nl
  +:+ "echo " +:+ dq +:+ "🧹 Cleaning up package cache" +:+ dq +:+ nl
  +:+ "apt-get autoremove -y" +:+ nl
  +:+ "apt-get autoclean" +:+ nl
  +:+ "apt-get clean" +:+ nl
  +:+ nl
  +:+ "echo " +:+ dq +:+ "✅ Java 8 layer setup completed successfully" +:+ dq +:+ nl.

(** [os.Chmod(path, mode)]; permissions are not modelled. *)
Definition os_Chmod (path : string) : M (option error) := fun w =>
  (match fs w !! path with
   | Some _ => None
   | None => Some (PathError "chmod" path ENOENT)
   end, w).

(** [time.Sleep(d)]: time passes, which the clock shows by itself. *)
Definition time_Sleep (seconds : nat) : M unit := ret tt.

(** [l.fallbackToChroot(rootfsPath, scriptPath)] *)
Definition fallbackToChroot (l : LXCBuilder) (rootfsPath scriptPath : string)
  : M (option error) :=
  log l "🔄 Using chroot fallback approach..." ;;
  let containerScriptPath := Join [rootfsPath; "setup.sh"] in
  err ← runCommand l "cp" [scriptPath; containerScriptPath];
  match err with
  | Some e => ret (Some (Wrapped "failed to copy setup script" e))
  | None =>
      err ← os_Chmod containerScriptPath;
      match err with
      | Some e => log l ("Warning: failed to make setup script executable: " +:+ Error e)
      | None => ret tt
      end ;;
      err ← runCommand l "chroot" [rootfsPath; "/bin/bash"; "/setup.sh"];
      match err with
      | Some e => log l ("Warning: chroot setup script execution failed: " +:+ Error e)
      | None => ret tt
      end ;;
      ret None
  end.

(** [l.cleanupMounts(rootfsPath)] *)
Definition cleanupMounts (l : LXCBuilder) (rootfsPath : string) : M unit :=
  log l "🧹 Cleaning up mounts..." ;;
  let devPath := Join [rootfsPath; "dev"] in
  let sysPath := Join [rootfsPath; "sys"] in
  let procPath := Join [rootfsPath; "proc"] in
  _ ← runCommand l "umount" [devPath];
  _ ← runCommand l "umount" [sysPath];
  _ ← runCommand l "umount" [procPath];
  ret tt.

(** The loop [for i := 0; i < 30; i++] that waits for the container, with
    the number of rounds still to go. *)
Fixpoint waitForContainer (l : LXCBuilder) (containerName : string) (rounds : nat)
  : M unit :=
  match rounds with
  | O => ret tt
  | S k =>
      err ← runCommand l "lxc-info" ["-n"; containerName; "-P"; ContainerDir l; "-s"];
      match err with
      | None => ret tt
      | Some _ => time_Sleep 1 ;; waitForContainer l containerName k
      end
  end.

Definition dnsSetupCmd : string :=
  "echo 'nameserver 8.8.8.8" +:+ nl
  +:+ "nameserver 8.8.4.4" +:+ nl
  +:+ "nameserver 1.1.1.1" +:+ nl
  +:+ "nameserver 1.0.0.1' > /etc/resolv.conf".

(** [buildJava8Layer(l, containerName, parentLayer)] *)
Definition buildJava8Layer (l : LXCBuilder) (containerName parentLayer : string)
  : M (option error) :=
  log l ("🍵 FROM " +:+ parentLayer +:+ " - Creating Java 8 layer...") ;;
  log l ("Cleaning up any existing container: " +:+ containerName) ;;
  _ ← runCommand l "lxc-stop" ["-n"; containerName; "-P"; ContainerDir l];
  _ ← runCommand l "lxc-destroy" ["-n"; containerName; "-P"; ContainerDir l];
  let parentPath := Join [ContainerDir l; parentLayer] in
  present ←
    (if negb (String.eqb parentLayer EmptyString) then dirExists l parentPath
     else ret false);
  seeded ←
    (if (present : bool) then
       log l ("📦 Creating layer from parent: " +:+ parentLayer) ;;
       err ← createLayerFromParent l containerName parentLayer;
       match err with
       | Some e => ret (Some (Wrapped "failed to create layer from parent" e))
       | None => ret None
       end
     else
       err ← runCommand l "lxc-create"
               ["-t"; "download"; "-n"; containerName; "-P"; ContainerDir l; "--";
                "--dist"; "ubuntu"; "--release"; "jammy"; "--arch"; "amd64"];
       match err with
       | Some e => ret (Some (Wrapped "failed to create LXC container" e))
       | None => ret None
       end);
  match seeded with
  | Some e => ret (Some e)
  | None =>
      let rootfsPath := Join [ContainerDir l; containerName; "rootfs"] in
      log l ("🔧 Container rootfs location: " +:+ rootfsPath) ;;
      let scriptPath := Join [ContainerDir l; "java8-setup.sh"] in
      err ← os_WriteFile scriptPath java8SetupScript;
      match err with
      | Some e => ret (Some (Wrapped "failed to create setup script" e))
      | None =>
          log l "🚀 Starting container for Java 8 installation..." ;;
          err ← runCommand l "lxc-start" ["-n"; containerName; "-P"; ContainerDir l; "-d"];
          match err with
          | Some _ =>
              log l "Warning: failed to start container, falling back to chroot" ;;
              fallbackToChroot l rootfsPath scriptPath
          | None =>
              log l "⏳ Waiting for container to be ready..." ;;
              waitForContainer l containerName 30 ;;
              log l "🌐 Setting up DNS in running container..." ;;
              err ← runCommand l "lxc-attach"
                      ["-n"; containerName; "-P"; ContainerDir l; "--";
                       "/bin/bash"; "-c"; dnsSetupCmd];
              match err with
              | Some e => log l ("Warning: failed to setup DNS in container: " +:+ Error e)
              | None => ret tt
              end ;;
              let containerScriptPath := Join [rootfsPath; "java8-setup.sh"] in
              err ← runCommand l "cp" [scriptPath; containerScriptPath];
              match err with
              | Some e =>
                  _ ← runCommand l "lxc-stop" ["-n"; containerName; "-P"; ContainerDir l];
                  ret (Some (Wrapped "failed to copy setup script" e))
              | None =>
                  log l "🔧 Running Java 8 setup script in container..." ;;
                  err ← runCommand l "lxc-attach"
                          ["-n"; containerName; "-P"; ContainerDir l; "--";
                           "/bin/bash"; "/java8-setup.sh"];
                  match err with
                  | Some e =>
                      log l ("Error: Java 8 setup script execution failed: " +:+ Error e) ;;
                      log l "Getting script output for debugging..." ;;
                      _ ← runCommand l "lxc-attach"
                            ["-n"; containerName; "-P"; ContainerDir l; "--";
                             "cat"; "/java8-setup.sh"];
                      log l "Checking container network connectivity..." ;;
                      _ ← runCommand l "lxc-attach"
                            ["-n"; containerName; "-P"; ContainerDir l; "--";
                             "ping"; "-c"; "1"; "8.8.8.8"];
                      log l "Checking DNS resolution..." ;;
                      _ ← runCommand l "lxc-attach"
                            ["-n"; containerName; "-P"; ContainerDir l; "--";
                             "nslookup"; "archive.ubuntu.com"];
                      log l "Checking apt sources..." ;;
                      _ ← runCommand l "lxc-attach"
                            ["-n"; containerName; "-P"; ContainerDir l; "--";
                             "cat"; "/etc/apt/sources.list"];
                      log l "Warning: Java installation failed, but continuing with container creation..."
                  | None => ret tt
                  end ;;
                  log l "🔍 Verifying Java installation..." ;;
                  err ← runCommand l "lxc-attach"
                          ["-n"; containerName; "-P"; ContainerDir l; "--";
                           "java"; "-version"];
                  match err with
                  | Some e => log l ("Warning: Java verification failed: " +:+ Error e)
                  | None => ret tt
                  end ;;
                  log l "⏹️ Stopping container..." ;;
                  _ ← runCommand l "lxc-stop" ["-n"; containerName; "-P"; ContainerDir l];
                  _ ← os_Remove scriptPath;
                  _ ← os_Remove containerScriptPath;
                  cleanupMounts l rootfsPath ;;
                  log l ("✅ Java 8 layer created successfully: " +:+ containerName) ;;
                  ret None
              end
          end
      end
  end.

(** The lines [buildUbuntuContainer] appends to the configuration of the container. *)
Definition additionalConfig : string :=
  nl
  +:+ "# Enable networking with veth and bridge" +:+ nl
  +:+ "lxc.net.0.type = veth" +:+ nl
  +:+ "lxc.net.0.link = lxcbr0" +:+ nl
  +:+ "lxc.net.0.flags = up" +:+ nl
  +:+ "lxc.net.0.hwaddr = 00:16:3e:xx:xx:xx" +:+ nl
  +:+ "lxc.apparmor.profile = unconfined" +:+ nl
  +:+ "lxc.cap.drop = " +:+ nl.

(** The text of the set-up script of the base container, as [buildUbuntuContainer] writes it. *)
Definition baseSetupScript : string :=
  "#!/bin/bash" +:+ nl
  +:+ "set -e" +:+ nl
  +:+ nl
  +:+ "# Setup DNS resolution first" +:+ nl
  +:+ "echo " +:+ dq +:+ "🌐 Setting up DNS resolution..." +:+ dq +:+ nl
  +:+ "cat > /etc/resolv.conf << 'EOF'" +:+ nl
  +:+ "# DNS configuration for LXC container" +:+ nl
  +:+ "nameserver 8.8.8.8" +:+ nl
  +:+ "nameserver 8.8.4.4" +:+ nl
  +:+ "nameserver 1.1.1.1" +:+ nl
  +:+ "nameserver 1.0.0.1" +:+ nl
  +:+ "EOF" +:+ nl
  +:+ nl
  +:+ "# Test DNS resolution" +:+ nl
  +:+ "echo " +:+ dq +:+ "🔍 Testing DNS resolution..." +:+ dq +:+ nl
  +:+ "nslookup archive.ubuntu.com || echo " +:+ dq +:+ "Warning: DNS resolution test failed" +:+ dq +:+ nl
  +:+ nl
  +:+ "# Update package lists" +:+ nl
  +:+ "echo " +:+ dq +:+ "📦 RUN apt-get update" +:+ dq +:+ nl
  +:+ "apt-get update" +:+ nl
  +:+ nl
  +:+ "# Upgrade system " +:+ nl
  +:+ "echo " +:+ dq +:+ "📦 RUN apt-get upgrade -y" +:+ dq +:+ nl
  +:+ "DEBIAN_FRONTEND=noninteractive apt-get upgrade -y" +:+ nl
  +:+ nl
  +:+ "# Install essential packages" +:+ nl
  +:+ "echo " +:+ dq +:+ "📦 RUN apt-get install -y essential packages" +:+ dq +:+ nl
  +:+ "DEBIAN_FRONTEND=noninteractive apt-get install -y \" +:+ nl
  +:+ "    curl wget vim git build-essential \" +:+ nl
  +:+ "    software-properties-common ca-certificates \" +:+ nl
  +:+ "    gnupg lsb-release dnsutils iputils-ping" +:+ nl
  +:+ nl
  +:+ "# Set environment variables" +:+ nl
  +:+ "echo " +:+ dq +:+ "🔧 ENV DEBIAN_FRONTEND=noninteractive" +:+ dq +:+ nl
  +:+ "echo 'DEBIAN_FRONTEND=noninteractive' >> /etc/environment" +:+ nl
  +:+ nl
  +:+ "# Create working directory" +:+ nl
  +:+ "echo " +:+ dq +:+ "📁 WORKDIR /app" +:+ dq +:+ nl
  +:+ "mkdir -p /app" +:+ nl
  +:+ nl
  +:+ "# Clean up" +:+ nl
  +:+ "echo " +:+ dq +:+ "🧹 Cleaning up package cache" +:+ dq +:+ nl
  +:+ "apt-get autoremove -y" +:+ nl
  +:+ "apt-get autoclean" +:+ nl
  +:+ "apt-get clean" +:+ nl
  +:+ nl
  +:+ "echo " +:+ dq +:+ "✅ Container setup completed successfully" +:+ dq +:+ nl.

(** [l.appendToConfig(configPath, text)]: the file is opened for appending
    and is not created; the text goes after what the file holds.  Links
    are not followed and the bytes of an archive are not modelled:
    appending to either is an error here. *)
Definition appendToConfig (l : LXCBuilder) (configPath text : string)
  : M (option error) := fun w =>
  match fs w !! configPath with
  | Some (File data) =>
      (None, with_fs (<[configPath := File (data +:+ text)]> (fs w)) w)
  | Some Dir => (Some (PathError "open" configPath EISDIR), w)
  | Some _ => (Some (PathError "open" configPath EINVAL), w)
  | None => (Some (PathError "open" configPath ENOENT), w)
  end.

(** [buildUbuntuContainer(l)] *)
Definition buildUbuntuContainer (l : LXCBuilder) : M (option error) :=
  let containerName := "ubuntu-base" in
  log l "🐳 FROM ubuntu:22.04 - Creating Ubuntu 22.04 LXC container..." ;;
  log l ("Cleaning up any existing container: " +:+ containerName) ;;
  _ ← runCommand l "lxc-stop" ["-n"; containerName; "-P"; ContainerDir l];
  _ ← runCommand l "lxc-destroy" ["-n"; containerName; "-P"; ContainerDir l];
  err ← runCommand l "lxc-create"
          ["-t"; "download"; "-n"; containerName; "-P"; ContainerDir l; "--";
           "--dist"; "ubuntu"; "--release"; "jammy"; "--arch"; "amd64"];
  match err with
  | Some e => ret (Some (Wrapped "failed to create LXC container" e))
  | None =>
      let configPath := Join [ContainerDir l; containerName; "config"] in
      err ← appendToConfig l configPath additionalConfig;
      match err with
      | Some e => log l ("Warning: failed to modify container config: " +:+ Error e)
      | None => ret tt
      end ;;
      let rootfsPath := Join [ContainerDir l; containerName; "rootfs"] in
      log l ("🔧 Container rootfs location: " +:+ rootfsPath) ;;
      let scriptPath := Join [ContainerDir l; "setup.sh"] in
      err ← os_WriteFile scriptPath baseSetupScript;
      match err with
      | Some e => ret (Some (Wrapped "failed to create setup script" e))
      | None =>
          log l "🚀 Starting container for package installation..." ;;
          err ← runCommand l "lxc-start" ["-n"; containerName; "-P"; ContainerDir l; "-d"];
          match err with
          | Some _ =>
              log l "Warning: failed to start container, falling back to chroot" ;;
              fallbackToChroot l rootfsPath scriptPath
          | None =>
              log l "⏳ Waiting for container to be ready..." ;;
              waitForContainer l containerName 30 ;;
              log l "🌐 Setting up DNS in running container..." ;;
              err ← runCommand l "lxc-attach"
                      ["-n"; containerName; "-P"; ContainerDir l; "--";
                       "/bin/bash"; "-c"; dnsSetupCmd];
              match err with
              | Some e => log l ("Warning: failed to setup DNS in container: " +:+ Error e)
              | None => ret tt
              end ;;
              let containerScriptPath := Join [rootfsPath; "setup.sh"] in
              err ← runCommand l "cp" [scriptPath; containerScriptPath];
              match err with
              | Some e =>
                  _ ← runCommand l "lxc-stop" ["-n"; containerName; "-P"; ContainerDir l];
                  ret (Some (Wrapped "failed to copy setup script" e))
              | None =>
                  log l "🔧 Running setup script in container..." ;;
                  err ← runCommand l "lxc-attach"
                          ["-n"; containerName; "-P"; ContainerDir l; "--";
                           "/bin/bash"; "/setup.sh"];
                  match err with
                  | Some e => log l ("Warning: setup script execution failed: " +:+ Error e)
                  | None => ret tt
                  end ;;
                  log l "⏹️ Stopping container..." ;;
                  _ ← runCommand l "lxc-stop" ["-n"; containerName; "-P"; ContainerDir l];
                  _ ← os_Remove scriptPath;
                  _ ← os_Remove (Join [rootfsPath; "setup.sh"]);
                  cleanupMounts l rootfsPath ;;
                  log l ("✅ Container created successfully: " +:+ containerName) ;;
                  ret None
              end
          end
      end
  end.

End LXC.

(* ===================================================================== *)
(** ** sandbox/images/lxc.go: the base container, set up in a chroot     *)
(* ===================================================================== *)

(** The builder of this file, its [log], [runCommand] and
    [appendToConfig] are those of [LXC], line for line; its
    [buildUbuntuContainer] does not start the container. *)
Module SandboxLXC.
Import LXC.

(** The lines appended to the configuration of the container. *)
Definition additionalConfig : string :=
  nl
  +:+ "# Disable networking to avoid bridge issues" +:+ nl
  +:+ "lxc.net.0.type = none" +:+ nl
  +:+ "lxc.apparmor.profile = unconfined" +:+ nl
  +:+ "lxc.cap.drop = " +:+ nl.

(** The text of the set-up script, as this [buildUbuntuContainer] writes it. *)
Definition setupScript : string :=
  "#!/bin/bash" +:+ nl
  +:+ "set -e" +:+ nl
  +:+ nl
  +:+ "# Update package lists" +:+ nl
  +:+ "echo " +:+ dq +:+ "📦 RUN apt-get update" +:+ dq +:+ nl
  +:+ "apt-get update" +:+ nl
  +:+ nl
  +:+ "# Upgrade system " +:+ nl
  +:+ "echo " +:+ dq +:+ "📦 RUN apt-get upgrade -y" +:+ dq +:+ nl
  +:+ "DEBIAN_FRONTEND=noninteractive apt-get upgrade -y" +:+ nl
  +:+ nl
  +:+ "# Install essential packages" +:+ nl
  +:+ "echo " +:+ dq +:+ "📦 RUN apt-get install -y essential packages" +:+ dq +:+ nl
  +:+ "DEBIAN_FRONTEND=noninteractive apt-get install -y \" +:+ nl
  +:+ "    curl wget vim git build-essential \" +:+ nl
  +:+ "    software-properties-common ca-certificates \" +:+ nl
  +:+ "    gnupg lsb-release" +:+ nl
  +:+ nl
  +:+ "# Set environment variables" +:+ nl
  +:+ "echo " +:+ dq +:+ "🔧 ENV DEBIAN_FRONTEND=noninteractive" +:+ dq +:+ nl
  +:+ "echo 'DEBIAN_FRONTEND=noninteractive' >> /etc/environment" +:+ nl
  +:+ nl
  +:+ "# Create working directory" +:+ nl
  +:+ "echo " +:+ dq +:+ "📁 WORKDIR /app" +:+ dq +:+ nl
  +:+ "mkdir -p /app" +:+ nl
  +:+ nl
  +:+ "# Clean up" +:+ nl
  +:+ "echo " +:+ dq +:+ "🧹 Cleaning up package cache" +:+ dq +:+ nl
  +:+ "apt-get autoremove -y" +:+ nl
  +:+ "apt-get autoclean" +:+ nl
  +:+ "apt-get clean" +:+ nl
  +:+ nl
  +:+ "echo " +:+ dq +:+ "✅ Container setup completed successfully" +:+ dq +:+ nl.

(** [buildUbuntuContainer(l)] *)
Definition buildUbuntuContainer (l : LXCBuilder) : M (option error) :=
  let containerName := "ubuntu-base" in
  log l "🐳 FROM ubuntu:22.04 - Creating Ubuntu 22.04 LXC container..." ;;
  log l ("Cleaning up any existing container: " +:+ containerName) ;;
  _ ← runCommand l "lxc-stop" ["-n"; containerName; "-P"; ContainerDir l];
  _ ← runCommand l "lxc-destroy" ["-n"; containerName; "-P"; ContainerDir l];
  err ← runCommand l "lxc-create"
          ["-t"; "download"; "-n"; containerName; "-P"; ContainerDir l; "--";
           "--dist"; "ubuntu"; "--release"; "jammy"; "--arch"; "amd64"];
  match err with
  | Some e => ret (Some (Wrapped "failed to create LXC container" e))
  | None =>
      let configPath := Join [ContainerDir l; containerName; "config"] in
      err ← appendToConfig l configPath additionalConfig;
      match err with
      | Some e => log l ("Warning: failed to modify container config: " +:+ Error e)
      | None => ret tt
      end ;;
      let rootfsPath := Join [ContainerDir l; containerName; "rootfs"] in
      log l ("🔧 Modifying container rootfs directly at: " +:+ rootfsPath) ;;
      let scriptPath := Join [ContainerDir l; "setup.sh"] in
      err ← os_WriteFile scriptPath setupScript;
      match err with
      | Some e => ret (Some (Wrapped "failed to create setup script" e))
      | None =>
          log l "🚀 Running Dockerfile-like setup in chroot..." ;;
          err ← runCommand l "chroot"
                  [rootfsPath; "/bin/bash"; "-c"; "$(cat " +:+ scriptPath +:+ ")"];
          match err with
          | Some _ =>
              log l "Chroot failed, trying alternative approach..." ;;
              err ← runCommand l "cp" [scriptPath; Join [rootfsPath; "setup.sh"]];
              match err with
              | None =>
                  err ← runCommand l "chroot" [rootfsPath; "/bin/bash"; "/setup.sh"];
                  match err with
                  | Some e => log l ("Warning: failed to run setup script: " +:+ Error e)
                  | None => ret tt
                  end
              | Some _ => ret tt
              end
          | None => ret tt
          end ;;
          _ ← os_Remove scriptPath;
          _ ← os_Remove (Join [rootfsPath; "setup.sh"]);
          log l ("✅ Container created successfully: " +:+ containerName) ;;
          ret None
      end
  end.

End SandboxLXC.

(* ===================================================================== *)
(** ** internal/model/response: the codes of a response                   *)
(* ===================================================================== *)

Module Response.

(** [type Code string] *)
Definition Code : Type := string.

(** [Code.String] *)
Definition Code_String (r : Code) : string := r.

Definition codeSuccess : Code := "00".
Definition codeValidationError : Code := "VE".
Definition codeUnauthorized : Code := "UA".
Definition codeNotAllowed : Code := "NA".
Definition codeNotFound : Code := "NF".
Definition codeInvalidCredentials : Code := "IC".
Definition codeAlreadyExists : Code := "AE".
Definition codeInternalError : Code := "I-IE".
Definition codeCanceledError : Code := "I-CE".
Definition codeDbTopicError : Code := "DB-TPC".
Definition codeDbModeError : Code := "DB-MDE".
Definition codeDbAnswer : Code := "DB-ANS".
Definition codeDbAnswerCategory : Code := "DB-ANC".
Definition codeDbDailyGame : Code := "DB-DLY".
Definition codeDbDailyGameGuess : Code := "DB-DLG".

(** [responseCodeNames] *)
Definition responseCodeNames : gmap Code string :=
  list_to_map
    [(codeSuccess, "Success");
     (codeValidationError, "Validation Error");
     (codeUnauthorized, "Not Authorized");
     (codeNotAllowed, "Not Allowed");
     (codeNotFound, "Not Found");
     (codeInvalidCredentials, "Invalid Credentials");
     (codeAlreadyExists, "Already Exists");
     (codeInternalError, "Internal Error");
     (codeCanceledError, "Canceled Error");
     (codeDbTopicError, "Database Topic Error");
     (codeDbModeError, "Database Mode Error");
     (codeDbAnswer, "Database Answer Error");
     (codeDbAnswerCategory, "Database Answer Category Error");
     (codeDbDailyGame, "Database Daily Game Error");
     (codeDbDailyGameGuess, "Database Daily Game Guess Error")].

(** The base of a response, which [resp.GetBase()] points to. *)
Record BaseResponse := { base_Code : string; base_Desc : string }.

(** [setResponse(resp, code)], on the base of the response.  Indexing a
    map with a key it does not hold gives the empty string. *)
Definition setResponse (base : BaseResponse) (code : Code) : BaseResponse :=
  {| base_Code := Code_String code;
     base_Desc := default EmptyString (responseCodeNames !! code) |}.

Definition Success (resp : BaseResponse) := setResponse resp codeSuccess.
Definition ErrorValidation (resp : BaseResponse) := setResponse resp codeValidationError.
Definition ErrorUnauthorized (resp : BaseResponse) := setResponse resp codeUnauthorized.
Definition ErrorNotAllowed (resp : BaseResponse) := setResponse resp codeNotAllowed.
Definition ErrorNotFound (resp : BaseResponse) := setResponse resp codeNotFound.
Definition ErrorInvalidCredentials (resp : BaseResponse) :=
  setResponse resp codeInvalidCredentials.
Definition ErrorInternal (resp : BaseResponse) := setResponse resp codeInternalError.
Definition ErrorCanceled (resp : BaseResponse) := setResponse resp codeCanceledError.
Definition ErrorDbTopic (resp : BaseResponse) := setResponse resp codeDbTopicError.
Definition ErrorDbMode (resp : BaseResponse) := setResponse resp codeDbModeError.
Definition ErrorDbAnswer (resp : BaseResponse) := setResponse resp codeDbAnswer.
Definition ErrorDbAnswerCategory (resp : BaseResponse) :=
  setResponse resp codeDbAnswerCategory.
Definition ErrorDbDailyGame (resp : BaseResponse) := setResponse resp codeDbDailyGame.
Definition ErrorDbDailyGameGuess (resp : BaseResponse) :=
  setResponse resp codeDbDailyGameGuess.
Definition ErrorAlreadyExists (resp : BaseResponse) := setResponse resp codeAlreadyExists.

End Response.

Module ResponseData.
Import Response.

(** The functions of the package that mark a response. *)
Definition markers : list (BaseResponse -> BaseResponse) :=
  [Success; ErrorValidation; ErrorUnauthorized; ErrorNotAllowed; ErrorNotFound;
   ErrorInvalidCredentials; ErrorInternal; ErrorCanceled; ErrorDbTopic; ErrorDbMode;
   ErrorDbAnswer; ErrorDbAnswerCategory; ErrorDbDailyGame; ErrorDbDailyGameGuess;
   ErrorAlreadyExists].

End ResponseData.


(** ** Sample draws for the helper functions *)

Module HelperData.
Import Helper.

Local Open Scope Z_scope.

(** The draw that always returns the largest value allowed. *)
Definition top_draw (n : Z) : Z := n - 1.

End HelperData.

(** ** A sample store *)

Module DatabaseData.
Import Database.

Local Open Scope Z_scope.

(** The row of the sample store. *)
Definition sample_vm : VirtualMachine :=
  {| Id := 1; Name := "vm-one"; Description := ""; Status := "inactive";
     Type_ := "lxc"; Resources := ""; IPAddress := "10.0.0.2"; UserID := 4; Port := 22 |}.

(** A store with one row, a broken query and nothing else. *)
Definition sample_db : DB :=
  {| First := fun id =>
       if id =? 1 then inl sample_vm
       else if id =? 2 then inr (ErrOther "connection refused")
       else inr ErrRecordNotFound |}.

End DatabaseData.

(** ** Observations on a run of the refresh step *)

Module ScriptObs.
Import Script.

Local Open Scope nat_scope.

(** The number of runs of [apt-get update] between two states. *)
Definition attempts (before after : shell) : nat := runs after - runs before.

(** The sleeps among the actions, in order. *)
Fixpoint sleeps (l : list action) : list nat :=
  match l with
  | [] => []
  | Sleep n :: r => n :: sleeps r
  | _ :: r => sleeps r
  end.

(** The exit statuses of the runs of [apt-get update], in order. *)
Fixpoint statuses (l : list action) : list nat :=
  match l with
  | [] => []
  | AptGetUpdate s :: r => s :: statuses r
  | _ :: r => statuses r
  end.

(** A shell that has not run anything yet. *)
Definition fresh : shell := {| runs := 0; actions := []; UPDATE_SUCCESS := false |}.

(** What a step added to the record of actions. *)
Definition performed (before after : shell) : list action :=
  drop (length (actions before)) (actions after).

(** An [apt-get update] that fails once and would succeed when run again. *)
Definition fails_once (k : nat) : nat := if k =? 0 then 100 else 0.

End ScriptObs.

(** ** Observations on a build and the assumption on the host *)

Module LXCObs.
Import LXC.

Local Open Scope nat_scope.

(** *** What a run printed and did *)

(** The line that [log] prints for a message. *)
Definition log_line (w : World) (msg : string) : string :=
  ("[" +:+ Format_clock (clock w (ticks w)) +:+ "] " +:+ msg) +:+ nl.

(** What [LogFile] receives of a text printed on standard output. *)
Definition mirrored (l : LXCBuilder) (texts : list string) : list string :=
  match LogFile l with
  | Some _ => texts
  | None => []
  end.

(** The events a run added to the trace. *)
Definition added (w w' : World) : list event :=
  drop (length (trace w)) (trace w').

(** The events that write a file. *)
Definition is_write (e : event) : Prop :=
  match e with
  | EvWriteFile _ _ _ => True
  | _ => False
  end.

(** The events that run a command. *)
Definition is_exec (e : event) : Prop :=
  match e with
  | EvExec _ _ _ => True
  | _ => False
  end.

(** The events that remove or create the entry at [link]. *)
Definition on_link (link : string) (e : event) : Prop :=
  match e with
  | EvRemove q _ => q = link
  | EvSymlink _ q _ => q = link
  | _ => False
  end.

(** The event of a [tar] that succeeded. *)
Definition tar_ok (e : event) : bool :=
  match e with
  | EvExec name _ true => String.eqb name "tar"
  | _ => false
  end.

(** Every event on [link] comes after a successful [tar]; [seen] tells
    whether one has been passed already. *)
Fixpoint link_after_tar (link : string) (seen : bool) (evs : list event) : Prop :=
  match evs with
  | [] => True
  | e :: rest =>
      (on_link link e -> seen = true) /\ link_after_tar link (seen || tar_ok e) rest
  end.

(** *** Relations between the world before and after a step *)

(** Steps that only print and read the clock. *)
Record quiet (w w' : World) : Prop := {
  quiet_fs : fs w' = fs w;
  quiet_trace : trace w' = trace w;
  quiet_spawned : spawned w' = spawned w;
  quiet_host : host w' = host w;
  quiet_clock : clock w' = clock w
}.

(** Steps before the archive is written: they print, read the clock and
    write files outside the paths [keep]. *)
Record calm (keep : string -> Prop) (w w' : World) : Prop := {
  calm_fs : forall q, keep q -> fs w' !! q = fs w !! q;
  calm_trace : exists evs, trace w' = trace w ++ evs /\ Forall is_write evs;
  calm_spawned : spawned w' = spawned w;
  calm_host : host w' = host w;
  calm_clock : clock w' = clock w
}.

(** Steps only add to the trace. *)
Definition grows (w w' : World) : Prop := exists evs, trace w' = trace w ++ evs.

(** The archives and their links are the paths that end in [z]. *)
Definition ends_in_z (q : string) : Prop := last_char q = Some "z"%char.

(** *** Errors, arguments and intermediate worlds named in the statements *)

(** The error of a diff export that finds none of its candidate files. *)
Definition noJavaFiles : error :=
  ErrorString "no Java files found in container - Java installation may have failed".

(** The error of a clone that failed. *)
Definition cloneFailed (e : error) : error :=
  Wrapped "failed to create layer from parent" e.

(** The arguments of the [lxc-create] that provisions a container afresh. *)
Definition lxcCreateArgs (l : LXCBuilder) (containerName : string) : list string :=
  ["-t"; "download"; "-n"; containerName; "-P"; ContainerDir l; "--";
   "--dist"; "ubuntu"; "--release"; "jammy"; "--arch"; "amd64"].

(** The world in which [buildJava8Layer] looks for the parent layer: the
    one that stopping and destroying an older container leave. *)
Definition after_cleanup (l : LXCBuilder) (containerName parentLayer : string)
    (w : World) : World :=
  (runCommand l "lxc-destroy" ["-n"; containerName; "-P"; ContainerDir l]
     (runCommand l "lxc-stop" ["-n"; containerName; "-P"; ContainerDir l]
        (log l ("Cleaning up any existing container: " +:+ containerName)
           (log l ("🍵 FROM " +:+ parentLayer +:+ " - Creating Java 8 layer...") w).2).2).2).2.

(** *** Occurrences in a text *)

(** Whether [c] is one of the characters of [s]. *)
Fixpoint has_char (c : ascii) (s : string) : bool :=
  match s with
  | EmptyString => false
  | String x s' => Ascii.eqb x c || has_char c s'
  end.

(** Whether [old] occurs in [s]. *)
Fixpoint occurs (old s : string) : bool :=
  String.prefix old s ||
  match s with
  | EmptyString => false
  | String _ s' => occurs old s'
  end.

(** *** The assumption on [tar] *)

(** [tar -czf out -C root members...] touches no path but [out], and when it
    succeeds [out] is the archive of these members below [root]. *)
Definition tar_faithful
    (h : nat -> gmap string node -> string -> list string -> Outcome) : Prop :=
  forall k f out root members,
    let o := h k f "tar" ("-czf" :: out :: "-C" :: root :: members) in
    (forall q, q <> out -> out_fs o !! q = f !! q) /\
    (out_err o = None -> out_fs o !! out = Some (Archive root members)).

End LXCObs.

(** ** A simulated host and sample worlds, for the concrete instances *)

Module LXCSim.
Import LXC LXCObs.

Local Open Scope nat_scope.

(** *** The host *)

(** A command that prints nothing, succeeds and leaves the disk alone. *)
Definition noop (f : gmap string node) : Outcome :=
  {| out_text := ""; out_err := None; out_fs := f |}.

(** Whether [tar] finds a member below [root]; [.] is [root] itself. *)
Definition member_exists (f : gmap string node) (root m : string) : bool :=
  if String.eqb m "." then bool_decide (is_Some (f !! root))
  else bool_decide (is_Some (f !! Join [root; m])).

(** [cp -r src dst] for a [dst] that does not exist yet: every entry at or
    below [src] appears at the same place below [dst]. *)
Definition cp_r (f : gmap string node) (src dst : string) : gmap string node :=
  foldr (fun entry acc =>
           let p := entry.1 in
           if String.eqb p src then <[dst := entry.2]> acc
           else if String.prefix (src +:+ "/") p
                then <[dst +:+ String.substring (String.length src)
                                  (String.length p - String.length src) p := entry.2]> acc
                else acc)
        f (map_to_list f).

(** [tar] packs the members it is given when all of them exist and fails
    otherwise; [cp -r] copies a tree that exists; every other command does
    nothing and succeeds. *)
Definition sim_host (k : nat) (f : gmap string node) (name : string)
    (args : list string) : Outcome :=
  match args with
  | flag :: out :: c :: root :: members =>
      if String.eqb name "tar" && String.eqb flag "-czf" && String.eqb c "-C" then
        if forallb (member_exists f root) members
        then {| out_text := ""; out_err := None;
                out_fs := <[out := Archive root members]> f |}
        else {| out_text := "tar: Cannot stat: No such file or directory";
                out_err := Some (ExitError "exit status 2"); out_fs := f |}
      else noop f
  | [flag; src; dst] =>
      if String.eqb name "cp" && String.eqb flag "-r" then
        if bool_decide (is_Some (f !! src))
        then {| out_text := ""; out_err := None; out_fs := cp_r f src dst |}
        else {| out_text := "cp: cannot stat: No such file or directory";
                out_err := Some (ExitError "exit status 1"); out_fs := f |}
      else noop f
  | _ => noop f
  end.

(** *** Worlds *)

(** The time every reading of the sample clock gives. *)
Definition noon : Time :=
  {| year := 2025; month := 7; day := 4; hour := 12; minute := 0; second := 30;
     zone := "Z" |}.

(** A builder with a log file. *)
Definition builder : LXCBuilder :=
  {| WorkDir := "/w"; ContainerDir := "/w/containers"; LogFile := Some Handle |}.

(** A fresh world on a given disk, with the simulated host. *)
Definition world_of (f : gmap string node) : World :=
  {| fs := f; stdout := []; logfile := []; trace := []; ticks := 0;
     clock := fun _ => noon; spawned := 0; host := sim_host |}.

(** *** Disks *)

(** A Java layer next to its parent, with two of the candidate paths. *)
Definition java_disk : gmap string node :=
  list_to_map
    [("/w/containers/ubuntu-base", Dir);
     ("/w/containers/ubuntu-java8/rootfs", Dir);
     ("/w/containers/ubuntu-java8/rootfs/usr/lib/jvm", Dir);
     ("/w/containers/ubuntu-java8/rootfs/etc/environment", File "JAVA_HOME=/usr/lib/jvm")].

(** A Java layer whose parent layer is not on disk. *)
Definition orphan_disk : gmap string node :=
  list_to_map
    [("/w/containers/ubuntu-java8/rootfs", Dir);
     ("/w/containers/ubuntu-java8/rootfs/usr/lib/jvm", Dir)].



(** A base container that was never built, next to an older archive and
    the link to it: [tar] finds no root file system and fails. *)
Definition stale_disk : gmap string node :=
  list_to_map
    [("/w/lxc-ubuntu-base-20250101-000000.tar.gz",
      Archive "/w/containers/ubuntu-base/rootfs" ["."]);
     ("/w/lxc-ubuntu-latest.tar.gz", Symlink "lxc-ubuntu-base-20250101-000000.tar.gz")].

(** The parent layer with its configuration. *)
Definition parent_disk : gmap string node :=
  list_to_map
    [("/w/containers/ubuntu-base", Dir);
     ("/w/containers/ubuntu-base/config",
      File ("lxc.uts.name = ubuntu-base" +:+ nl
            +:+ "lxc.rootfs.path = dir:/w/containers/ubuntu-base/rootfs" +:+ nl
            +:+ "lxc.arch = amd64" +:+ nl));
     ("/w/containers/ubuntu-base/rootfs", Dir)].

End LXCSim.

(** ** Observations on a build of a container *)

Module BuildObs.
Import LXC LXCObs.

Local Open Scope nat_scope.

(** *** Which failures end a build *)

(** The events that end a build: a copy or the creation of the container
    that failed, a set-up script that could not be written. *)
Definition fatal (e : event) : bool :=
  match e with
  | EvExec name _ false => String.eqb name "cp" || String.eqb name "lxc-create"
  | EvWriteFile path _ false =>
      String.eqb (Base path) "setup.sh" || String.eqb (Base path) "java8-setup.sh"
  | _ => false
  end.

(** The errors a build returns. *)
Definition build_failure (e : error) : bool :=
  match e with
  | Wrapped msg cause =>
      String.eqb msg "failed to create LXC container"
      || String.eqb msg "failed to create setup script"
      || String.eqb msg "failed to copy setup script"
      || (String.eqb msg "failed to create layer from parent"
          && match cause with
             | Wrapped m _ => String.eqb m "failed to copy parent layer"
             | _ => false
             end)
  | _ => false
  end.

(** Steps that add only events of one kind to the trace. *)
Definition within (P : event -> bool) (w w' : World) : Prop :=
  exists evs, trace w' = trace w ++ evs /\ Forall (fun e => P e = true) evs.

(** What a build that started in [w] has come to, for the events
    [fatal] that end it and the errors [failure] it returns: without an
    error no event was fatal, and an error is one of the build's and
    comes with a fatal event. *)
Definition verdict_of (fatal : event -> bool) (failure : error -> bool)
    (w : World) (r : option error * World) : Prop :=
  match r.1 with
  | None => within (fun e => negb (fatal e)) w r.2
  | Some e =>
      failure e = true /\
      exists evs x, trace r.2 = trace w ++ evs /\ In x evs /\ fatal x = true
  end.

(** Steps none of whose events ends the build. *)
Abbreviation spared := (within (fun e => negb (fatal e))).

Abbreviation verdict := (verdict_of fatal build_failure).

(** *** Whether a container is left started *)

(** Whether the arguments of an LXC command name the container. *)
Definition names (name : string) (args : list string) : bool :=
  match args with
  | flag :: n :: _ => String.eqb flag "-n" && String.eqb n name
  | _ => false
  end.

(** Whether the container is left started by the events: an [lxc-start]
    of it succeeded and no [lxc-stop] of it was run since; [r] tells
    whether it was started before. *)
Fixpoint running (name : string) (r : bool) (evs : list event) : bool :=
  match evs with
  | [] => r
  | EvExec cmd args ok :: rest =>
      if String.eqb cmd "lxc-start" && names name args then running name (r || ok) rest
      else if String.eqb cmd "lxc-stop" && names name args then running name false rest
      else running name r rest
  | _ :: rest => running name r rest
  end.

(** The events that neither start nor stop a container. *)
Definition neutral (e : event) : bool :=
  match e with
  | EvExec cmd _ ok =>
      negb (String.eqb cmd "lxc-start" && ok) && negb (String.eqb cmd "lxc-stop")
  | _ => true
  end.

(** The steps from [w] to [w'] leave the container stopped, whether it
    was started before them or not, as [b] tells. *)
Definition halts (name : string) (b : bool) (w w' : World) : Prop :=
  exists evs, trace w' = trace w ++ evs /\ running name b evs = false.

(** The steps from [w] to [w'] run an [lxc-stop] of the container and
    neither start nor stop one afterwards. *)
Definition stopped (name : string) (w w' : World) : Prop :=
  exists pre args ok post,
    trace w' = trace w ++ pre ++ EvExec "lxc-stop" args ok :: post /\
    names name args = true /\ Forall (fun e => neutral e = true) post.

End BuildObs.

(** ** Observations on the build in a chroot *)

Module SandboxObs.
Import LXC LXCObs.

(** The events that end the build in a chroot: the creation of the
    container that failed, the script that could not be written. *)
Definition chroot_fatal (e : event) : bool :=
  match e with
  | EvExec name _ false => String.eqb name "lxc-create"
  | EvWriteFile _ _ false => true
  | _ => false
  end.

(** The errors that build returns. *)
Definition chroot_failure (e : error) : bool :=
  match e with
  | Wrapped msg _ =>
      String.eqb msg "failed to create LXC container"
      || String.eqb msg "failed to create setup script"
  | _ => false
  end.

(** The events that do not need a started container. *)
Definition offline (e : event) : bool :=
  match e with
  | EvExec cmd _ _ =>
      negb (String.eqb cmd "lxc-start") && negb (String.eqb cmd "lxc-attach")
      && negb (String.eqb cmd "lxc-info")
  | _ => true
  end.

End SandboxObs.

(* ===================================================================== *)
(** * Properties                                                          *)
(* ===================================================================== *)

(** ** internal/helper/random.go *)

Module HelperFacts.
Import Helper HelperData.

Lemma two_pow_split (bits : Z) :
  0 < bits -> 2 ^ bits = 2 * 2 ^ (bits - 1).
Proof.
  intros Hb. replace bits with (Z.succ (bits - 1)) at 1 by lia.
  apply Z.pow_succ_r. lia.
Qed.

(** A value that fits in [int] is left alone by the wrap-around. *)
Lemma wrap_small (bits z : Z) :
  - 2 ^ (bits - 1) <= z < 2 ^ (bits - 1) -> wrap bits z = z.
Proof.
  intros Hz. unfold wrap.
  assert (Hb : 0 < bits).
  { destruct (Z.lt_ge_cases 0 bits) as [|Hle]; [assumption|].
    assert (bits - 1 < 0) by lia.
    rewrite (Z.pow_neg_r 2 (bits - 1)) in Hz by assumption. lia. }
  rewrite (two_pow_split bits Hb).
  rewrite Z.mod_small by lia. lia.
Qed.

Lemma pow10_pos (n : Z) : 0 <= n -> 0 < 10 ^ n.
Proof. intros. apply Z.pow_pos_nonneg; lia. Qed.

Lemma pow10_succ (n : Z) : 0 <= n -> 10 ^ (n + 1) = 10 * 10 ^ n.
Proof. intros. rewrite Z.pow_add_r by lia. lia. Qed.

(** The loop starts from [minimum = maximum = 1] and keeps
    [minimum = 10^k] and [maximum = 2 * 10^k - 1], as long as these fit. *)
Lemma digits_loop_pow (bits : Z) (n : nat) :
  forall k : Z,
    0 <= k ->
    2 * 10 ^ (k + Z.of_nat n) <= 2 ^ (bits - 1) ->
    digits_loop bits n (10 ^ k) (2 * 10 ^ k - 1)
    = (10 ^ (k + Z.of_nat n), 2 * 10 ^ (k + Z.of_nat n) - 1).
Proof.
  induction n as [|n IH]; intros k Hk Hfit.
  - simpl. repeat f_equal; lia.
  - cbn [digits_loop].
    assert (Hle : 10 ^ (k + 1) <= 10 ^ (k + Z.of_nat (S n)))
      by (apply Z.pow_le_mono_r; lia).
    pose proof (pow10_pos k Hk) as Hp.
    pose proof (pow10_succ k Hk) as H1.
    rewrite (wrap_small bits (10 ^ k * 10)) by lia.
    rewrite (wrap_small bits ((2 * 10 ^ k - 1) * 10)) by lia.
    rewrite (wrap_small bits ((2 * 10 ^ k - 1) * 10 + 9)) by lia.
    replace (10 ^ k * 10) with (10 ^ (k + 1)) by lia.
    replace ((2 * 10 ^ k - 1) * 10 + 9) with (2 * 10 ^ (k + 1) - 1) by lia.
    replace (k + Z.of_nat (S n)) with (k + 1 + Z.of_nat n) in * by lia.
    apply IH; lia.
Qed.

(** C9.  [GenerateRandomNumber] returns 0 for every length that is not
    positive; for a positive length whose power of ten fits the [int]
    type it returns a number with exactly that many decimal digits, that
    is, one between [10^(length-1)] and [10^length - 1]. *)
Theorem GenerateRandomNumber_digits (bits : Z) (Intn : Z -> Z)
    (Intn_range : forall n, 0 < n -> 0 <= Intn n < n) (length : Z) :
  (length <= 0 -> GenerateRandomNumber bits Intn length = Some 0) /\
  (0 < length -> 10 ^ length < 2 ^ (bits - 1) ->
   exists v, GenerateRandomNumber bits Intn length = Some v
             /\ 10 ^ (length - 1) <= v <= 10 ^ length - 1).
Proof.
  split.
  - intros Hle. unfold GenerateRandomNumber.
    destruct (Z.leb_spec length 0); [reflexivity | lia].
  - intros Hpos Hfit. unfold GenerateRandomNumber.
    destruct (Z.leb_spec length 0); [lia|].
    pose proof (pow10_pos (length - 1) ltac:(lia)) as Hp.
    pose proof (pow10_succ (length - 1) ltac:(lia)) as Hs.
    replace (length - 1 + 1) with length in Hs by lia.
    pose proof (digits_loop_pow bits (Z.to_nat (length - 1)) 0 ltac:(lia)) as Hloop.
    rewrite Z2Nat.id in Hloop by lia.
    replace (0 + (length - 1)) with (length - 1) in Hloop by lia.
    change (10 ^ 0) with 1 in Hloop. change (2 * 1 - 1) with 1 in Hloop.
    rewrite Hloop by lia.
    set (m := 10 ^ (length - 1)) in *.
    rewrite (wrap_small bits (2 * m - 1 - m)) by lia.
    rewrite (wrap_small bits (2 * m - 1 - m + 1)) by lia.
    replace (2 * m - 1 - m + 1) with m by lia.
    destruct (Z.leb_spec m 0); [lia|].
    pose proof (Intn_range m ltac:(lia)) as Hr.
    rewrite (wrap_small bits (m + Intn m)) by lia.
    exists (m + Intn m). split; [reflexivity | lia].
Qed.

Lemma GenerateRandomNumber_digits_witness :
  (forall n, 0 < n -> 0 <= top_draw n < n) /\
  0 < 3 /\ 10 ^ 3 < 2 ^ (64 - 1) /\
  exists v, GenerateRandomNumber 64 top_draw 3 = Some v
            /\ 10 ^ (3 - 1) <= v <= 10 ^ 3 - 1.
Proof.
  assert (Hd : forall n, 0 < n -> 0 <= top_draw n < n)
    by (intros n Hn; unfold top_draw; lia).
  split; [exact Hd|].
  split; [lia|].
  split; [reflexivity|].
  apply (proj2 (GenerateRandomNumber_digits 64 top_draw Hd 3)); [lia | reflexivity].
Defined.

(** What a call returns for a three-digit request with that draw. *)
Example GenerateRandomNumber_three : GenerateRandomNumber 64 top_draw 3 = Some 199.
Proof. reflexivity. Qed.

(** C10, as stated, fails where [max - min + 1] leaves the [int] type: the
    argument of [Intn] wraps to a value that is not positive and the call
    panics instead of returning a value of the interval. *)
Lemma GenerateRandomNumberInRange_overflow :
  0 < 9223372036854775807 /\
  GenerateRandomNumberInRange 64 (fun _ n => top_draw n)
    0 9223372036854775807 1 0 = None.
Proof. split; reflexivity. Qed.

(** C10, amended.  [GenerateRandomNumberInRange] returns [min] whenever
    [min >= max]; for [min < max] with [max - min + 1] inside the [int]
    type it returns a value between [min] and [max]; and for a positive
    seed the result does not depend on the time of the call. *)
Theorem GenerateRandomNumberInRange_spec (bits : Z) (seededIntn : Z -> Z -> Z)
    (Intn_range : forall s n, 0 < n -> 0 <= seededIntn s n < n)
    (min max seed now : Z)
    (Hmin : - 2 ^ (bits - 1) <= min < 2 ^ (bits - 1))
    (Hmax : - 2 ^ (bits - 1) <= max < 2 ^ (bits - 1)) :
  (min >= max -> GenerateRandomNumberInRange bits seededIntn min max seed now = Some min) /\
  (min < max -> max - min + 1 < 2 ^ (bits - 1) ->
   exists v, GenerateRandomNumberInRange bits seededIntn min max seed now = Some v
             /\ min <= v <= max) /\
  (0 < seed -> forall now',
     GenerateRandomNumberInRange bits seededIntn min max seed now
     = GenerateRandomNumberInRange bits seededIntn min max seed now').
Proof.
  unfold GenerateRandomNumberInRange. repeat split.
  - intros Hge. destruct (Z.geb_spec min max); [reflexivity | lia].
  - intros Hlt Hfit. destruct (Z.geb_spec min max); [lia|].
    rewrite (wrap_small bits (max - min)) by lia.
    rewrite (wrap_small bits (max - min + 1)) by lia.
    destruct (Z.leb_spec (max - min + 1) 0); [lia|].
    set (src := if seed >? 0 then seed else now).
    pose proof (Intn_range src (max - min + 1) ltac:(lia)) as Hr.
    rewrite (wrap_small bits (min + seededIntn src (max - min + 1))) by lia.
    eexists. split; [reflexivity | lia].
  - intros Hseed now'. destruct (Z.gtb_spec seed 0); [reflexivity | lia].
Qed.

Lemma GenerateRandomNumberInRange_spec_witness :
  (5 >= 5 -> GenerateRandomNumberInRange 64 (fun _ n => top_draw n) 5 5 7 0 = Some 5) /\
  (exists v, GenerateRandomNumberInRange 64 (fun _ n => top_draw n) 1 6 7 0 = Some v
             /\ 1 <= v <= 6) /\
  (forall now',
     GenerateRandomNumberInRange 64 (fun _ n => top_draw n) 1 6 7 0
     = GenerateRandomNumberInRange 64 (fun _ n => top_draw n) 1 6 7 now').
Proof.
  assert (Hd : forall (s n : Z), 0 < n -> 0 <= top_draw n < n)
    by (intros s n Hn; unfold top_draw; lia).
  assert (H5 : - 2 ^ (64 - 1) <= 5 < 2 ^ (64 - 1)) by (split; [discriminate | reflexivity]).
  assert (H1 : - 2 ^ (64 - 1) <= 1 < 2 ^ (64 - 1)) by (split; [discriminate | reflexivity]).
  assert (H6 : - 2 ^ (64 - 1) <= 6 < 2 ^ (64 - 1)) by (split; [discriminate | reflexivity]).
  split; [| split].
  - exact (proj1 (GenerateRandomNumberInRange_spec 64 _ Hd 5 5 7 0 H5 H5)).
  - apply (proj1 (proj2 (GenerateRandomNumberInRange_spec 64 _ Hd 1 6 7 0 H1 H6)));
      [lia | reflexivity].
  - apply (proj2 (proj2 (GenerateRandomNumberInRange_spec 64 _ Hd 1 6 7 0 H1 H6))). lia.
Defined.

(** X1.  The loop of [GenerateRandomNumber] starts [maximum] at 1, so for
    a positive length it ends with [maximum = 2 * 10^(length-1) - 1]: as
    long as that fits the [int] type the call returns a value from
    [10^(length-1)] up to, but not including, [2 * 10^(length-1)], that
    is, a number whose first digit is 1; for length 1 it always returns
    1, whatever is drawn. *)
Theorem GenerateRandomNumber_leading_digit_one (bits : Z) (Intn : Z -> Z)
    (Intn_range : forall n, 0 < n -> 0 <= Intn n < n) (length : Z)
    (Hpos : 0 < length) (Hfit : 2 * 10 ^ (length - 1) <= 2 ^ (bits - 1)) :
  exists v, GenerateRandomNumber bits Intn length = Some v /\
            10 ^ (length - 1) <= v < 2 * 10 ^ (length - 1) /\
            (length = 1 -> v = 1).
Proof.
  unfold GenerateRandomNumber.
  destruct (Z.leb_spec length 0); [lia|].
  pose proof (pow10_pos (length - 1) ltac:(lia)) as Hp.
  pose proof (digits_loop_pow bits (Z.to_nat (length - 1)) 0 ltac:(lia)) as Hloop.
  rewrite Z2Nat.id in Hloop by lia.
  replace (0 + (length - 1)) with (length - 1) in Hloop by lia.
  change (10 ^ 0) with 1 in Hloop. change (2 * 1 - 1) with 1 in Hloop.
  rewrite Hloop by lia.
  set (m := 10 ^ (length - 1)) in *.
  rewrite (wrap_small bits (2 * m - 1 - m)) by lia.
  rewrite (wrap_small bits (2 * m - 1 - m + 1)) by lia.
  replace (2 * m - 1 - m + 1) with m by lia.
  destruct (Z.leb_spec m 0); [lia|].
  pose proof (Intn_range m ltac:(lia)) as Hr.
  rewrite (wrap_small bits (m + Intn m)) by lia.
  exists (m + Intn m). split; [reflexivity|]. split; [lia|].
  intros ->. subst m. change (10 ^ (1 - 1)) with 1 in *. lia.
Qed.

Lemma GenerateRandomNumber_leading_digit_one_witness :
  exists v, GenerateRandomNumber 64 top_draw 19 = Some v /\
            10 ^ (19 - 1) <= v < 2 * 10 ^ (19 - 1) /\
            (19 = 1 -> v = 1).
Proof.
  apply (GenerateRandomNumber_leading_digit_one 64 top_draw).
  - intros n Hn. unfold top_draw. lia.
  - lia.
  - vm_compute. discriminate.
Defined.

(** X2.  [Containsint32] returns true exactly when the item is an
    element of the slice (so it is false for an empty slice), and on a
    concatenation it is the disjunction of the answers for the parts. *)
Theorem Containsint32_iff_In (slice : list Z) (item : Z) :
  (Containsint32 slice item = true <-> In item slice) /\
  (forall more, Containsint32 (slice ++ more) item
                = Containsint32 slice item || Containsint32 more item).
Proof.
  split.
  - induction slice as [|v rest IH]; cbn [Containsint32 In].
    + split; [discriminate|intros []].
    + destruct (Z.eqb_spec v item) as [->|Hne].
      * split; [intros _; left; reflexivity|reflexivity].
      * rewrite IH. split; [intros H; right; exact H|intros [H|H]; [contradiction|exact H]].
  - intros more. induction slice as [|v rest IH]; [reflexivity|].
    cbn [Containsint32 app]. destruct (v =? item); [reflexivity|exact IH].
Qed.

End HelperFacts.

(** ** The virtual machine repository *)

Module DatabaseFacts.
Import Database DatabaseData.

(** C8.  [Get] returns a nil entity and a nil error when the store reports
    record-not-found, and a nil entity together with the error for every
    other error of the store. *)
Theorem Get_not_found_is_nil (r : VirtualMachineRepo) (id : Z) :
  (First (repo_DB r) id = inr ErrRecordNotFound -> Get r id = (None, None)) /\
  (forall err, First (repo_DB r) id = inr err -> err <> ErrRecordNotFound ->
               Get r id = (None, Some err)).
Proof.
  unfold Get. split.
  - intros ->. reflexivity.
  - intros err -> Hne. destruct err; [congruence | reflexivity].
Qed.

(** A row that is found is returned with a nil error. *)
Lemma Get_found (r : VirtualMachineRepo) (id : Z) (vm : VirtualMachine) :
  First (repo_DB r) id = inl vm -> Get r id = (Some vm, None).
Proof. unfold Get. intros ->. reflexivity. Qed.

Lemma Get_not_found_is_nil_witness :
  Get (NewVirtualMachineRepo sample_db) 7 = (None, None) /\
  Get (NewVirtualMachineRepo sample_db) 2 = (None, Some (ErrOther "connection refused")).
Proof.
  split.
  - apply (proj1 (Get_not_found_is_nil (NewVirtualMachineRepo sample_db) 7)).
    reflexivity.
  - apply (proj2 (Get_not_found_is_nil (NewVirtualMachineRepo sample_db) 2)).
    + reflexivity.
    + discriminate.
Defined.

(** X3.  [Get] returns an entity exactly when the store found the row,
    and then that row; it returns nil and nil exactly when the store
    reports record-not-found; and an error it returns comes with a nil
    entity, is the error of the store and is never record-not-found. *)
Theorem Get_entity_or_error (r : VirtualMachineRepo) (id : Z) :
  let res := Get r id in
  (forall vm, res.1 = Some vm <-> First (repo_DB r) id = inl vm) /\
  (res = (None, None) <-> First (repo_DB r) id = inr ErrRecordNotFound) /\
  (forall err, res.2 = Some err ->
     res.1 = None /\ err <> ErrRecordNotFound /\ First (repo_DB r) id = inr err).
Proof.
  cbv zeta. unfold Get.
  destruct (First (repo_DB r) id) as [vm|[|msg]]; cbn [fst snd].
  - split; [|split].
    + intros vm'. split; intros [= ->]; reflexivity.
    + split; discriminate.
    + discriminate.
  - split; [|split].
    + intros vm'. split; discriminate.
    + split; reflexivity.
    + discriminate.
  - split; [|split].
    + intros vm'. split; discriminate.
    + split; discriminate.
    + intros err [= <-]. repeat split. discriminate.
Qed.

End DatabaseFacts.

(** ** The package-index refresh step *)

Module ScriptFacts.
Import Script ScriptObs.

Local Open Scope nat_scope.

(** C5, as stated, fails for the base script: its refresh step runs
    [apt-get update] once under [set -e], so one failed attempt ends the
    script with that status, although a second attempt would succeed. *)
Lemma base_script_gives_up_after_one_attempt :
  (base_update_step fails_once fresh).2 = Some 100 /\
  attempts fresh (base_update_step fails_once fresh).1 = 1 /\
  (java8_update_step fails_once fresh).2 = None.
Proof. repeat split; reflexivity. Qed.

Ltac tidy_actions :=
  cbn [actions runs UPDATE_SUCCESS emit set_UPDATE_SUCCESS apt_get_update fst snd];
  repeat rewrite <- app_assoc;
  try rewrite drop_app_length;
  cbn [app sleeps statuses].

(** C5, amended.  In the Java 8 script the refresh is attempted at least
    once and at most three times, every failed attempt is followed by a
    sleep of 5 seconds, no attempt follows a successful one, and the script
    exits there (with status 1) exactly when all three attempts fail.  In
    the base script the refresh is attempted exactly once and the script
    exits there exactly when that attempt fails. *)
(** Closes the arithmetic and case goals of the step theorem. *)
Ltac settle :=
  try reflexivity; try lia; try congruence; try discriminate;
  try (intros; lia);
  try (intros; congruence);
  try (intros (? & ? & ?); congruence);
  try (intros k Hk; destruct k as [|[|k]];
       rewrite ?Nat.add_0_r, ?Nat.add_1_r; (congruence || lia)).

Theorem update_step_attempts (apt : nat -> nat) (sh : shell) :
  let r := java8_update_step apt sh in
  let n := attempts sh r.1 in
  (1 <= n <= 3) /\
  statuses (performed sh r.1) = map (fun k => apt (runs sh + k)) (seq 0 n) /\
  (forall k, k + 1 < n -> apt (runs sh + k) <> 0) /\
  sleeps (performed sh r.1)
    = repeat 5 (length (filter (fun s => negb (s =? 0)) (statuses (performed sh r.1)))) /\
  (r.2 = None <-> apt (runs sh + (n - 1)) = 0) /\
  (r.2 <> None <->
     apt (runs sh) <> 0 /\ apt (runs sh + 1) <> 0 /\ apt (runs sh + 2) <> 0) /\
  (r.2 <> None -> r.2 = Some 1 /\ n = 3) /\
  let b := base_update_step apt sh in
  attempts sh b.1 = 1 /\ (b.2 = None <-> apt (runs sh) = 0).
Proof.
  unfold java8_update_step, base_update_step, attempts, performed.
  cbn [java8_update_loop]. tidy_actions.
  rewrite ?Nat.add_0_r, ?Nat.add_1_r.
  replace (runs sh + 2) with (S (S (runs sh))) by lia.
  destruct (apt (runs sh)) as [|a0] eqn:E0; cbn [Nat.eqb];
    [| destruct (apt (S (runs sh))) as [|a1] eqn:E1; cbn [Nat.eqb];
       [| destruct (apt (S (S (runs sh)))) as [|a2] eqn:E2; cbn [Nat.eqb]]];
    tidy_actions;
    repeat match goal with
           | |- context [S ?n - ?n] => replace (S n - n) with 1 by lia
           | |- context [S (S ?n) - ?n] => replace (S (S n) - n) with 2 by lia
           | |- context [S (S (S ?n)) - ?n] => replace (S (S (S n)) - n) with 3 by lia
           end;
    cbn [seq map Nat.sub];
    rewrite ?Nat.add_0_r, ?Nat.add_1_r;
    replace (runs sh + 2) with (S (S (runs sh))) by lia;
    rewrite ?E0, ?E1, ?E2;
    cbn [filter statuses negb Nat.eqb length repeat];
    repeat split; settle.
Qed.

End ScriptFacts.

(** ** The LXC image builder *)

Module LXCFacts.
Import LXC LXCObs LXCSim.

Local Open Scope nat_scope.
Local Arguments String.append : simpl nomatch.

(** *** Strings and paths *)

Lemma append_assoc (a b c : string) : (a +:+ b) +:+ c = a +:+ (b +:+ c).
Proof. induction a as [|x a' IH]; [reflexivity | simpl; f_equal; exact IH]. Qed.

Lemma append_inj_r (a b c : string) : a +:+ b = a +:+ c -> b = c.
Proof.
  induction a as [|x a IH]; simpl; intros H; [assumption|].
  injection H as H. auto.
Qed.

Lemma last_char_append (a b : string) :
  b <> EmptyString -> last_char (a +:+ b) = last_char b.
Proof.
  intros Hb. induction a as [|x a IH]; [reflexivity|].
  simpl. destruct (a +:+ b) eqn:E; [|exact IH].
  destruct a; simpl in E; [contradiction | discriminate].
Qed.

Lemma eqb_empty_false (x : string) : x <> EmptyString -> String.eqb x EmptyString = false.
Proof. intros Hx. apply String.eqb_neq. assumption. Qed.

Lemma strings_Join_snoc (l : list string) (x : string) :
  exists pre, forall y, strings_Join (l ++ [y]) "/" = pre +:+ y.
Proof.
  clear x. induction l as [|e l IH].
  - exists EmptyString. reflexivity.
  - destruct IH as [pre IH]. exists (e +:+ "/" +:+ pre). intros y.
    change ((e :: l) ++ [y]) with (e :: (l ++ [y])).
    cbn [strings_Join]. destruct (l ++ [y]) eqn:E.
    + destruct l; discriminate.
    + rewrite <- E, IH. simpl. rewrite append_assoc. reflexivity.
Qed.

(** Joining path elements ends with the last element, after a prefix that
    the earlier elements fix. *)
Lemma Join_snoc (elems : list string) :
  exists pre, forall x, x <> EmptyString -> Join (elems ++ [x]) = pre +:+ x.
Proof.
  destruct (strings_Join_snoc
              (List.filter (fun e => negb (String.eqb e EmptyString)) elems) EmptyString)
    as [pre Hpre].
  exists pre. intros x Hx. unfold Join.
  rewrite List.filter_app. cbn [List.filter].
  rewrite (eqb_empty_false x Hx). cbn [negb]. apply Hpre.
Qed.

Lemma Join_last_inj (elems : list string) (x y : string) :
  x <> EmptyString -> y <> EmptyString ->
  Join (elems ++ [x]) = Join (elems ++ [y]) -> x = y.
Proof.
  intros Hx Hy. destruct (Join_snoc elems) as [pre Hpre].
  rewrite (Hpre x Hx), (Hpre y Hy). apply append_inj_r.
Qed.

Lemma Join_last_char (elems : list string) (x : string) :
  x <> EmptyString -> last_char (Join (elems ++ [x])) = last_char x.
Proof.
  intros Hx. destruct (Join_snoc elems) as [pre Hpre].
  rewrite (Hpre x Hx). apply last_char_append. assumption.
Qed.

Lemma digit_is_not_l (n : nat) : digit n <> "l"%char.
Proof.
  unfold digit. pose proof (Nat.mod_upper_bound n 10 ltac:(lia)) as Hlt.
  destruct (n mod 10) as [|[|[|[|[|[|[|[|[|[|k]]]]]]]]]]; try (cbv; discriminate).
  lia.
Qed.

(** A time stamp never reads [latest]. *)
Lemma stamp_is_not_latest (t : Time) (rest tail : string) :
  Format_stamp t +:+ rest <> "l" +:+ tail.
Proof.
  unfold Format_stamp, pad4. simpl. intros H. injection H as H _.
  exact (digit_is_not_l _ H).
Qed.

(** *** Running the primitives *)

Lemma bind_run {A B} (m : M A) (k : A -> M B) (w : World) :
  (m ≫= k) w = k (m w).1 (m w).2.
Proof. reflexivity. Qed.

Lemma log_run (l : LXCBuilder) (msg : string) (w : World) :
  log l msg w =
  (tt, {| fs := fs w; stdout := stdout w ++ [log_line w msg];
          logfile := logfile w ++ mirrored l [log_line w msg];
          trace := trace w; ticks := S (ticks w); clock := clock w;
          spawned := spawned w; host := host w |}).
Proof.
  unfold log, mirrored, log_line, mbind, M_bind, bind, time_Now, fmt_Println, fmt_Print,
    File_WriteString, ret.
  destruct (LogFile l); cbn; [reflexivity | now rewrite app_nil_r].
Qed.

Lemma quiet_refl (w : World) : quiet w w.
Proof. split; reflexivity. Qed.

Lemma quiet_trans (w1 w2 w3 : World) : quiet w1 w2 -> quiet w2 w3 -> quiet w1 w3.
Proof. intros [] []. split; congruence. Qed.

Lemma log_quiet (l : LXCBuilder) (msg : string) (w : World) : quiet w (log l msg w).2.
Proof. rewrite log_run. split; reflexivity. Qed.

Lemma log_ticks (l : LXCBuilder) (msg : string) (w : World) :
  ticks (log l msg w).2 = S (ticks w).
Proof. rewrite log_run. reflexivity. Qed.

Lemma time_Now_quiet (w : World) : quiet w (time_Now w).2.
Proof. split; reflexivity. Qed.

Lemma added_app (w w' : World) (evs : list event) :
  trace w' = trace w ++ evs -> added w w' = evs.
Proof. intros H. unfold added. rewrite H. apply drop_app_length. Qed.

Lemma quiet_calm (keep : string -> Prop) (w w' : World) : quiet w w' -> calm keep w w'.
Proof.
  intros []. split; try assumption.
  - intros q _. congruence.
  - exists []. rewrite app_nil_r. auto.
Qed.

Lemma calm_trans (keep : string -> Prop) (w1 w2 w3 : World) :
  calm keep w1 w2 -> calm keep w2 w3 -> calm keep w1 w3.
Proof.
  intros [F1 (e1 & T1 & W1) S1 H1 C1] [F2 (e2 & T2 & W2) S2 H2 C2].
  split; try congruence.
  - intros q Hq. rewrite (F2 q Hq). apply F1, Hq.
  - exists (e1 ++ e2). rewrite T2, T1, app_assoc. split; [reflexivity|].
    apply Forall_app. auto.
Qed.

Lemma os_WriteFile_calm (keep : string -> Prop) (path data : string) (w : World) :
  ~ keep path -> calm keep w (os_WriteFile path data w).2.
Proof.
  intros Hp. unfold os_WriteFile.
  destruct (fs w !! path) as [[]|]; cbn; split; cbn; try reflexivity;
    try (eexists; split; [reflexivity | repeat constructor]);
    intros q Hq; try reflexivity;
    apply lookup_insert_ne; intros ->; contradiction.
Qed.

(** [runCommand] returns the error of the command, leaves the file system
    the command leaves, and records the command. *)
Lemma runCommand_run (l : LXCBuilder) (name : string) (args : list string) (w : World) :
  let o := host w (spawned w) (fs w) name args in
  let r := runCommand l name args w in
  r.1 = out_err o /\
  fs r.2 = out_fs o /\
  trace r.2 = trace w ++ [EvExec name args (bool_decide (out_err o = None))] /\
  spawned r.2 = S (spawned w) /\
  host r.2 = host w /\
  clock r.2 = clock w.
Proof.
  unfold runCommand. rewrite !bind_run. rewrite log_run.
  unfold CombinedOutput. cbn [fst snd fs spawned host trace clock].
  destruct (0 <? String.length _); [rewrite bind_run; destruct (LogFile l)|];
    cbn; auto 10.
Qed.

(** C6.  Every call of [runCommand] writes the [Running: ...] line and then
    all of the combined output of the command to standard output and, when
    there is a log file, to the log file, before it returns; it returns the
    error of the command as a value (nil for exit status 0) and always
    returns: a failing command does not stop the runner. *)
Theorem runCommand_logs_then_returns
    (l : LXCBuilder) (name : string) (args : list string) (w : World) :
  let o := host w (spawned w) (fs w) name args in
  let r := runCommand l name args w in
  let running := log_line w ("Running: " +:+ name +:+ " " +:+ strings_Join args " ") in
  let output := if 0 <? String.length (out_text o) then [out_text o] else [] in
  r.1 = out_err o /\
  stdout r.2 = stdout w ++ running :: output /\
  logfile r.2 = logfile w ++ mirrored l (running :: output) /\
  (forall e, out_err o = Some e -> r.1 = Some e).
Proof.
  unfold runCommand. rewrite !bind_run. rewrite log_run.
  unfold CombinedOutput, mirrored. cbn [fst snd fs spawned host stdout logfile].
  destruct (0 <? String.length _).
  - rewrite bind_run.
    destruct (LogFile l); cbn; rewrite <- ?app_assoc, ?app_nil_r; cbn; auto.
  - destruct (LogFile l); cbn; rewrite ?app_nil_r; auto.
Qed.

(** *** Steps of the exports *)

Ltac quiet_chain :=
  lazymatch goal with
  | |- quiet ?w ?w => apply quiet_refl
  | |- quiet ?w (log ?l ?m ?x).2 =>
      apply (quiet_trans w x); [quiet_chain | apply log_quiet]
  | |- quiet ?w (time_Now ?x).2 =>
      apply (quiet_trans w x); [quiet_chain | apply time_Now_quiet]
  | |- quiet ?w (ret _ ?x).2 => change (quiet w x); quiet_chain
  | |- quiet ?w (os_Stat _ ?x).2 => change (quiet w x); quiet_chain
  end.

Lemma createProxmoxMetadata_calm (keep : string -> Prop) (l : LXCBuilder)
    (rootfsPath : string) (w : World) :
  ~ keep (Join [rootfsPath; "etc"; "os-release"]) ->
  ~ keep (Join [rootfsPath; "etc"; "lsb-release"]) ->
  calm keep w (createProxmoxMetadata l rootfsPath w).2.
Proof.
  intros H1 H2. unfold createProxmoxMetadata. rewrite !bind_run.
  set (w1 := (log l _ w).2).
  assert (C1 : calm keep w w1) by apply quiet_calm, log_quiet.
  set (r2 := os_WriteFile _ _ w1).
  assert (C2 : calm keep w1 r2.2) by (apply os_WriteFile_calm; assumption).
  destruct (r2.1).
  - exact (calm_trans _ _ _ _ C1 C2).
  - rewrite bind_run. set (r3 := os_WriteFile _ _ r2.2).
    assert (C3 : calm keep r2.2 r3.2) by (apply os_WriteFile_calm; assumption).
    destruct (r3.1); exact (calm_trans _ _ _ _ C1 (calm_trans _ _ _ _ C2 C3)).
Qed.

Lemma os_Stat_run (path : string) (w : World) :
  os_Stat path w =
  (match fs w !! path with
   | Some _ => None
   | None => Some (PathError "stat" path ENOENT)
   end, w).
Proof. reflexivity. Qed.

(** The loop over the candidate files only looks and prints, and keeps the
    candidates that exist below the root file system, in their order. *)
Lemma collectFiles_run (l : LXCBuilder) (rootfs : string) (files : list string) :
  forall (acc : list string) (w : World),
    let r := collectFiles l rootfs files acc w in
    quiet w r.2 /\
    r.1 = acc ++ List.filter
                   (fun f => bool_decide (is_Some (fs w !! Join [rootfs; f]))) files.
Proof.
  induction files as [|file rest IH]; intros acc w.
  - cbn. split; [apply quiet_refl | now rewrite app_nil_r].
  - cbn [collectFiles List.filter]. rewrite !bind_run, os_Stat_run. cbn [fst snd].
    destruct (fs w !! Join [rootfs; file]) as [n|] eqn:E.
    + rewrite bind_run. cbn [ret fst snd].
      destruct (IH (acc ++ [file]) (log l ("✓ Found: " +:+ file) w).2) as [Q R].
      cbn zeta in Q, R.
      split.
      * eapply quiet_trans; [apply log_quiet | exact Q].
      * rewrite R. rewrite (quiet_fs _ _ (log_quiet l _ w)).
        rewrite bool_decide_true by eauto. now rewrite <- app_assoc.
    + rewrite bind_run. cbn [ret fst snd].
      destruct (IH acc (log l ("✗ Missing: " +:+ file) w).2) as [Q R].
      cbn zeta in Q, R.
      split.
      * eapply quiet_trans; [apply log_quiet | exact Q].
      * rewrite R. rewrite (quiet_fs _ _ (log_quiet l _ w)).
        rewrite bool_decide_false; [reflexivity|]. intros [? ?]; discriminate.
Qed.

(** Repointing a link: the old entry is removed, the new one created. *)
Lemma relink_run (name link : string) (w : World) :
  let r := os_Symlink name link (os_Remove link w).2 in
  exists b1 b2,
    trace r.2 = trace w ++ [EvRemove link b1; EvSymlink name link b2] /\
    (forall q, q <> link -> fs r.2 !! q = fs w !! q) /\
    (b2 = true -> fs r.2 !! link = Some (Symlink name)) /\
    (b2 = false -> fs r.2 !! link = fs w !! link) /\
    spawned r.2 = spawned w /\ host r.2 = host w /\ clock r.2 = clock w.
Proof.
  unfold os_Remove, os_Symlink.
  destruct (fs w !! link) as [[]|] eqn:E; try destruct (has_child (fs w) link);
    cbn [fst snd fs with_fs with_event trace];
    rewrite ?lookup_delete_eq, ?E; cbn [fst snd fs with_fs with_event trace spawned host clock];
    eexists _, _; rewrite <- ?app_assoc; cbn [app];
    (split; [reflexivity|]); repeat split; try discriminate; try reflexivity;
    try (intros; rewrite ?lookup_insert_ne, ?lookup_delete_ne by congruence; reflexivity);
    try (intros; rewrite ?lookup_insert_eq; reflexivity).
  all: try (intros; assumption).
Qed.

Lemma Join2_last_char (a x : string) :
  x <> EmptyString -> last_char (Join [a; x]) = last_char x.
Proof. exact (Join_last_char [a] x). Qed.

Lemma Join3_last_char (a b x : string) :
  x <> EmptyString -> last_char (Join [a; b; x]) = last_char x.
Proof. exact (Join_last_char [a; b] x). Qed.

Lemma Join2_inj (a x y : string) :
  x <> EmptyString -> y <> EmptyString -> Join [a; x] = Join [a; y] -> x = y.
Proof. exact (Join_last_inj [a] x y). Qed.

(** What a base export does: steps that leave archives and links alone,
    then [tar]; after a failing [tar] nothing else, after a successful one
    the link is removed and created again. *)
Lemma exportBaseContainer_shape (l : LXCBuilder) (wd cp : string) (w : World) :
  let r := exportBaseContainer l wd cp w in
  let name := "lxc-ubuntu-base-" +:+ Format_stamp (clock w (S (ticks w))) +:+ ".tar.gz" in
  let link := Join [wd; "lxc-ubuntu-latest.tar.gz"] in
  let rootfs := Join [cp; "rootfs"] in
  let args := ["-czf"; Join [wd; name]; "-C"; rootfs; "."] in
  exists wT, calm ends_in_z w wT /\
    let o := host w (spawned w) (fs wT) "tar" args in
    match out_err o with
    | Some e =>
        r.1 = Some (Wrapped "failed to create tar.gz archive" e) /\
        fs r.2 = out_fs o /\
        trace r.2 = trace wT ++ [EvExec "tar" args false]
    | None =>
        r.1 = None /\
        exists b1 b2,
          trace r.2 = trace wT ++ [EvExec "tar" args true; EvRemove link b1;
                                   EvSymlink name link b2] /\
          (forall q, q <> link -> fs r.2 !! q = out_fs o !! q) /\
          (b2 = true -> fs r.2 !! link = Some (Symlink name))
    end.
Proof.
  intros r name link rootfs args. subst r. unfold exportBaseContainer.
  rewrite bind_run. set (w1 := (log l _ w).2).
  assert (Q1 : quiet w w1) by apply log_quiet.
  assert (T1 : ticks w1 = S (ticks w)) by apply log_ticks.
  rewrite bind_run.
  change ((time_Now w1).1) with (clock w1 (ticks w1)).
  rewrite T1, (quiet_clock _ _ Q1).
  fold name. fold rootfs.
  set (w2 := (time_Now w1).2).
  assert (Q2 : quiet w w2) by (eapply quiet_trans; [exact Q1 | apply time_Now_quiet]).
  rewrite bind_run.
  set (r3 := createProxmoxMetadata l rootfs w2).
  assert (C3 : calm ends_in_z w2 r3.2).
  { apply createProxmoxMetadata_calm; unfold ends_in_z;
      rewrite Join3_last_char by discriminate;
      discriminate. }
  rewrite bind_run.
  match goal with |- context [snd (?m r3.2)] => set (w4 := snd (m r3.2)) end.
  assert (Q4 : quiet r3.2 w4).
  { subst w4. destruct r3.1; [apply log_quiet | apply quiet_refl]. }
  rewrite bind_run. set (w5 := (log l _ w4).2).
  assert (Q5 : quiet w4 w5) by apply log_quiet.
  assert (C5 : calm ends_in_z w w5).
  { apply (calm_trans _ _ w2); [apply quiet_calm, Q2|].
    apply (calm_trans _ _ r3.2); [exact C3|].
    apply quiet_calm. exact (quiet_trans _ _ _ Q4 Q5). }
  exists w5. split; [exact C5|].
  rewrite bind_run.
  destruct (runCommand_run l "tar" args w5) as (R1 & R2 & R3 & R4 & R5 & R6).
  rewrite (calm_host _ _ _ C5), (calm_spawned _ _ _ C5) in R1, R2, R3.
  fold args. set (r6 := runCommand l "tar" args w5) in *.
  rewrite R1.
  destruct (out_err (host w (spawned w) (fs w5) "tar" args)) as [e|] eqn:Eo.
  - cbn [ret fst snd]. split; [reflexivity|]. split; [exact R2|].
    rewrite R3. reflexivity.
  - rewrite !bind_run. fold link.
    destruct (relink_run name link r6.2) as (b1 & b2 & T & F & L1 & _ & _).
    set (r8 := os_Symlink name link (os_Remove link r6.2).2) in *.
    match goal with
    | |- (ret None ?W).1 = None /\ _ =>
        assert (Q : quiet r8.2 W);
          [ destruct r8.1; repeat (eapply quiet_trans; [|apply log_quiet]);
            apply quiet_refl | ]
    end.
    cbn [ret fst snd].
    match type of Q with quiet _ ?W => set (wF := W) in * end.
    destruct Q as [Qf Qt _ _ _].
    split; [reflexivity|]. exists b1, b2.
    rewrite Qt, Qf, T, R3, <- app_assoc. cbn [app].
    split; [reflexivity|]. split; [|exact L1].
    intros q Hq. rewrite (F q Hq), R2. reflexivity.
Qed.

Lemma createLayerMetadata_run (l : LXCBuilder) (wd n parent archive : string) (w : World) :
  let r := createLayerMetadata l wd n parent archive w in
  let meta := Join [wd; n +:+ "-layer.json"] in
  exists data b,
    trace r.2 = trace w ++ [EvWriteFile meta data b] /\
    (forall q, q <> meta -> fs r.2 !! q = fs w !! q) /\
    spawned r.2 = spawned w /\ host r.2 = host w /\ clock r.2 = clock w.
Proof.
  intros r meta. subst r. unfold createLayerMetadata.
  rewrite !bind_run. fold meta.
  match goal with |- context [os_WriteFile meta ?d ?x] =>
    set (data := d); set (w1 := x) end.
  assert (Q1 : quiet w w1) by apply time_Now_quiet.
  set (r2 := os_WriteFile meta data w1).
  match goal with |- context [log l ?m r2.2] => set (w3 := (log l m r2.2).2) end.
  assert (Q3 : quiet r2.2 w3) by apply log_quiet.
  destruct Q1 as [F1 T1 S1 H1 C1], Q3 as [F3 T3 S3 H3 C3].
  rewrite F3, T3, S3, H3, C3. subst r2. unfold os_WriteFile.
  destruct (fs w1 !! meta) as [[]|]; cbn [fst snd fs trace spawned host clock with_fs with_event];
    rewrite ?F1, ?T1, ?S1, ?H1, ?C1; eexists _, _;
    (split; [reflexivity|]); (split; [|auto]);
    intros q Hq; rewrite ?lookup_insert_ne by congruence; congruence.
Qed.

Lemma layer_json_last_char (wd n : string) :
  last_char (Join [wd; n +:+ "-layer.json"]) = Some "n"%char.
Proof.
  rewrite Join2_last_char by (destruct n; discriminate).
  rewrite last_char_append by discriminate. reflexivity.
Qed.

Lemma tar_gz_last_char (wd a : string) :
  last_char (Join [wd; a +:+ ".tar.gz"]) = Some "z"%char.
Proof.
  rewrite Join2_last_char by (destruct a; discriminate).
  rewrite last_char_append by discriminate. reflexivity.
Qed.

Lemma layer_link_last_char (wd n : string) :
  last_char (Join [wd; "lxc-" +:+ n +:+ "-layer-latest.tar.gz"]) = Some "z"%char.
Proof.
  rewrite Join2_last_char by discriminate.
  rewrite last_char_append by (destruct n; discriminate).
  rewrite last_char_append by discriminate. reflexivity.
Qed.

Lemma dirExists_run (l : LXCBuilder) (path : string) (w : World) :
  dirExists l path w =
  (match fs w !! path with Some _ => true | None => false end, w).
Proof.
  unfold dirExists. rewrite bind_run, os_Stat_run. cbn [fst snd].
  destruct (fs w !! path); reflexivity.
Qed.

(** What a diff export does when the parent layer is on disk. *)
Lemma exportLayeredContainer_shape (l : LXCBuilder) (wd cp n : string) (w : World) :
  is_Some (fs w !! Join [ContainerDir l; "ubuntu-base"]) ->
  let r := exportLayeredContainer l wd cp n w in
  let name := "lxc-" +:+ n +:+ "-layer-" +:+ Format_stamp (clock w (S (ticks w))) +:+ ".tar.gz" in
  let link := Join [wd; "lxc-" +:+ n +:+ "-layer-latest.tar.gz"] in
  let meta := Join [wd; n +:+ "-layer.json"] in
  let rootfs := Join [cp; "rootfs"] in
  let kept := List.filter (fun f => bool_decide (is_Some (fs w !! Join [rootfs; f])))
                possibleFiles in
  let args := ["-czf"; Join [wd; name]; "-C"; rootfs] ++ kept in
  let o := host w (spawned w) (fs w) "tar" args in
  match kept with
  | [] => r.1 = Some noJavaFiles /\ fs r.2 = fs w /\ trace r.2 = trace w
  | _ :: _ =>
      match out_err o with
      | Some e =>
          r.1 = Some (Wrapped "failed to create layer diff archive" e) /\
          fs r.2 = out_fs o /\
          trace r.2 = trace w ++ [EvExec "tar" args false]
      | None =>
          r.1 = None /\
          exists b1 b2 data b3,
            trace r.2 = trace w ++ [EvExec "tar" args true; EvRemove link b1;
                                    EvSymlink name link b2; EvWriteFile meta data b3] /\
            (forall q, q <> link -> q <> meta -> fs r.2 !! q = out_fs o !! q) /\
            (b2 = true -> fs r.2 !! link = Some (Symlink name))
      end
  end.
Proof.
  intros [pn Hparent] r name link meta rootfs kept args o. subst r.
  unfold exportLayeredContainer.
  rewrite bind_run. set (w1 := (log l _ w).2).
  assert (Q1 : quiet w w1) by apply log_quiet.
  assert (T1 : ticks w1 = S (ticks w)) by apply log_ticks.
  rewrite bind_run, dirExists_run.
  cbn [fst snd]. rewrite (quiet_fs _ _ Q1), Hparent. cbn [negb].
  rewrite bind_run.
  change ((time_Now w1).1) with (clock w1 (ticks w1)).
  rewrite T1, (quiet_clock _ _ Q1). fold name rootfs.
  set (w2 := (time_Now w1).2).
  rewrite bind_run. set (w3 := (log l _ w2).2).
  assert (Q3 : quiet w w3).
  { eapply quiet_trans; [exact Q1|]. eapply quiet_trans; [apply time_Now_quiet | apply log_quiet]. }
  rewrite bind_run.
  destruct (collectFiles_run l rootfs possibleFiles [] w3) as [Q4 K].
  rewrite (quiet_fs _ _ Q3) in K. cbn [app] in K. fold kept in K.
  set (r4 := collectFiles l rootfs possibleFiles [] w3) in *.
  assert (Q : quiet w r4.2) by exact (quiet_trans _ _ _ Q3 Q4).
  rewrite K. destruct kept as [|k0 ks] eqn:Ek.
  { cbn [length Nat.eqb ret fst snd]. destruct Q. auto. }
  cbn [length Nat.eqb]. rewrite bind_run. fold args.
  destruct (runCommand_run l "tar" args r4.2) as (R1 & R2 & R3 & _).
  rewrite (quiet_host _ _ Q), (quiet_spawned _ _ Q), (quiet_fs _ _ Q) in R1, R2, R3.
  fold o in R1, R2, R3.
  set (r6 := runCommand l "tar" args r4.2) in *.
  rewrite R1. rewrite (quiet_trace _ _ Q) in R3.
  destruct (out_err o) as [e|] eqn:Eo.
  - cbn [ret fst snd]. auto.
  - rewrite !bind_run. fold link.
    destruct (relink_run name link r6.2) as (b1 & b2 & T & F & L1 & _ & _).
    set (r8 := os_Symlink name link (os_Remove link r6.2).2) in *.
    match goal with |- context [snd (?m r8.2)] => set (w9 := snd (m r8.2)) end.
    assert (Q9 : quiet r8.2 w9).
    { subst w9. destruct r8.1; [apply log_quiet | apply quiet_refl]. }
    destruct (createLayerMetadata_run l wd n "ubuntu-base" name w9)
      as (data & b3 & TM & FM & _).
    fold meta in TM, FM.
    set (r10 := createLayerMetadata l wd n "ubuntu-base" name w9) in *.
    match goal with
    | |- (ret None ?W).1 = None /\ _ =>
        assert (QF : quiet r10.2 W);
          [ quiet_chain | set (wF := W) in * ]
    end.
    cbn [ret fst snd]. destruct QF as [Qf Qt _ _ _], Q9 as [Q9f Q9t _ _ _].
    split; [reflexivity|]. exists b1, b2, data, b3.
    rewrite Qt, Qf, TM, Q9t, T, R3, <- !app_assoc. cbn [app].
    split; [reflexivity|]. split.
    + intros q Hq Hm. rewrite (FM q Hm), Q9f, (F q Hq), R2. reflexivity.
    + intros Hb. rewrite FM, Q9f; [exact (L1 Hb)|].
      intros Heq. pose proof (layer_json_last_char wd n) as Hn. fold meta in Hn.
      rewrite <- Heq in Hn. unfold link in Hn.
      rewrite layer_link_last_char in Hn. discriminate.
Qed.

(** *** Traces and paths of the exports *)

Lemma link_after_tar_writes (link : string) (seen : bool) (pre rest : list event) :
  Forall is_write pre ->
  link_after_tar link seen rest -> link_after_tar link seen (pre ++ rest).
Proof.
  induction 1 as [|e pre He Hpre IH]; intros Hrest; [exact Hrest|].
  cbn. destruct e; try contradiction. cbn. rewrite orb_false_r.
  split; [intros []|auto].
Qed.

Lemma writes_not_on_link (link : string) (pre : list event) :
  Forall is_write pre -> Forall (fun e => ~ on_link link e) pre.
Proof. intros H. eapply Forall_impl; [exact H|]. intros [] Hw; cbn in *; tauto. Qed.

Lemma base_archive_is_not_link (wd stamp : string) :
  Join [wd; "lxc-ubuntu-base-" +:+ stamp +:+ ".tar.gz"]
  <> Join [wd; "lxc-ubuntu-latest.tar.gz"].
Proof.
  intros H. apply Join2_inj in H; try discriminate.
Qed.

Lemma layer_archive_is_not_link (wd n : string) (t : Time) :
  Join [wd; "lxc-" +:+ n +:+ "-layer-" +:+ Format_stamp t +:+ ".tar.gz"]
  <> Join [wd; "lxc-" +:+ n +:+ "-layer-latest.tar.gz"].
Proof.
  intros H. apply Join2_inj in H; try discriminate.
  apply (append_inj_r "lxc-") in H. apply append_inj_r in H.
  apply (append_inj_r "-layer-" _ "latest.tar.gz") in H.
  exact (stamp_is_not_latest t ".tar.gz" "atest.tar.gz" H).
Qed.




(** *** The simulated host *)

Lemma sim_host_tar_faithful : tar_faithful sim_host.
Proof.
  intros k f out root members o. subst o. unfold sim_host.
  cbn [String.eqb Ascii.eqb Bool.eqb andb].
  destruct (forallb _ members); cbn [out_fs out_err]; split.
  - intros q Hq. apply lookup_insert_ne. congruence.
  - intros _. apply lookup_insert_eq.
  - reflexivity.
  - discriminate.
Qed.


(** *** The latest link *)


Lemma failed_tar_in_export (pre rest : list event) (args args' : list string) (ok : bool) :
  Forall is_write pre -> Forall (fun e => ~ is_exec e) rest ->
  In (EvExec "tar" args' false) (pre ++ EvExec "tar" args ok :: rest) -> ok = false.
Proof.
  intros Hpre Hrest Hin. apply in_app_or in Hin. destruct Hin as [Hin | [Hin | Hin]].
  - rewrite Forall_forall in Hpre. apply list_elem_of_In, Hpre in Hin. contradiction.
  - congruence.
  - rewrite Forall_forall in Hrest. apply list_elem_of_In, Hrest in Hin.
    exfalso. apply Hin. exact I.
Qed.




(** C4.  In a base export and in a diff export alike, the entry of the
    latest link is removed and created only after [tar] has succeeded; when
    [tar] fails the export returns an error, issues no call on the link and
    leaves the entry at the link path as it was. *)
Theorem link_untouched_until_archive_written
    (l : LXCBuilder) (wd cp n : string) (w : World) :
  (let r := exportBaseContainer l wd cp w in
   let link := Join [wd; "lxc-ubuntu-latest.tar.gz"] in
   link_after_tar link false (added w r.2) /\
   (forall args, In (EvExec "tar" args false) (added w r.2) ->
      r.1 <> None /\
      Forall (fun e => ~ on_link link e) (added w r.2) /\
      (tar_faithful (host w) -> fs r.2 !! link = fs w !! link))) /\
  (is_Some (fs w !! Join [ContainerDir l; "ubuntu-base"]) ->
   let r := exportLayeredContainer l wd cp n w in
   let link := Join [wd; "lxc-" +:+ n +:+ "-layer-latest.tar.gz"] in
   link_after_tar link false (added w r.2) /\
   (forall args, In (EvExec "tar" args false) (added w r.2) ->
      r.1 <> None /\
      Forall (fun e => ~ on_link link e) (added w r.2) /\
      (tar_faithful (host w) -> fs r.2 !! link = fs w !! link))).
Proof.
  split.
  - intros r link.
    destruct (exportBaseContainer_shape l wd cp w) as (wT & C & Sh).
    fold r link in Sh. cbn zeta in Sh.
    destruct (calm_trace _ _ _ C) as (pre & Tpre & Wpre).
    set (name := "lxc-ubuntu-base-" +:+ Format_stamp (clock w (S (ticks w))) +:+ ".tar.gz") in *.
    set (args := ["-czf"; Join [wd; name]; "-C"; Join [cp; "rootfs"]; "."]) in *.
    destruct (out_err (host w (spawned w) (fs wT) "tar" args)) as [e|] eqn:Eo.
    + destruct Sh as (S1 & S2 & S3).
      rewrite Tpre, <- app_assoc in S3. rewrite (added_app _ _ _ S3).
      split.
      * apply link_after_tar_writes; [assumption|]. cbn. tauto.
      * intros args' _. split; [rewrite S1; discriminate|]. split.
        -- apply Forall_app. split; [now apply writes_not_on_link|].
           repeat constructor. intros [].
        -- intros Htar. rewrite S2.
           destruct (Htar (spawned w) (fs wT) (Join [wd; name]) (Join [cp; "rootfs"]) ["."])
             as [Hframe _].
           fold args in Hframe. rewrite Hframe.
           ++ apply (calm_fs _ _ _ C). exact (tar_gz_last_char wd "lxc-ubuntu-latest").
           ++ intros Heq. symmetry in Heq. revert Heq. apply base_archive_is_not_link.
    + destruct Sh as (S1 & b1 & b2 & S3 & _).
      rewrite Tpre, <- app_assoc in S3. rewrite (added_app _ _ _ S3).
      split.
      * apply link_after_tar_writes; [assumption|]. cbn. tauto.
      * intros args' Hin.
        apply failed_tar_in_export in Hin; [discriminate|assumption|].
        repeat constructor; intros [].
  - intros Hparent r link.
    pose proof (exportLayeredContainer_shape l wd cp n w Hparent) as Sh.
    cbn zeta in Sh. fold r link in Sh.
    set (name := "lxc-" +:+ n +:+ "-layer-" +:+ Format_stamp (clock w (S (ticks w)))
                 +:+ ".tar.gz") in *.
    set (rootfs := Join [cp; "rootfs"]) in *.
    destruct (List.filter _ possibleFiles) as [|k0 ks].
    { destruct Sh as (_ & _ & S3). rewrite (added_app w r.2 []) by now rewrite app_nil_r.
      split; [exact I|]. intros args []. }
    set (args := ["-czf"; Join [wd; name]; "-C"; rootfs] ++ k0 :: ks) in *.
    destruct (out_err (host w (spawned w) (fs w) "tar" args)) as [e|] eqn:Eo.
    + destruct Sh as (S1 & S2 & S3). rewrite (added_app _ _ _ S3).
      split; [cbn; tauto|].
      intros args' _. split; [rewrite S1; discriminate|]. split.
      * repeat constructor. intros [].
      * intros Htar. rewrite S2.
        destruct (Htar (spawned w) (fs w) (Join [wd; name]) rootfs (k0 :: ks)) as [Hframe _].
        fold args in Hframe. apply Hframe.
        intros Heq. symmetry in Heq. revert Heq. apply layer_archive_is_not_link.
    + destruct Sh as (S1 & b1 & b2 & data & b3 & S3 & _). rewrite (added_app _ _ _ S3).
      split; [cbn; tauto|].
      intros args' Hin.
      apply (failed_tar_in_export []) in Hin; [discriminate|constructor|].
      repeat constructor; intros [].
Qed.

Lemma link_untouched_until_archive_written_witness :
  let r := exportBaseContainer builder "/w" "/w/containers/ubuntu-base"
             (world_of stale_disk) in
  r.1 <> None /\
  fs r.2 !! "/w/lxc-ubuntu-latest.tar.gz"
  = Some (Symlink "lxc-ubuntu-base-20250101-000000.tar.gz").
Proof.
  cbn zeta.
  destruct (proj1 (link_untouched_until_archive_written builder "/w"
                     "/w/containers/ubuntu-base" "ubuntu-base" (world_of stale_disk)))
    as [_ H].
  destruct (H ["-czf"; "/w/lxc-ubuntu-base-20250704-120030.tar.gz"; "-C";
               "/w/containers/ubuntu-base/rootfs"; "."]) as (H1 & _ & H3).
  { vm_compute. auto 10. }
  split; [exact H1|].
  exact (eq_trans (H3 sim_host_tar_faithful) eq_refl).
Defined.

(** *** Cloning a layer *)

Lemma replace_from_absent (old new s : string) :
  occurs old s = false -> replace_from old new 0 s = s.
Proof.
  induction s as [|c s IH]; [reflexivity|].
  cbn [occurs replace_from]. intros H. apply orb_false_elim in H as [Hp Ho].
  rewrite Hp. f_equal. exact (IH Ho).
Qed.

(** A text in which the old name does not occur is returned as it is. *)
Lemma ReplaceAll_absent (s old new : string) :
  occurs old s = false -> strings_ReplaceAll s old new = s.
Proof.
  intros H. destruct old as [|x old].
  - destruct s; discriminate.
  - apply replace_from_absent. exact H.
Qed.

Lemma prefix_across (old a b : string) (c : ascii) :
  has_char c old = false ->
  String.prefix old (a +:+ String c b) = String.prefix old a.
Proof.
  revert a. induction old as [|x old IH]; intros a Hc.
  - destruct a; reflexivity.
  - cbn [has_char] in Hc. apply orb_false_elim in Hc as [Hx Hc].
    destruct a as [|y a]; cbn.
    + destruct (ascii_dec x c) as [->|Hne]; [|reflexivity].
      rewrite Ascii.eqb_refl in Hx. discriminate.
    + destruct (ascii_dec x y); [apply IH; exact Hc | reflexivity].
Qed.

Lemma prefix_length (old a : string) :
  String.prefix old a = true -> String.length old <= String.length a.
Proof.
  revert a. induction old as [|x old IH]; intros a H; cbn; [lia|].
  destruct a as [|y a]; cbn in H; [discriminate|].
  destruct (ascii_dec x y); [|discriminate]. cbn. apply IH in H. lia.
Qed.

Lemma replace_from_across (old new b : string) (c : ascii) :
  old <> EmptyString -> has_char c old = false ->
  forall (a : string) (k : nat),
    k <= String.length a ->
    replace_from old new k (a +:+ String c b)
    = replace_from old new k a +:+ String c (replace_from old new 0 b).
Proof.
  intros Hne Hc. induction a as [|y a IH]; intros k Hk.
  - cbn in Hk. assert (k = 0) as -> by lia. cbn [String.append replace_from].
    destruct old as [|x old]; [contradiction|].
    cbn [has_char] in Hc. apply orb_false_elim in Hc as [Hx _].
    cbn [String.prefix]. destruct (ascii_dec x c) as [->|_]; [|reflexivity].
    rewrite Ascii.eqb_refl in Hx. discriminate.
  - cbn [String.append replace_from]. destruct k as [|k].
    + change (String y (a +:+ String c b)) with (String y a +:+ String c b).
      rewrite prefix_across by exact Hc.
      destruct (String.prefix old (String y a)) eqn:Hp.
      * apply prefix_length in Hp. cbn in Hp.
        rewrite IH by lia. now rewrite append_assoc.
      * rewrite IH by lia. reflexivity.
    + cbn in Hk. apply IH. lia.
Qed.

(** A character that is not part of the old name separates the text: what
    comes before it and what comes after it are replaced on their own. *)
Lemma ReplaceAll_across (a b old new : string) (c : ascii) :
  old <> EmptyString -> has_char c old = false ->
  strings_ReplaceAll (a +:+ String c b) old new
  = strings_ReplaceAll a old new +:+ String c (strings_ReplaceAll b old new).
Proof.
  intros Hne Hc. destruct old as [|x old]; [contradiction|].
  cbn [strings_ReplaceAll]. apply replace_from_across; [discriminate | exact Hc | lia].
Qed.

Lemma os_ReadFile_run (path : string) (w : World) :
  os_ReadFile path w =
  (match fs w !! path with
   | Some (File data) => (data, None)
   | Some Dir => (EmptyString, Some (PathError "read" path EISDIR))
   | Some _ => (EmptyString, Some (PathError "read" path EINVAL))
   | None => (EmptyString, Some (PathError "open" path ENOENT))
   end, w).
Proof. reflexivity. Qed.

(** What cloning does, by the outcome of the copy and by what the copied
    configuration is. *)
Lemma createLayerFromParent_shape
    (l : LXCBuilder) (containerName parentLayer : string) (w : World) :
  let r := createLayerFromParent l containerName parentLayer w in
  let newPath := Join [ContainerDir l; containerName] in
  let args := ["-r"; Join [ContainerDir l; parentLayer]; newPath] in
  let o := host w (spawned w) (fs w) "cp" args in
  let configPath := Join [newPath; "config"] in
  match out_err o with
  | Some e =>
      r.1 = Some (Wrapped "failed to copy parent layer" e) /\
      fs r.2 = out_fs o /\ added w r.2 = [EvExec "cp" args false]
  | None =>
      r.1 = None /\
      match out_fs o !! configPath with
      | Some (File content) =>
          let updated := strings_ReplaceAll content parentLayer containerName in
          if String.eqb updated content
          then fs r.2 = out_fs o /\ added w r.2 = [EvExec "cp" args true]
          else fs r.2 = <[configPath := File updated]> (out_fs o) /\
               added w r.2 = [EvExec "cp" args true; EvWriteFile configPath updated true]
      | _ => fs r.2 = out_fs o /\ added w r.2 = [EvExec "cp" args true]
      end
  end.
Proof.
  intros r newPath args o configPath. subst r. unfold createLayerFromParent.
  rewrite bind_run. set (w1 := (log l _ w).2).
  assert (Q1 : quiet w w1) by apply log_quiet.
  rewrite bind_run. fold newPath args.
  destruct (runCommand_run l "cp" args w1) as (R1 & R2 & R3 & _).
  rewrite (quiet_host _ _ Q1), (quiet_spawned _ _ Q1), (quiet_fs _ _ Q1) in R1, R2, R3.
  fold o in R1, R2, R3. rewrite (quiet_trace _ _ Q1) in R3.
  set (r2 := runCommand l "cp" args w1) in *.
  rewrite R1. destruct (out_err o) as [e|] eqn:Ho.
  { cbn [ret fst snd]. split; [reflexivity|]. split; [exact R2|]. now apply added_app. }
  rewrite !bind_run. fold configPath.
  rewrite os_ReadFile_run. cbn [fst snd]. rewrite R2.
  split; [destruct (out_fs o !! configPath) as [[]|]; cbn [fst snd];
          try destruct (negb _); reflexivity|].
  destruct (out_fs o !! configPath) as [[content| | |]|] eqn:Hc; cbn [fst snd ret];
    try (split; [exact R2 | now apply added_app]).
  destruct (String.eqb _ content); cbn [negb ret fst snd].
  - split; [exact R2 | now apply added_app].
  - rewrite bind_run. cbn [ret fst snd]. unfold os_WriteFile. rewrite R2, Hc.
    cbn [fst snd fs trace with_fs with_event].
    split; [reflexivity|]. apply added_app.
    cbn [trace with_event with_fs]. rewrite R3, <- app_assoc. reflexivity.
Qed.

(** C7.  When a layer is cloned, the copied configuration is written again
    only if replacing the name of the parent by the new name changes its
    text, and then with the replaced text; otherwise no file is written
    and the disk stays as the copy left it.  The replacement leaves a text
    without the parent name as it is, and treats what lies before and after
    a character that is not part of the parent name (a line break, say)
    separately, so that a line without the parent name is not touched. *)
Theorem config_rewritten_only_on_change
    (l : LXCBuilder) (containerName parentLayer : string) (w : World) :
  let r := createLayerFromParent l containerName parentLayer w in
  let newPath := Join [ContainerDir l; containerName] in
  let args := ["-r"; Join [ContainerDir l; parentLayer]; newPath] in
  let o := host w (spawned w) (fs w) "cp" args in
  let configPath := Join [newPath; "config"] in
  (forall path data ok,
     In (EvWriteFile path data ok) (added w r.2) ->
     path = configPath /\
     exists content,
       out_fs o !! configPath = Some (File content) /\
       data = strings_ReplaceAll content parentLayer containerName /\
       data <> content) /\
  (forall content,
     out_err o = None -> out_fs o !! configPath = Some (File content) ->
     let updated := strings_ReplaceAll content parentLayer containerName in
     r.1 = None /\
     (updated = content ->
        fs r.2 = out_fs o /\ Forall (fun e => ~ is_write e) (added w r.2)) /\
     (updated <> content ->
        fs r.2 = <[configPath := File updated]> (out_fs o) /\
        added w r.2 = [EvExec "cp" args true; EvWriteFile configPath updated true])) /\
  (forall content new,
     occurs parentLayer content = false ->
     strings_ReplaceAll content parentLayer new = content) /\
  (forall before after new c,
     parentLayer <> EmptyString -> has_char c parentLayer = false ->
     strings_ReplaceAll (before +:+ String c after) parentLayer new
     = strings_ReplaceAll before parentLayer new
       +:+ String c (strings_ReplaceAll after parentLayer new)).
Proof.
  intros r newPath args o configPath.
  pose proof (createLayerFromParent_shape l containerName parentLayer w) as Sh.
  cbn zeta in Sh. fold r newPath args o configPath in Sh.
  split; [|split; [|split]].
  - intros path data ok Hin.
    destruct (out_err o) as [e|].
    { destruct Sh as (_ & _ & T). rewrite T in Hin.
      destruct Hin as [Hin | []]. discriminate. }
    destruct Sh as (_ & Sh).
    destruct (out_fs o !! configPath) as [[content| | |]|];
      try (destruct Sh as (_ & T); rewrite T in Hin;
           destruct Hin as [Hin | []]; discriminate).
    cbn zeta in Sh.
    destruct (String.eqb _ content) eqn:E; destruct Sh as (_ & T); rewrite T in Hin.
    + destruct Hin as [Hin | []]. discriminate.
    + apply String.eqb_neq in E.
      destruct Hin as [Hin | [Hin | []]]; [discriminate|].
      injection Hin as <- <- _. split; [reflexivity|]. exists content. auto.
  - intros content Ho Hc updated. rewrite Ho, Hc in Sh. cbn zeta in Sh.
    fold updated in Sh. destruct Sh as (Hr & Sh). split; [exact Hr|].
    destruct (String.eqb updated content) eqn:E.
    + apply String.eqb_eq in E. destruct Sh as (F & T).
      split; [|intros Hne; contradiction].
      intros _. split; [exact F|]. rewrite T. repeat constructor. intros [].
    + apply String.eqb_neq in E. split; [intros Heq; contradiction|].
      intros _. exact Sh.
  - intros content new. apply ReplaceAll_absent.
  - intros before after new c. apply ReplaceAll_across.
Qed.

Lemma config_rewritten_only_on_change_witness :
  let r := createLayerFromParent builder "ubuntu-java8" "ubuntu-base"
             (world_of parent_disk) in
  r.1 = None /\
  fs r.2 !! "/w/containers/ubuntu-java8/config"
  = Some (File ("lxc.uts.name = ubuntu-java8" +:+ nl
                +:+ "lxc.rootfs.path = dir:/w/containers/ubuntu-java8/rootfs" +:+ nl
                +:+ "lxc.arch = amd64" +:+ nl)) /\
  strings_ReplaceAll ("lxc.arch = amd64" +:+ nl) "ubuntu-base" "ubuntu-java8"
  = "lxc.arch = amd64" +:+ nl.
Proof.
  cbn zeta.
  destruct (config_rewritten_only_on_change builder "ubuntu-java8" "ubuntu-base"
              (world_of parent_disk)) as (_ & H1 & H2 & _).
  destruct (H1 ("lxc.uts.name = ubuntu-base" +:+ nl
                +:+ "lxc.rootfs.path = dir:/w/containers/ubuntu-base/rootfs" +:+ nl
                +:+ "lxc.arch = amd64" +:+ nl)) as (Hr & _ & Hw).
  { vm_compute. reflexivity. }
  { vm_compute. reflexivity. }
  split; [exact Hr|]. split.
  - destruct Hw as [Hf _]; [vm_compute; discriminate|].
    rewrite Hf. vm_compute. reflexivity.
  - apply H2. vm_compute. reflexivity.
Defined.

(** *** Building the Java layer *)

Lemma grows_refl (w : World) : grows w w.
Proof. exists []. now rewrite app_nil_r. Qed.

Lemma grows_trans (w1 w2 w3 : World) : grows w1 w2 -> grows w2 w3 -> grows w1 w3.
Proof. intros [e1 H1] [e2 H2]. exists (e1 ++ e2). now rewrite H2, H1, app_assoc. Qed.

Lemma quiet_grows (w w' : World) : quiet w w' -> grows w w'.
Proof. intros Q. exists []. rewrite app_nil_r. apply Q. Qed.

Lemma log_grows (l : LXCBuilder) (msg : string) (w : World) : grows w (log l msg w).2.
Proof. apply quiet_grows, log_quiet. Qed.

Lemma runCommand_grows (l : LXCBuilder) (name : string) (args : list string) (w : World) :
  grows w (runCommand l name args w).2.
Proof. destruct (runCommand_run l name args w) as (_ & _ & T & _). eexists. exact T. Qed.

Lemma os_WriteFile_grows (path data : string) (w : World) :
  grows w (os_WriteFile path data w).2.
Proof.
  unfold os_WriteFile. destruct (fs w !! path) as [[]|]; eexists; reflexivity.
Qed.

Lemma os_Remove_grows (path : string) (w : World) : grows w (os_Remove path w).2.
Proof.
  unfold os_Remove.
  destruct (fs w !! path) as [[]|]; try destruct (has_child _ _); eexists; reflexivity.
Qed.

Ltac grows_chain :=
  rewrite ?bind_run; cbn beta;
  lazymatch goal with
  | |- grows ?w ?w => apply grows_refl
  | |- grows ?w (ret _ ?x).2 => change (grows w x); grows_chain
  | |- grows ?w (time_Sleep _ ?x).2 => change (grows w x); grows_chain
  | |- grows ?w (os_Chmod _ ?x).2 => change (grows w x); grows_chain
  | |- grows ?w (log ?l ?m ?x).2 =>
      apply (grows_trans w x); [grows_chain | apply log_grows]
  | |- grows ?w (runCommand ?l ?n ?a ?x).2 =>
      apply (grows_trans w x); [grows_chain | apply runCommand_grows]
  | |- grows ?w (os_WriteFile ?p ?d ?x).2 =>
      apply (grows_trans w x); [grows_chain | apply os_WriteFile_grows]
  | |- grows ?w (os_Remove ?p ?x).2 =>
      apply (grows_trans w x); [grows_chain | apply os_Remove_grows]
  | |- grows ?w (match ?e with Some _ => _ | None => _ end ?x).2 =>
      destruct e; grows_chain
  end.

Lemma fallbackToChroot_grows (l : LXCBuilder) (rootfsPath scriptPath : string) (w : World) :
  grows w (fallbackToChroot l rootfsPath scriptPath w).2.
Proof. unfold fallbackToChroot. grows_chain. Qed.

Lemma cleanupMounts_grows (l : LXCBuilder) (rootfsPath : string) (w : World) :
  grows w (cleanupMounts l rootfsPath w).2.
Proof. unfold cleanupMounts. grows_chain. Qed.

Lemma waitForContainer_grows (l : LXCBuilder) (containerName : string) (rounds : nat) :
  forall w, grows w (waitForContainer l containerName rounds w).2.
Proof.
  induction rounds as [|k IH]; intros w; cbn [waitForContainer].
  - apply grows_refl.
  - rewrite bind_run.
    set (r := runCommand l "lxc-info" _ w).
    assert (G : grows w r.2) by apply runCommand_grows.
    destruct r.1; [|exact G].
    rewrite bind_run. eapply grows_trans; [exact G|]. apply IH.
Qed.

(** The fallback returns nil or the error of copying the script. *)
Lemma fallbackToChroot_result (l : LXCBuilder) (rootfsPath scriptPath : string) (w : World) :
  (fallbackToChroot l rootfsPath scriptPath w).1 = None \/
  exists e, (fallbackToChroot l rootfsPath scriptPath w).1
            = Some (Wrapped "failed to copy setup script" e).
Proof.
  unfold fallbackToChroot. rewrite !bind_run.
  destruct (runCommand l "cp" _ _).1 as [e|]; [right; exists e; reflexivity|].
  left. rewrite !bind_run. reflexivity.
Qed.

Ltac build_grows :=
  rewrite ?bind_run; cbn beta;
  lazymatch goal with
  | |- grows ?w ?w => apply grows_refl
  | |- grows ?w (ret _ ?x).2 => change (grows w x); build_grows
  | |- grows ?w (time_Sleep _ ?x).2 => change (grows w x); build_grows
  | |- grows ?w (os_Chmod _ ?x).2 => change (grows w x); build_grows
  | |- grows ?w (log ?l ?m ?x).2 =>
      apply (grows_trans w x); [build_grows | apply log_grows]
  | |- grows ?w (runCommand ?l ?n ?a ?x).2 =>
      apply (grows_trans w x); [build_grows | apply runCommand_grows]
  | |- grows ?w (os_WriteFile ?p ?d ?x).2 =>
      apply (grows_trans w x); [build_grows | apply os_WriteFile_grows]
  | |- grows ?w (os_Remove ?p ?x).2 =>
      apply (grows_trans w x); [build_grows | apply os_Remove_grows]
  | |- grows ?w (fallbackToChroot ?l ?a ?b ?x).2 =>
      apply (grows_trans w x); [build_grows | apply fallbackToChroot_grows]
  | |- grows ?w (cleanupMounts ?l ?a ?x).2 =>
      apply (grows_trans w x); [build_grows | apply cleanupMounts_grows]
  | |- grows ?w (waitForContainer ?l ?a ?k ?x).2 =>
      apply (grows_trans w x); [build_grows | apply waitForContainer_grows]
  | |- grows ?w (match ?e with Some _ => _ | None => _ end ?x).2 =>
      destruct e; build_grows
  end.

Lemma buildJava8Layer_without_parent
    (l : LXCBuilder) (containerName parentLayer : string) (w : World) :
  let w2 := after_cleanup l containerName parentLayer w in
  parentLayer = EmptyString \/ fs w2 !! Join [ContainerDir l; parentLayer] = None ->
  let r := buildJava8Layer l containerName parentLayer w in
  (exists ok rest,
     added w2 r.2 = EvExec "lxc-create" (lxcCreateArgs l containerName) ok :: rest) /\
  (forall e, r.1 <> Some (cloneFailed e)).
Proof.
  intros w2 Habsent r. subst r. unfold buildJava8Layer.
  rewrite bind_run, bind_run, bind_run, bind_run. fold (after_cleanup l containerName parentLayer w).
  fold w2. rewrite bind_run.
  match goal with
  | |- context [fst (?m w2)] =>
      assert (Hp : m w2 = (false, w2));
        [ destruct Habsent as [-> | Hnone];
          [ reflexivity
          | destruct (negb _); [rewrite dirExists_run, Hnone|]; reflexivity ]
        | rewrite Hp ]
  end.
  cbn [fst snd]. rewrite bind_run, bind_run. fold (lxcCreateArgs l containerName).
  destruct (runCommand_run l "lxc-create" (lxcCreateArgs l containerName) w2)
    as (R1 & _ & R3 & _).
  set (r3 := runCommand l "lxc-create" (lxcCreateArgs l containerName) w2) in *.
  destruct r3.1 as [e0|]; cbn [ret fst snd].
  { split; [|discriminate]. eexists _, []. apply added_app. exact R3. }
  match goal with
  | |- (exists ok rest, added w2 (snd ?X) = _) /\ _ => set (final := X)
  end.
  split.
  - assert (G : grows r3.2 final.2) by (subst final; build_grows).
    destruct G as [evs G]. eexists _, evs. apply added_app.
    rewrite G, R3, <- app_assoc. reflexivity.
  - intros e. subst final. rewrite !bind_run.
    repeat match goal with
           | |- context [match ?x with Some _ => _ | None => _ end] =>
               destruct x; rewrite ?bind_run; cbn [ret fst snd]
           end;
      try discriminate.
    all: match goal with
         | |- context [fallbackToChroot ?l ?a ?b ?x] =>
             destruct (fallbackToChroot_result l a b x) as [-> | [e1 ->]]; discriminate
         end.
Qed.

(** C2.  When the directory of the parent layer is absent, exporting a
    layered container (one whose name is not [ubuntu-base]) prints two
    lines and then is the base export of that container: it returns what
    the base export returns, so it succeeds whenever the base export does,
    and the base export starts from the disk, trace and host it was given.
    Building the layer does not fail for the missing parent either: the
    container is created afresh with [lxc-create] and the error of a
    failed clone is never returned. *)
Theorem absent_parent_falls_back_to_base_export
    (l : LXCBuilder) (wd cp containerName parentLayer : string) (w : World) :
  (Base cp <> "ubuntu-base" ->
   fs w !! Join [ContainerDir l; "ubuntu-base"] = None ->
   let w' :=
     (log l "Warning: Parent layer not found, exporting full container"
        (log l "📦 Exporting layered container with diff-only approach..." w).2).2 in
   exportContainerAsTarGz l wd cp w = exportBaseContainer l wd cp w' /\
   quiet w w' /\
   ((exportBaseContainer l wd cp w').1 = None ->
    (exportContainerAsTarGz l wd cp w).1 = None)) /\
  (let w2 := after_cleanup l containerName parentLayer w in
   parentLayer = EmptyString \/ fs w2 !! Join [ContainerDir l; parentLayer] = None ->
   let r := buildJava8Layer l containerName parentLayer w in
   (exists ok rest,
      added w2 r.2 = EvExec "lxc-create" (lxcCreateArgs l containerName) ok :: rest) /\
   (forall e, r.1 <> Some (cloneFailed e))).
Proof.
  split; [|apply buildJava8Layer_without_parent].
  intros Hname Habsent w'.
  assert (E : exportContainerAsTarGz l wd cp w = exportBaseContainer l wd cp w').
  { unfold exportContainerAsTarGz.
    apply String.eqb_neq in Hname. rewrite Hname. cbn [negb].
    unfold exportLayeredContainer. rewrite bind_run, bind_run, dirExists_run.
    cbn [fst snd]. rewrite (quiet_fs _ _ (log_quiet l _ w)), Habsent. cbn [negb].
    rewrite bind_run. reflexivity. }
  split; [exact E|]. split.
  - subst w'. quiet_chain.
  - intros H. rewrite E. exact H.
Qed.

Lemma absent_parent_falls_back_to_base_export_witness :
  Base "/w/containers/ubuntu-java8" <> "ubuntu-base" /\
  fs (world_of orphan_disk) !! Join [ContainerDir builder; "ubuntu-base"] = None /\
  (exportContainerAsTarGz builder "/w" "/w/containers/ubuntu-java8" (world_of orphan_disk)).1
  = None /\
  fs (exportContainerAsTarGz builder "/w" "/w/containers/ubuntu-java8"
        (world_of orphan_disk)).2 !! "/w/lxc-ubuntu-base-20250704-120030.tar.gz"
  = Some (Archive "/w/containers/ubuntu-java8/rootfs" ["."]) /\
  (forall e, (buildJava8Layer builder "ubuntu-java8" "ubuntu-base" (world_of orphan_disk)).1
             <> Some (cloneFailed e)).
Proof.
  assert (H1 : Base "/w/containers/ubuntu-java8" <> "ubuntu-base") by (vm_compute; discriminate).
  assert (H2 : fs (world_of orphan_disk) !! Join [ContainerDir builder; "ubuntu-base"] = None)
    by (vm_compute; reflexivity).
  split; [exact H1|]. split; [exact H2|].
  destruct (absent_parent_falls_back_to_base_export builder "/w"
              "/w/containers/ubuntu-java8" "ubuntu-java8" "ubuntu-base"
              (world_of orphan_disk)) as (Hexport & Hbuild).
  destruct (Hexport H1 H2) as (E & _ & S).
  split; [|split].
  - apply S. vm_compute. reflexivity.
  - rewrite E. vm_compute. reflexivity.
  - apply Hbuild. right. vm_compute. reflexivity.
Defined.

End LXCFacts.

(** ** The codes of a response *)

Module ResponseFacts.
Import Response ResponseData.

Lemma marker_is_setResponse (f : BaseResponse -> BaseResponse) :
  In f markers ->
  exists code name, responseCodeNames !! code = Some name /\ name <> EmptyString /\
                    forall resp, f resp = setResponse resp code.
Proof.
  intros H. unfold markers in H. cbn [In] in H.
  repeat destruct H as [H|H]; try contradiction; subst f;
    unfold Success, ErrorValidation, ErrorUnauthorized, ErrorNotAllowed, ErrorNotFound,
      ErrorInvalidCredentials, ErrorInternal, ErrorCanceled, ErrorDbTopic, ErrorDbMode,
      ErrorDbAnswer, ErrorDbAnswerCategory, ErrorDbDailyGame, ErrorDbDailyGameGuess,
      ErrorAlreadyExists;
    match goal with
    | |- exists c n, _ /\ _ /\ forall r, setResponse r ?k = _ =>
        exists k; eexists; split; [vm_compute; reflexivity|];
        split; [discriminate|reflexivity]
    end.
Qed.

(** X4.  Each of the fifteen functions that mark a response sets a code
    and the name the table [responseCodeNames] holds for it, which is
    never empty, whatever the response held before; no two of them set
    the same code; and for a code the table does not hold [setResponse]
    leaves an empty description. *)
Theorem markers_set_code_and_name (resp : BaseResponse) :
  (forall f, In f markers ->
     responseCodeNames !! base_Code (f resp) = Some (base_Desc (f resp)) /\
     base_Desc (f resp) <> EmptyString /\
     forall resp', f resp' = f resp) /\
  NoDup (map (fun f => base_Code (f resp)) markers) /\
  (forall code, responseCodeNames !! code = None ->
     base_Desc (setResponse resp code) = EmptyString).
Proof.
  split; [|split].
  - intros f Hf. destruct (marker_is_setResponse f Hf) as (c & n & L & Hn & E).
    split; [|split].
    + rewrite E. unfold setResponse, Code_String. cbn [base_Code base_Desc].
      rewrite L. cbn [default]. exact L.
    + rewrite E. unfold setResponse. cbn [base_Desc]. rewrite L. exact Hn.
    + intros resp'. rewrite !E. reflexivity.
  - apply (bool_decide_unpack _). vm_compute. exact I.
  - intros code H. unfold setResponse. cbn [base_Desc]. rewrite H. reflexivity.
Qed.
End ResponseFacts.

(** ** The builds, their helpers and the exports *)

Module BuildFacts.
Import LXC LXCObs LXCSim LXCFacts BuildObs.

Local Open Scope nat_scope.
Local Arguments String.append : simpl nomatch.

(** *** Single steps *)

Lemma runCommand_trace (l : LXCBuilder) (name : string) (args : list string) (w : World) :
  exists ok,
    trace (runCommand l name args w).2 = trace w ++ [EvExec name args ok] /\
    ((runCommand l name args w).1 = None <-> ok = true).
Proof.
  destruct (runCommand_run l name args w) as (H1 & _ & H3 & _).
  eexists. split; [exact H3|].
  rewrite H1. rewrite bool_decide_eq_true. reflexivity.
Qed.

Lemma log_trace (l : LXCBuilder) (msg : string) (w : World) :
  trace (log l msg w).2 = trace w.
Proof. apply (quiet_trace _ _ (log_quiet l msg w)). Qed.

(** X5.  [cleanupMounts] runs exactly three commands, [umount] of the
    [dev], [sys] and [proc] directories of the root file system, in that
    order, and runs each of them whether or not the ones before failed. *)
Theorem cleanupMounts_unmounts_all (l : LXCBuilder) (rootfsPath : string) (w : World) :
  let r := cleanupMounts l rootfsPath w in
  exists b1 b2 b3,
    added w r.2 = [EvExec "umount" [Join [rootfsPath; "dev"]] b1;
                   EvExec "umount" [Join [rootfsPath; "sys"]] b2;
                   EvExec "umount" [Join [rootfsPath; "proc"]] b3].
Proof.
  cbv zeta. unfold cleanupMounts. rewrite !bind_run. cbn beta.
  set (w1 := (log l _ w).2).
  destruct (runCommand_trace l "umount" [Join [rootfsPath; "dev"]] w1) as (b1 & T1 & _).
  set (w2 := (runCommand l "umount" [Join [rootfsPath; "dev"]] w1).2) in *.
  destruct (runCommand_trace l "umount" [Join [rootfsPath; "sys"]] w2) as (b2 & T2 & _).
  set (w3 := (runCommand l "umount" [Join [rootfsPath; "sys"]] w2).2) in *.
  destruct (runCommand_trace l "umount" [Join [rootfsPath; "proc"]] w3) as (b3 & T3 & _).
  exists b1, b2, b3. apply added_app.
  change (trace (runCommand l "umount" [Join [rootfsPath; "proc"]] w3).2 =
          trace w ++ [EvExec "umount" [Join [rootfsPath; "dev"]] b1;
                      EvExec "umount" [Join [rootfsPath; "sys"]] b2;
                      EvExec "umount" [Join [rootfsPath; "proc"]] b3]).
  rewrite T3, T2, T1. unfold w1. rewrite log_trace.
  rewrite <- !app_assoc. reflexivity.
Qed.

(** X6.  The loop that waits for the container runs [lxc-info] and
    nothing else, at most [rounds] times (30 in the builds); every run
    but the last one failed, so it stops at the first success, and when
    the last run failed too all [rounds] runs were made. *)
Theorem waitForContainer_polls (l : LXCBuilder) (containerName : string) (rounds : nat) (w : World) :
  let r := waitForContainer l containerName rounds w in
  let args := ["-n"; containerName; "-P"; ContainerDir l; "-s"] in
  exists oks : list bool,
    added w r.2 = map (EvExec "lxc-info" args) oks /\
    length oks <= rounds /\
    (forall i, S i < length oks -> oks !! i = Some false) /\
    (last oks = Some false -> length oks = rounds) /\
    (0 < rounds -> oks <> []).
Proof.
  cbv zeta. revert w. induction rounds as [|k IH]; intros w.
  - exists []. cbn [waitForContainer]. change ((ret tt w).2) with w.
    rewrite (added_app w w []) by (rewrite app_nil_r; reflexivity).
    repeat split; try reflexivity; cbn; try lia; try discriminate.
  - cbn [waitForContainer]. rewrite bind_run.
    set (args := ["-n"; containerName; "-P"; ContainerDir l; "-s"]).
    destruct (runCommand_trace l "lxc-info" args w) as (ok & T & R).
    set (r1 := runCommand l "lxc-info" args w) in *.
    destruct (r1.1) as [e|] eqn:E.
    + assert (ok = false) as ->.
      { destruct ok; [|reflexivity]. destruct R as [_ R]. discriminate (R eq_refl). }
      rewrite bind_run. change ((time_Sleep 1 r1.2).2) with (r1.2).
      destruct (IH r1.2) as (oks & A & L & F & G & N).
      exists (false :: oks).
      assert (Hg : grows r1.2 (waitForContainer l containerName k r1.2).2)
        by apply waitForContainer_grows.
      destruct Hg as (evs & Hevs).
      rewrite (added_app _ _ _ Hevs) in A. subst evs.
      split; [|split; [|split; [|split]]].
      * apply added_app. rewrite Hevs, T, <- app_assoc. reflexivity.
      * cbn. lia.
      * intros [|i] Hi; [reflexivity|]. cbn in Hi. cbn. apply F. lia.
      * intros Hl. cbn [length]. f_equal.
        destruct oks as [|b oks'].
        -- destruct k as [|k']; [reflexivity|]. exfalso. apply N; [lia|reflexivity].
        -- apply G. exact Hl.
      * discriminate.
    + exists [ok]. change ((ret tt r1.2).2) with (r1.2).
      split; [apply added_app; exact T|].
      split; [cbn; lia|]. split; [intros i Hi; cbn in Hi; lia|].
      split; [|discriminate].
      intros [= ->]. destruct R as [R _]. discriminate (R eq_refl).
Qed.

(** X7.  [fallbackToChroot] copies the script to [setup.sh] in the root
    file system.  When that copy fails it returns the error, wrapped as
    "failed to copy setup script", and runs nothing else; otherwise it
    runs [chroot] on [/setup.sh] once and returns nil whether or not
    making the script executable and the [chroot] succeed. *)
Theorem fallbackToChroot_outcome (l : LXCBuilder) (rootfsPath scriptPath : string) (w : World) :
  let r := fallbackToChroot l rootfsPath scriptPath w in
  let target := Join [rootfsPath; "setup.sh"] in
  let o := host w (spawned w) (fs w) "cp" [scriptPath; target] in
  match out_err o with
  | Some e =>
      r.1 = Some (Wrapped "failed to copy setup script" e) /\
      fs r.2 = out_fs o /\
      added w r.2 = [EvExec "cp" [scriptPath; target] false]
  | None =>
      r.1 = None /\
      exists b, added w r.2 = [EvExec "cp" [scriptPath; target] true;
                               EvExec "chroot" [rootfsPath; "/bin/bash"; "/setup.sh"] b]
  end.
Proof.
  cbv zeta. unfold fallbackToChroot. rewrite !bind_run. cbn beta.
  set (w1 := (log l _ w).2).
  assert (Q1 : quiet w w1) by apply log_quiet.
  set (target := Join [rootfsPath; "setup.sh"]).
  destruct (runCommand_run l "cp" [scriptPath; target] w1) as (R1 & R2 & R3 & R4 & R5 & R6).
  set (r2 := runCommand l "cp" [scriptPath; target] w1) in *.
  rewrite (quiet_host _ _ Q1), (quiet_spawned _ _ Q1), (quiet_fs _ _ Q1),
    (quiet_trace _ _ Q1) in *.
  rewrite R1.
  destruct (out_err (host w (spawned w) (fs w) "cp" [scriptPath; target])) as [e|] eqn:E.
  - change ((ret (Some (Wrapped "failed to copy setup script" e)) r2.2).1)
      with (Some (Wrapped "failed to copy setup script" e)).
    change ((ret (Some (Wrapped "failed to copy setup script" e)) r2.2).2) with (r2.2).
    split; [reflexivity|]. split; [exact R2|].
    apply added_app. rewrite R3. rewrite bool_decide_eq_false_2 by discriminate. reflexivity.
  - rewrite !bind_run. cbn beta.
    rewrite bool_decide_eq_true_2 in R3 by reflexivity.
    set (r3 := os_Chmod target r2.2).
    assert (E3 : r3.2 = r2.2) by reflexivity.
    match goal with |- context [snd (?m r3.2)] => set (w4 := snd (m r3.2)) end.
    assert (Q4 : quiet r2.2 w4).
    { unfold w4. rewrite E3. destruct r3.1; [apply log_quiet | apply quiet_refl]. }
    destruct (runCommand_trace l "chroot" [rootfsPath; "/bin/bash"; "/setup.sh"] w4)
      as (b & T & _).
    set (r5 := runCommand l "chroot" [rootfsPath; "/bin/bash"; "/setup.sh"] w4) in *.
    match goal with |- context [snd (?m r5.2)] => set (w6 := snd (m r5.2)) end.
    assert (Q6 : quiet r5.2 w6).
    { unfold w6. destruct r5.1; [apply log_quiet | apply quiet_refl]. }
    split; [reflexivity|]. exists b. apply added_app.
    change (trace w6 = trace w ++ [EvExec "cp" [scriptPath; target] true;
                                   EvExec "chroot" [rootfsPath; "/bin/bash"; "/setup.sh"] b]).
    rewrite (quiet_trace _ _ Q6), T, (quiet_trace _ _ Q4), R3, <- app_assoc. reflexivity.
Qed.

Lemma os_WriteFile_cases (path data : string) (w : World) :
  let r := os_WriteFile path data w in
  (r.1 = None /\ trace r.2 = trace w ++ [EvWriteFile path data true] /\
   fs r.2 = <[path := File data]> (fs w)) \/
  (exists c, r.1 = Some c /\ trace r.2 = trace w ++ [EvWriteFile path data false] /\
             fs r.2 = fs w).
Proof.
  cbv zeta. unfold os_WriteFile.
  destruct (fs w !! path) as [[]|]; cbn; eauto 6.
Qed.



(** *** The exports *)

(** X10.  [exportBaseContainer] runs [tar] exactly once, on the root
    file system and with the time-stamped archive name, after nothing but
    file writes; it runs no other command; it returns nil exactly when
    that [tar] succeeded (a metadata file or a link that could not be
    written does not fail it), and its only error is the [tar] error
    wrapped as "failed to create tar.gz archive", after which nothing
    else is done. *)
Theorem exportBaseContainer_fails_only_with_tar
    (l : LXCBuilder) (wd cp : string) (w : World) :
  let r := exportBaseContainer l wd cp w in
  let name := "lxc-ubuntu-base-" +:+ Format_stamp (clock w (S (ticks w))) +:+ ".tar.gz" in
  let args := ["-czf"; Join [wd; name]; "-C"; Join [cp; "rootfs"]; "."] in
  exists pre ok rest,
    added w r.2 = pre ++ EvExec "tar" args ok :: rest /\
    Forall is_write pre /\
    Forall (fun e => ~ is_exec e) rest /\
    (r.1 = None <-> ok = true) /\
    (forall e, r.1 = Some e ->
       exists c, e = Wrapped "failed to create tar.gz archive" c /\ rest = []).
Proof.
  cbv zeta.
  destruct (exportBaseContainer_shape l wd cp w) as (wT & C & H).
  destruct (calm_trace _ _ _ C) as (pre & Tpre & Wpre).
  cbv zeta in H.
  destruct (out_err _) as [e|] in H.
  - destruct H as (R & _ & T).
    exists pre, false, []. split; [|split; [exact Wpre|split; [constructor|split]]].
    + apply added_app. rewrite T, Tpre, <- app_assoc. reflexivity.
    + rewrite R. split; discriminate.
    + intros e' He. rewrite R in He. injection He as <-. eauto.
  - destruct H as (R & b1 & b2 & T & _).
    eexists pre, true, _. split; [|split; [exact Wpre|split; [|split]]].
    + apply added_app. rewrite T, Tpre, <- app_assoc. reflexivity.
    + repeat constructor; intros [].
    + rewrite R. split; reflexivity.
    + intros e' He. rewrite R in He. discriminate.
Qed.



(** *** The last component of a joined path *)

Lemma list_ascii_append (a b : string) :
  String.list_ascii_of_string (a +:+ b)
  = String.list_ascii_of_string a ++ String.list_ascii_of_string b.
Proof. induction a as [|c a IH]; [reflexivity|]. cbn. f_equal. exact IH. Qed.

Lemma has_char_list (c : ascii) (s : string) :
  has_char c s = false ->
  Forall (fun x => Ascii.eqb x c = false) (String.list_ascii_of_string s).
Proof.
  induction s as [|x s IH]; cbn; [constructor|].
  intros H. apply orb_false_iff in H as [H1 H2]. constructor; auto.
Qed.

Lemma take_until_slash_app (xs rest : list ascii) :
  Forall (fun x => Ascii.eqb x "/" = false) xs ->
  take_until_slash (xs ++ "/"%char :: rest) = xs /\ take_until_slash xs = xs.
Proof.
  induction 1 as [|x xs Hx _ [IH1 IH2]]; cbn; [split; reflexivity|].
  rewrite Hx. split; f_equal; assumption.
Qed.

Lemma drop_trailing_slashes_head (x : ascii) (xs : list ascii) :
  Ascii.eqb x "/" = false -> drop_trailing_slashes (x :: xs) = x :: xs.
Proof. intros H. cbn. rewrite H. reflexivity. Qed.

Lemma Base_of_name (pre name : string) :
  name <> EmptyString -> has_char "/" name = false ->
  Base (pre +:+ "/" +:+ name) = name /\ Base name = name.
Proof.
  intros Hne Hs.
  pose proof (has_char_list _ _ Hs) as F.
  assert (Fr : Forall (fun x => Ascii.eqb x "/" = false)
                 (rev (String.list_ascii_of_string name))).
  { apply Forall_rev. exact F. }
  destruct (rev (String.list_ascii_of_string name)) as [|x xs] eqn:Er.
  { destruct name; [congruence|]. cbn in Er. destruct (rev _); discriminate. }
  assert (Hx : Ascii.eqb x "/" = false) by (inversion Fr; assumption).
  split.
  - unfold Base.
    destruct (pre +:+ "/" +:+ name) eqn:Ep.
    { destruct pre; discriminate. }
    rewrite <- Ep. rewrite !list_ascii_append, !rev_app_distr. cbn [String.list_ascii_of_string rev app].
    rewrite Er. rewrite <- !app_assoc. cbn [app].
    rewrite drop_trailing_slashes_head by exact Hx.
    change (x :: xs ++ "/"%char :: rev (String.list_ascii_of_string pre))
      with ((x :: xs) ++ "/"%char :: rev (String.list_ascii_of_string pre)).
    rewrite (proj1 (take_until_slash_app (x :: xs) _ Fr)).
    rewrite <- Er, rev_involutive. apply String.string_of_list_ascii_of_string.
  - unfold Base. destruct name as [|c name'] eqn:En; [congruence|]. rewrite <- En in *.
    rewrite Er. rewrite drop_trailing_slashes_head by exact Hx.
    rewrite (proj2 (take_until_slash_app (x :: xs) [] Fr)).
    rewrite <- Er, rev_involutive. apply String.string_of_list_ascii_of_string.
Qed.

Lemma Base_Join (dir name : string) :
  name <> EmptyString -> has_char "/" name = false ->
  Base (Join [dir; name]) = name.
Proof.
  intros Hne Hs. unfold Join. cbn [List.filter].
  rewrite (eqb_empty_false name Hne). cbn [negb].
  destruct (String.eqb dir EmptyString); cbn [negb strings_Join].
  - apply (Base_of_name EmptyString name Hne Hs).
  - apply (Base_of_name dir name Hne Hs).
Qed.

(** X12.  For a container directory and a name joined by
    [filepath.Join] (the name non-empty, without separator and not a dot
    entry) [filepath.Base] gives the name back, so
    [exportContainerAsTarGz] on that path is the base export when the
    name is [ubuntu-base] and the layered export under that name
    otherwise. *)
Theorem export_dispatches_on_container_name
    (l : LXCBuilder) (wd dir name : string) (w : World) :
  name <> EmptyString -> has_char "/" name = false -> name <> "." -> name <> ".." ->
  Base (Join [dir; name]) = name /\
  exportContainerAsTarGz l wd (Join [dir; name]) w
  = if String.eqb name "ubuntu-base"
    then exportBaseContainer l wd (Join [dir; name]) w
    else exportLayeredContainer l wd (Join [dir; name]) name w.
Proof.
  intros Hne Hs _ _.
  assert (B : Base (Join [dir; name]) = name) by (apply Base_Join; assumption).
  split; [exact B|].
  unfold exportContainerAsTarGz. rewrite B.
  destruct (String.eqb name "ubuntu-base"); reflexivity.
Qed.

Lemma export_dispatches_on_container_name_witness :
  Base (Join ["/w/containers"; "ubuntu-java8"]) = "ubuntu-java8" /\
  exportContainerAsTarGz builder "/w" (Join ["/w/containers"; "ubuntu-java8"])
    (world_of java_disk)
  = exportLayeredContainer builder "/w" (Join ["/w/containers"; "ubuntu-java8"])
      "ubuntu-java8" (world_of java_disk).
Proof.
  apply (export_dispatches_on_container_name builder "/w" "/w/containers" "ubuntu-java8"
           (world_of java_disk)); [discriminate|reflexivity|discriminate|discriminate].
Defined.

(** *** Replacing the name of the parent layer *)

Lemma prefix_split (old s : string) :
  String.prefix old s = true -> exists rest, s = old +:+ rest.
Proof.
  revert s. induction old as [|c old IH]; intros s H.
  - exists s. reflexivity.
  - destruct s as [|d s]; [discriminate|]. cbn in H.
    destruct (Ascii.ascii_dec c d) as [->|]; [|discriminate].
    destruct (IH s H) as (rest & ->). exists rest. reflexivity.
Qed.

Lemma length_append (a b : string) :
  String.length (a +:+ b) = String.length a + String.length b.
Proof. induction a as [|c a IH]; [reflexivity|]. cbn. f_equal. exact IH. Qed.

Lemma replace_from_skip (old new : string) (a b : string) :
  replace_from old new (String.length a) (a +:+ b) = replace_from old new 0 b.
Proof.
  induction a as [|c a IH]; [reflexivity|]. cbn [String.length].
  change (String c a +:+ b) with (String c (a +:+ b)). cbn [replace_from]. exact IH.
Qed.

Lemma replace_from_match (old' new rest : string) (c : ascii) :
  replace_from (String c old') new 0 (String c old' +:+ rest)
  = new +:+ replace_from (String c old') new 0 rest.
Proof.
  change (String c old' +:+ rest) with (String c (old' +:+ rest)).
  cbn [replace_from].
  assert (P : String.prefix (String c old') (String c (old' +:+ rest)) = true).
  { cbn. destruct (Ascii.ascii_dec c c); [|congruence].
    clear. induction old' as [|d o IH]; [destruct rest; reflexivity|].
    cbn. destruct (Ascii.ascii_dec d d); [exact IH|congruence]. }
  rewrite P.
  replace (String.length (String c old') - 1) with (String.length old') by (cbn; lia).
  rewrite replace_from_skip. reflexivity.
Qed.

Lemma occurs_match (old rest : string) : occurs old (old +:+ rest) = true.
Proof.
  assert (P : String.prefix old (old +:+ rest) = true).
  { induction old as [|d o IH]; [destruct rest; reflexivity|].
    cbn. destruct (Ascii.ascii_dec d d); [exact IH|congruence]. }
  destruct (old +:+ rest); cbn in *; rewrite P; reflexivity.
Qed.

Lemma append_same_length_inj (a b x y : string) :
  String.length a = String.length b -> a +:+ x = b +:+ y -> a = b.
Proof.
  revert b. induction a as [|c a IH]; intros [|d b] L E; try discriminate; [reflexivity|].
  injection L as L. injection E as -> E. f_equal. exact (IH b L E).
Qed.

(** What replacing does to the length, and that it changes a text in which
    [old] occurs. *)
Lemma replace_from_changes (old' new : string) (c : ascii) (n : nat) :
  forall s, String.length s <= n ->
    let old := String c old' in
    exists m,
      String.length (replace_from old new 0 s) + m * String.length old
      = String.length s + m * String.length new /\
      (occurs old s = true -> 1 <= m) /\
      (occurs old s = true -> String.length new = String.length old -> new <> old ->
       replace_from old new 0 s <> s).
Proof.
  induction n as [|n IH]; intros s L; cbv zeta.
  - destruct s; [|cbn in L; lia]. exists 0. cbn. repeat split; try discriminate.
  - destruct s as [|d s']; [exists 0; cbn; repeat split; discriminate|].
    destruct (String.prefix (String c old') (String d s')) eqn:P.
    + destruct (prefix_split _ _ P) as (rest & E). rewrite E.
      rewrite replace_from_match.
      assert (Lr : String.length rest <= n).
      { apply (f_equal String.length) in E. rewrite length_append in E.
        cbn in E, L. lia. }
      destruct (IH rest Lr) as (m & Hm & _ & Hd).
      exists (S m). rewrite !length_append, !Nat.mul_succ_l.
      split; [clear -Hm; revert Hm;
              generalize (String.length (replace_from (String c old') new 0 rest));
              generalize (String.length (String c old')); intros; nia|].
      split; [lia|].
      intros _ Hl Hn Heq. apply Hn.
      exact (append_same_length_inj _ _ _ _ Hl Heq).
    + cbn [replace_from]. rewrite P.
      assert (Lr : String.length s' <= n) by (cbn in L; lia).
      destruct (IH s' Lr) as (m & Hm & H1 & Hd).
      assert (O : occurs (String c old') (String d s') = occurs (String c old') s').
      { cbn [occurs]. rewrite P. reflexivity. }
      exists m. rewrite O. cbn [String.length] in Hm |- *. split; [lia|]. split; [exact H1|].
      intros Ho Hl Hn Heq. injection Heq as Heq. exact (Hd Ho Hl Hn Heq).
Qed.

Lemma ReplaceAll_changes (s old new : string) :
  old <> EmptyString -> new <> old -> occurs old s = true ->
  strings_ReplaceAll s old new <> s.
Proof.
  intros Ho Hn Hocc. destruct old as [|c old']; [congruence|].
  unfold strings_ReplaceAll.
  destruct (replace_from_changes old' new c (String.length s) s (le_n _))
    as (m & Hm & H1 & Hd).
  specialize (H1 Hocc).
  destruct (Nat.eq_dec (String.length new) (String.length (String c old'))) as [El|Nl].
  - exact (Hd Hocc El Hn).
  - intros Heq. rewrite Heq in Hm. apply Nl. nia.
Qed.

(** X13.  When [createLayerFromParent] has copied the parent (whose name
    is not empty and differs from the new name) and the copy has a
    configuration file, that file is written exactly when the name of the
    parent occurs in it: replacing an occurrence always changes the text.
    It then holds the text with the name replaced; otherwise the disk is
    what the copy left. *)
Theorem config_rewritten_iff_parent_named
    (l : LXCBuilder) (containerName parentLayer content : string) (w : World) :
  let r := createLayerFromParent l containerName parentLayer w in
  let newPath := Join [ContainerDir l; containerName] in
  let args := ["-r"; Join [ContainerDir l; parentLayer]; newPath] in
  let o := host w (spawned w) (fs w) "cp" args in
  let configPath := Join [newPath; "config"] in
  parentLayer <> EmptyString -> containerName <> parentLayer ->
  out_err o = None -> out_fs o !! configPath = Some (File content) ->
  ((exists path data ok, In (EvWriteFile path data ok) (added w r.2))
   <-> occurs parentLayer content = true) /\
  (occurs parentLayer content = true ->
   fs r.2 !! configPath
   = Some (File (strings_ReplaceAll content parentLayer containerName)) /\
   strings_ReplaceAll content parentLayer containerName <> content) /\
  (occurs parentLayer content = false -> fs r.2 = out_fs o).
Proof.
  cbv zeta. intros Hp Hn He Hc.
  pose proof (createLayerFromParent_shape l containerName parentLayer w) as Sh.
  cbv zeta in Sh. rewrite He, Hc in Sh. destruct Sh as (_ & Sh).
  destruct (occurs parentLayer content) eqn:O.
  - pose proof (ReplaceAll_changes content parentLayer containerName Hp Hn O) as Hd.
    destruct (String.eqb _ content) eqn:Eq in Sh.
    { apply String.eqb_eq in Eq. contradiction. }
    destruct Sh as (F & A). split; [|split].
    + split; [reflexivity|]. intros _. rewrite A. eexists _, _, _. right. left. reflexivity.
    + intros _. split; [|exact Hd]. rewrite F. apply lookup_insert_eq.
    + discriminate.
  - rewrite (ReplaceAll_absent content parentLayer containerName O) in Sh.
    rewrite String.eqb_refl in Sh. destruct Sh as (F & A). split; [|split].
    + split; [|discriminate]. intros (p & d & ok & Hin). rewrite A in Hin.
      destruct Hin as [Hin|[]]. discriminate.
    + discriminate.
    + intros _. exact F.
Qed.

Lemma config_rewritten_iff_parent_named_witness :
  occurs "ubuntu-base" ("lxc.uts.name = ubuntu-base" +:+ nl
            +:+ "lxc.rootfs.path = dir:/w/containers/ubuntu-base/rootfs" +:+ nl
            +:+ "lxc.arch = amd64" +:+ nl) = true /\
  exists path data ok,
    In (EvWriteFile path data ok)
       (added (world_of parent_disk)
          (createLayerFromParent builder "ubuntu-java8" "ubuntu-base" (world_of parent_disk)).2).
Proof.
  split; [vm_compute; reflexivity|].
  apply (proj1 (config_rewritten_iff_parent_named builder "ubuntu-java8" "ubuntu-base"
           ("lxc.uts.name = ubuntu-base" +:+ nl
            +:+ "lxc.rootfs.path = dir:/w/containers/ubuntu-base/rootfs" +:+ nl
            +:+ "lxc.arch = amd64" +:+ nl) (world_of parent_disk)
           ltac:(discriminate) ltac:(discriminate)
           ltac:(vm_compute; reflexivity) ltac:(vm_compute; reflexivity))).
  vm_compute. reflexivity.
Defined.

(** *** Which failures end a build *)

Section Within.
Variable P : event -> bool.

Lemma within_refl (w : World) : within P w w.
Proof. exists []. rewrite app_nil_r. split; [reflexivity|constructor]. Qed.

Lemma within_trans (w1 w2 w3 : World) : within P w1 w2 -> within P w2 w3 -> within P w1 w3.
Proof.
  intros (e1 & T1 & F1) (e2 & T2 & F2). exists (e1 ++ e2).
  rewrite T2, T1, <- app_assoc. split; [reflexivity|]. apply Forall_app. split; assumption.
Qed.

Lemma quiet_within (w w' : World) : quiet w w' -> within P w w'.
Proof.
  intros Q. exists []. rewrite app_nil_r. split; [apply (quiet_trace _ _ Q)|constructor].
Qed.

Lemma log_within (l : LXCBuilder) (msg : string) (w : World) : within P w (log l msg w).2.
Proof. apply quiet_within, log_quiet. Qed.

Lemma runCommand_within (l : LXCBuilder) (name : string) (args : list string) (w : World) :
  (forall ok, P (EvExec name args ok) = true) ->
  within P w (runCommand l name args w).2.
Proof.
  intros H. destruct (runCommand_trace l name args w) as (ok & T & _).
  exists [EvExec name args ok]. split; [exact T|].
  constructor; [apply H|constructor].
Qed.

Lemma runCommand_done (l : LXCBuilder) (name : string) (args : list string) (w : World) :
  P (EvExec name args true) = true ->
  (runCommand l name args w).1 = None -> within P w (runCommand l name args w).2.
Proof.
  intros HP H. destruct (runCommand_trace l name args w) as (ok & T & R).
  apply R in H. subst ok.
  exists [EvExec name args true]. split; [exact T|]. repeat constructor. exact HP.
Qed.

Lemma os_Remove_within (path : string) (w : World) :
  (forall ok, P (EvRemove path ok) = true) -> within P w (os_Remove path w).2.
Proof.
  intros H. unfold os_Remove.
  destruct (fs w !! path) as [[]|]; [| destruct (has_child _ _) | | |];
    (eexists [_]; split; [reflexivity|repeat constructor; apply H]).
Qed.

Lemma os_WriteFile_within (path data : string) (w : World) :
  (forall ok, P (EvWriteFile path data ok) = true) ->
  within P w (os_WriteFile path data w).2.
Proof.
  intros H. unfold os_WriteFile.
  destruct (fs w !! path) as [[]|];
    (eexists [_]; split; [reflexivity|repeat constructor; apply H]).
Qed.

End Within.

Lemma runCommand_fatal (l : LXCBuilder) (name : string) (args : list string) (w : World) (e : error) :
  (runCommand l name args w).1 = Some e ->
  trace (runCommand l name args w).2 = trace w ++ [EvExec name args false].
Proof.
  intros H. destruct (runCommand_trace l name args w) as (ok & T & R).
  destruct ok; [|exact T]. destruct R as [_ R]. rewrite R in H by reflexivity. discriminate.
Qed.

Lemma cleanupMounts_within (P : event -> bool) (l : LXCBuilder) (rootfsPath : string)
    (w : World) :
  (forall args ok, P (EvExec "umount" args ok) = true) ->
  within P w (cleanupMounts l rootfsPath w).2.
Proof.
  intros H. unfold cleanupMounts. rewrite !bind_run. cbn beta.
  repeat (eapply within_trans; [|apply runCommand_within; intros ok; apply H]).
  apply log_within.
Qed.

Lemma waitForContainer_within (P : event -> bool) (l : LXCBuilder) (containerName : string)
    (rounds : nat) :
  (forall args ok, P (EvExec "lxc-info" args ok) = true) ->
  forall w, within P w (waitForContainer l containerName rounds w).2.
Proof.
  intros H. induction rounds as [|k IH]; intros w; cbn [waitForContainer].
  - apply within_refl.
  - rewrite bind_run.
    set (r := runCommand l "lxc-info" _ w).
    assert (G : within P w r.2) by (apply runCommand_within; intros ok; apply H).
    destruct r.1; [|exact G].
    rewrite bind_run. eapply within_trans; [exact G|]. apply IH.
Qed.

(** Chains the steps of a build. *)
Ltac build_within :=
  rewrite ?bind_run; cbn beta;
  lazymatch goal with
  | |- within _ ?w ?w => apply within_refl
  | |- within ?P ?w (ret _ ?x).2 => change (within P w x); build_within
  | |- within ?P ?w (time_Sleep _ ?x).2 => change (within P w x); build_within
  | |- within ?P ?w (os_Chmod _ ?x).2 => change (within P w x); build_within
  | |- within ?P ?w (log ?l ?m ?x).2 =>
      apply (within_trans P w x); [build_within | apply log_within]
  | |- within ?P ?w (runCommand ?l ?n ?a ?x).2 =>
      apply (within_trans P w x);
        [build_within | apply runCommand_within; intros []; reflexivity]
  | |- within ?P ?w (os_Remove ?p ?x).2 =>
      apply (within_trans P w x);
        [build_within | apply os_Remove_within; intros []; reflexivity]
  | |- within ?P ?w (cleanupMounts ?l ?a ?x).2 =>
      apply (within_trans P w x);
        [build_within | apply cleanupMounts_within; intros ? []; reflexivity]
  | |- within ?P ?w (waitForContainer ?l ?a ?k ?x).2 =>
      apply (within_trans P w x);
        [build_within | apply waitForContainer_within; intros ? []; reflexivity]
  | |- within ?P ?w (match ?e with Some _ => _ | None => _ end ?x).2 =>
      destruct e; build_within
  end.

Section Verdict.
Context {fatal : event -> bool} {failure : error -> bool}.

Lemma verdict_trans (w w1 : World) (r : option error * World) :
  within (fun e => negb (fatal e)) w w1 ->
  verdict_of fatal failure w1 r -> verdict_of fatal failure w r.
Proof.
  unfold verdict_of. intros Sp. destruct r.1 as [e|].
  - intros (B & evs & x & T & I & F). split; [exact B|].
    destruct Sp as (e1 & T1 & _). exists (e1 ++ evs), x.
    rewrite T, T1, <- app_assoc. split; [reflexivity|]. split; [|exact F].
    apply in_or_app. right. exact I.
  - apply (within_trans _ _ _ _ Sp).
Qed.

Lemma verdict_bind {A} (m : M A) (k : A -> M (option error)) (w : World) :
  within (fun e => negb (fatal e)) w (m w).2 ->
  verdict_of fatal failure (m w).2 (k (m w).1 (m w).2) ->
  verdict_of fatal failure w ((m ≫= k) w).
Proof. intros Sp V. rewrite bind_run. exact (verdict_trans _ _ _ Sp V). Qed.

Lemma verdict_fail (w w' : World) (e : error) (x : event) (pre post : list event) :
  failure e = true -> fatal x = true ->
  trace w' = trace w ++ pre ++ x :: post ->
  verdict_of fatal failure w (Some e, w').
Proof.
  intros B F T. split; [exact B|]. exists (pre ++ x :: post), x.
  split; [exact T|]. split; [|exact F]. apply in_or_app. right. left. reflexivity.
Qed.

Lemma verdict_done (w : World) (r : option error * World) :
  r.1 = None -> within (fun e => negb (fatal e)) w r.2 -> verdict_of fatal failure w r.
Proof. unfold verdict_of. intros ->. exact id. Qed.

Lemma verdict_seq (m k : M (option error)) (w : World) :
  verdict_of fatal failure w (m w) ->
  ((m w).1 = None -> verdict_of fatal failure (m w).2 (k (m w).2)) ->
  verdict_of fatal failure w
    ((x ← m; match x with Some e => ret (Some e) | None => k end) w).
Proof.
  intros V K. rewrite bind_run. unfold verdict_of in V.
  destruct (m w).1 as [e|] eqn:E.
  - exact V.
  - apply (verdict_trans _ (m w).2); [exact V|]. apply K. reflexivity.
Qed.

(** What the verdict says about the result and the events of a build. *)
Lemma verdict_reads (w : World) (r : option error * World) :
  verdict_of fatal failure w r ->
  (r.1 = None <-> Forall (fun e => fatal e = false) (added w r.2)) /\
  (forall e, r.1 = Some e -> failure e = true).
Proof.
  unfold verdict_of. destruct r.1 as [e|].
  - intros (B & evs & x & T & I & F). rewrite (added_app _ _ _ T). split.
    + split; [discriminate|]. intros A. rewrite List.Forall_forall in A.
      rewrite (A x I) in F. discriminate.
    + intros e' [= <-]. exact B.
  - intros (evs & T & A). rewrite (added_app _ _ _ T). split; [|discriminate].
    split; [intros _|reflexivity].
    eapply Forall_impl; [exact A|]. intros x Hx. apply negb_true_iff. exact Hx.
Qed.

End Verdict.

Lemma fallbackToChroot_verdict (l : LXCBuilder) (rootfsPath scriptPath : string) (w : World) :
  verdict w (fallbackToChroot l rootfsPath scriptPath w).
Proof.
  unfold fallbackToChroot.
  apply verdict_bind; [apply log_within|]. set (w1 := (log l _ w).2).
  rewrite bind_run.
  set (r2 := runCommand l "cp" _ w1).
  destruct r2.1 as [e|] eqn:E.
  - apply (verdict_fail w1 r2.2 _ (EvExec "cp" [scriptPath; Join [rootfsPath; "setup.sh"]] false) [] []);
      [reflexivity|reflexivity|].
    exact (runCommand_fatal _ _ _ _ _ E).
  - apply (verdict_trans _ r2.2); [exact (runCommand_done _ _ _ _ _ eq_refl E)|].
    apply verdict_done.
    + rewrite !bind_run. reflexivity.
    + build_within.
Qed.

Lemma createLayerFromParent_verdict (l : LXCBuilder) (containerName parentLayer : string) (w : World) :
  let r := createLayerFromParent l containerName parentLayer w in
  match r.1 with
  | None => spared w r.2
  | Some e =>
      (exists c, e = Wrapped "failed to copy parent layer" c) /\
      exists x, trace r.2 = trace w ++ [x] /\ fatal x = true
  end.
Proof.
  cbv zeta.
  pose proof (createLayerFromParent_shape l containerName parentLayer w) as Sh.
  cbv zeta in Sh.
  assert (G : grows w (createLayerFromParent l containerName parentLayer w).2).
  { unfold createLayerFromParent. rewrite !bind_run. cbn beta.
    set (w1 := (log l _ w).2).
    set (r2 := runCommand l "cp" _ w1).
    assert (G2 : grows w r2.2).
    { apply (grows_trans w w1); [apply log_grows|apply runCommand_grows]. }
    destruct r2.1; [exact G2|].
    rewrite !bind_run. cbn beta. rewrite os_ReadFile_run. cbn [fst snd].
    destruct (fs r2.2 !! _) as [[]|]; cbn [fst snd]; try exact G2.
    destruct (negb _); [|exact G2].
    rewrite bind_run. apply (grows_trans w r2.2); [exact G2|]. apply os_WriteFile_grows. }
  destruct G as (evs & G). rewrite (added_app _ _ _ G) in Sh.
  destruct (out_err _) as [e|].
  - destruct Sh as (-> & _ & ->). split; [eauto|].
    eexists. split; [exact G|reflexivity].
  - destruct Sh as (-> & Sh). exists evs. split; [exact G|].
    destruct (out_fs _ !! _) as [[]|]; try (destruct Sh as (_ & ->); repeat constructor).
    destruct (String.eqb _ _); destruct Sh as (_ & ->); repeat constructor.
Qed.

Lemma buildJava8Layer_verdict (l : LXCBuilder) (containerName parentLayer : string) (w : World) :
  verdict w (buildJava8Layer l containerName parentLayer w).
Proof.
  unfold buildJava8Layer.
  apply verdict_bind; [apply log_within|]. set (w1 := (log l _ w).2).
  apply verdict_bind; [apply log_within|]. set (w2 := (log l _ w1).2).
  apply verdict_bind; [apply runCommand_within; intros []; reflexivity|].
  set (w3 := (runCommand l "lxc-stop" _ w2).2).
  apply verdict_bind; [apply runCommand_within; intros []; reflexivity|].
  set (w4 := (runCommand l "lxc-destroy" _ w3).2).
  clearbody w4. clear w1 w2 w3.
  rewrite bind_run.
  match goal with
  | |- context [fst (?m w4)] =>
      set (pm := m w4);
      assert (Hp : pm.2 = w4)
        by (unfold pm; destruct (negb _); [rewrite dirExists_run|]; reflexivity)
  end.
  rewrite Hp. generalize pm.1 as present. clear pm Hp. intros present.
  apply verdict_seq.
  { destruct present.
    - rewrite bind_run. set (w5 := (log l _ w4).2).
      apply (verdict_trans _ w5); [apply log_within|]. clearbody w5.
      rewrite bind_run.
      pose proof (createLayerFromParent_verdict l containerName parentLayer w5) as V.
      cbv zeta in V.
      set (r6 := createLayerFromParent l containerName parentLayer w5) in *.
      destruct r6.1 as [e|].
      + destruct V as ((c & ->) & x & T & F).
        apply (verdict_fail w5 r6.2 _ x [] []); [reflexivity|exact F|exact T].
      + apply verdict_done; [reflexivity|exact V].
    - rewrite bind_run.
      set (r5 := runCommand l "lxc-create" _ w4).
      destruct r5.1 as [e|] eqn:E.
      + eapply (verdict_fail w4 r5.2 _ _ [] []); [reflexivity| |exact (runCommand_fatal _ _ _ _ _ E)].
        reflexivity.
      + apply verdict_done; [reflexivity|exact (runCommand_done _ _ _ _ _ eq_refl E)]. }
  intros _.
  match goal with |- verdict ?x _ => set (w5 := x); clearbody w5 end.
  clear w4 present.
  apply verdict_bind; [apply log_within|]. set (w6 := (log l _ w5).2). clearbody w6.
  rewrite bind_run.
  set (scriptPath := Join [ContainerDir l; "java8-setup.sh"]).
  set (rootfsPath := Join [ContainerDir l; containerName; "rootfs"]).
  destruct (os_WriteFile_cases scriptPath java8SetupScript w6)
    as [(R & T & _)|(c & R & T & _)];
    set (r7 := os_WriteFile scriptPath java8SetupScript w6) in *; rewrite R.
  2:{ apply (verdict_fail w6 r7.2 _ _ [] []) with (3 := T); [reflexivity|].
      unfold fatal, scriptPath. rewrite Base_Join by (discriminate || reflexivity).
      reflexivity. }
  apply (verdict_trans _ r7.2).
  { eexists. split; [exact T|]. repeat constructor. }
  generalize r7.2 as w8. clear. intros w8.
  apply verdict_bind; [apply log_within|]. set (w9 := (log l _ w8).2). clearbody w9.
  rewrite bind_run.
  set (r10 := runCommand l "lxc-start" _ w9).
  assert (S10 : spared w9 r10.2) by (apply runCommand_within; intros []; reflexivity).
  apply (verdict_trans _ r10.2); [exact S10|].
  destruct r10.1 as [e|].
  { apply verdict_bind; [apply log_within|]. apply fallbackToChroot_verdict. }
  generalize r10.2 as w11. clear. intros w11.
  apply verdict_bind; [apply log_within|]. set (w12 := (log l _ w11).2). clearbody w12.
  apply verdict_bind; [apply waitForContainer_within; intros ? []; reflexivity|].
  set (w13 := (waitForContainer l containerName 30 w12).2). clearbody w13.
  apply verdict_bind; [apply log_within|]. set (w14 := (log l _ w13).2). clearbody w14.
  apply verdict_bind; [apply runCommand_within; intros []; reflexivity|].
  set (r15 := runCommand l "lxc-attach" _ w14).
  apply verdict_bind; [destruct r15.1; [apply log_within|apply within_refl]|].
  match goal with |- verdict ?x _ => set (w16 := x); clearbody w16 end.
  clear r15.
  rewrite bind_run.
  set (r17 := runCommand l "cp" _ w16).
  destruct r17.1 as [e|] eqn:E.
  { rewrite bind_run. cbn beta.
    set (r18 := runCommand l "lxc-stop" _ r17.2).
    destruct (runCommand_trace l "lxc-stop" ["-n"; containerName; "-P"; ContainerDir l] r17.2)
      as (b & T & _). fold r18 in T.
    pose proof (runCommand_fatal _ _ _ _ _ E) as T0. fold r17 in T0.
    eapply (verdict_fail w16 r18.2 _ _ [] [_]); [reflexivity| |].
    2:{ rewrite T, T0, <- app_assoc. reflexivity. }
    reflexivity. }
  apply (verdict_trans _ r17.2); [exact (runCommand_done _ _ _ _ _ eq_refl E)|].
  generalize r17.2 as w18. clear. intros w18.
  apply verdict_done.
  - rewrite !bind_run. reflexivity.
  - build_within.
Qed.

Lemma appendToConfig_trace (l : LXCBuilder) (configPath text : string) (w : World) :
  trace (appendToConfig l configPath text w).2 = trace w.
Proof. unfold appendToConfig. destruct (fs w !! configPath) as [[]|]; reflexivity. Qed.

Lemma appendToConfig_within (P : event -> bool) (l : LXCBuilder) (configPath text : string)
    (w : World) :
  within P w (appendToConfig l configPath text w).2.
Proof.
  exists []. rewrite app_nil_r. split; [apply appendToConfig_trace|constructor].
Qed.

Lemma buildUbuntuContainer_verdict (l : LXCBuilder) (w : World) :
  verdict w (buildUbuntuContainer l w).
Proof.
  unfold buildUbuntuContainer. cbv zeta.
  apply verdict_bind; [apply log_within|]. set (w1 := (log l _ w).2).
  apply verdict_bind; [apply log_within|]. set (w2 := (log l _ w1).2).
  apply verdict_bind; [apply runCommand_within; intros []; reflexivity|].
  set (w3 := (runCommand l "lxc-stop" _ w2).2).
  apply verdict_bind; [apply runCommand_within; intros []; reflexivity|].
  set (w4 := (runCommand l "lxc-destroy" _ w3).2).
  clearbody w4. clear w1 w2 w3.
  rewrite bind_run.
  set (r5 := runCommand l "lxc-create" _ w4).
  destruct r5.1 as [e|] eqn:E.
  { eapply (verdict_fail w4 r5.2 _ _ [] []); [reflexivity| |exact (runCommand_fatal _ _ _ _ _ E)].
    reflexivity. }
  apply (verdict_trans _ r5.2); [exact (runCommand_done _ _ _ _ _ eq_refl E)|].
  generalize r5.2 as w6. clear. intros w6.
  apply verdict_bind; [apply appendToConfig_within|].
  set (r7 := appendToConfig l _ additionalConfig w6).
  apply verdict_bind; [destruct r7.1; [apply log_within|apply within_refl]|].
  match goal with |- verdict ?x _ => set (w8 := x); clearbody w8 end.
  clear r7.
  apply verdict_bind; [apply log_within|]. set (w9 := (log l _ w8).2). clearbody w9.
  rewrite bind_run.
  set (scriptPath := Join [ContainerDir l; "setup.sh"]).
  set (rootfsPath := Join [ContainerDir l; "ubuntu-base"; "rootfs"]).
  destruct (os_WriteFile_cases scriptPath baseSetupScript w9)
    as [(R & T & _)|(c & R & T & _)];
    set (r10 := os_WriteFile scriptPath baseSetupScript w9) in *; rewrite R.
  2:{ apply (verdict_fail w9 r10.2 _ _ [] []) with (3 := T); [reflexivity|].
      unfold fatal, scriptPath. rewrite Base_Join by (discriminate || reflexivity).
      reflexivity. }
  apply (verdict_trans _ r10.2).
  { eexists. split; [exact T|]. repeat constructor. }
  generalize r10.2 as w11. clear. intros w11.
  apply verdict_bind; [apply log_within|]. set (w12 := (log l _ w11).2). clearbody w12.
  rewrite bind_run.
  set (r13 := runCommand l "lxc-start" _ w12).
  assert (S13 : spared w12 r13.2) by (apply runCommand_within; intros []; reflexivity).
  apply (verdict_trans _ r13.2); [exact S13|].
  destruct r13.1 as [e|].
  { apply verdict_bind; [apply log_within|]. apply fallbackToChroot_verdict. }
  generalize r13.2 as w14. clear. intros w14.
  apply verdict_bind; [apply log_within|]. set (w15 := (log l _ w14).2). clearbody w15.
  apply verdict_bind; [apply waitForContainer_within; intros ? []; reflexivity|].
  set (w16 := (waitForContainer l "ubuntu-base" 30 w15).2). clearbody w16.
  apply verdict_bind; [apply log_within|]. set (w17 := (log l _ w16).2). clearbody w17.
  apply verdict_bind; [apply runCommand_within; intros []; reflexivity|].
  set (r18 := runCommand l "lxc-attach" _ w17).
  apply verdict_bind; [destruct r18.1; [apply log_within|apply within_refl]|].
  match goal with |- verdict ?x _ => set (w19 := x); clearbody w19 end.
  clear r18.
  rewrite bind_run.
  set (r20 := runCommand l "cp" _ w19).
  destruct r20.1 as [e|] eqn:E.
  { rewrite bind_run. cbn beta.
    set (r21 := runCommand l "lxc-stop" _ r20.2).
    destruct (runCommand_trace l "lxc-stop" ["-n"; "ubuntu-base"; "-P"; ContainerDir l] r20.2)
      as (b & T & _). fold r21 in T.
    pose proof (runCommand_fatal _ _ _ _ _ E) as T0. fold r20 in T0.
    eapply (verdict_fail w19 r21.2 _ _ [] [_]); [reflexivity| |].
    2:{ rewrite T, T0, <- app_assoc. reflexivity. }
    reflexivity. }
  apply (verdict_trans _ r20.2); [exact (runCommand_done _ _ _ _ _ eq_refl E)|].
  generalize r20.2 as w21. clear. intros w21.
  apply verdict_done.
  - rewrite !bind_run. reflexivity.
  - build_within.
Qed.

(** X14.  [buildJava8Layer] returns nil exactly when no [cp] and no
    [lxc-create] it ran failed and the set-up script could be written: a
    failing [lxc-stop], [lxc-destroy], [lxc-start], [lxc-info],
    [lxc-attach] (the run of the set-up script included), [chroot] or
    [umount] does not fail the build.  An error it returns is one of four: the clone,
    the creation of the container, the writing or the copying of the
    set-up script. *)
Theorem buildJava8Layer_fails_on_copy_create_or_write
    (l : LXCBuilder) (containerName parentLayer : string) (w : World) :
  let r := buildJava8Layer l containerName parentLayer w in
  (r.1 = None <-> Forall (fun e => fatal e = false) (added w r.2)) /\
  (forall e, r.1 = Some e -> build_failure e = true).
Proof.
  cbv zeta. apply verdict_reads. apply buildJava8Layer_verdict.
Qed.

(** X15.  [buildUbuntuContainer] returns nil exactly when no [cp] and
    no [lxc-create] it ran failed and the set-up script could be written:
    neither a configuration file that could not be extended nor a failing
    [lxc-start], [lxc-attach], [chroot], [lxc-stop] or [umount] fails the
    build.  An error it returns is the failed creation of the container,
    writing or copying of the script, never that of a clone. *)
Theorem buildUbuntuContainer_fails_on_copy_create_or_write (l : LXCBuilder) (w : World) :
  let r := buildUbuntuContainer l w in
  (r.1 = None <-> Forall (fun e => fatal e = false) (added w r.2)) /\
  (forall e, r.1 = Some e -> build_failure e = true) /\
  (forall e, r.1 <> Some (Wrapped "failed to create layer from parent" e)).
Proof.
  cbv zeta. pose proof (buildUbuntuContainer_verdict l w) as V.
  destruct (verdict_reads _ _ V) as (H1 & H2). split; [exact H1|]. split; [exact H2|].
  clear. intros e. unfold buildUbuntuContainer. cbv zeta. rewrite !bind_run.
  repeat match goal with
         | |- context [match ?x with Some _ => _ | None => _ end] =>
             destruct x; rewrite ?bind_run; cbn [ret fst snd]
         end;
    try discriminate.
  all: match goal with
       | |- context [fallbackToChroot ?l ?a ?b ?x] =>
           destruct (fallbackToChroot_result l a b x) as [-> | [? ->]]; discriminate
       end.
Qed.

(** *** A container that was started is stopped *)

Lemma names_here (name : string) (rest : list string) :
  names name ("-n" :: name :: rest) = true.
Proof. cbn. apply String.eqb_refl. Qed.

Lemma running_neutral (name : string) (evs : list event) :
  Forall (fun e => neutral e = true) evs -> forall r, running name r evs = r.
Proof.
  induction 1 as [|e evs He _ IH]; intros r; [reflexivity|].
  destruct e as [cmd args ok| | |]; cbn [running]; try apply IH.
  cbn in He. apply andb_true_iff in He as [H1 H2].
  apply negb_true_iff in H1, H2. rewrite H2. cbn [andb].
  destruct (String.eqb cmd "lxc-start") eqn:E1; cbn [andb] in *.
  - subst ok. rewrite orb_false_r. destruct (names name args); apply IH.
  - apply IH.
Qed.

Lemma running_app (name : string) (a b : list event) :
  forall r, running name r (a ++ b) = running name (running name r a) b.
Proof.
  induction a as [|e a IH]; intros r; [reflexivity|].
  destruct e as [cmd args ok| | |]; cbn [running app]; try apply IH.
  destruct (_ && _); [apply IH|]. destruct (_ && _); apply IH.
Qed.

Lemma halts_within (name : string) (w w' : World) :
  within neutral w w' -> halts name false w w'.
Proof.
  intros (evs & T & F). exists evs. split; [exact T|]. apply running_neutral. exact F.
Qed.

Lemma halts_after (name : string) (b : bool) (w w1 w' : World) :
  within neutral w w1 -> halts name b w1 w' -> halts name b w w'.
Proof.
  intros (e1 & T1 & F1) (e2 & T2 & R). exists (e1 ++ e2).
  rewrite T2, T1, <- app_assoc. split; [reflexivity|].
  rewrite running_app, (running_neutral name e1 F1). exact R.
Qed.

Lemma stopped_halts (name : string) (b : bool) (w w' : World) :
  stopped name w w' -> halts name b w w'.
Proof.
  intros (pre & args & ok & post & T & N & F). eexists. split; [exact T|].
  rewrite running_app. cbn [running]. rewrite N.
  cbn [String.eqb Ascii.eqb Bool.eqb andb].
  apply running_neutral. exact F.
Qed.

Lemma stopped_intro (name : string) (l : LXCBuilder) (args : list string) (w x : World) :
  grows w x -> names name args = true ->
  stopped name w (runCommand l "lxc-stop" args x).2.
Proof.
  intros (pre & G) N. destruct (runCommand_trace l "lxc-stop" args x) as (ok & T & _).
  exists pre, args, ok, []. rewrite T, G, <- app_assoc. repeat split; [exact N|constructor].
Qed.

Lemma stopped_then (name : string) (w x w' : World) :
  stopped name w x -> within neutral x w' -> stopped name w w'.
Proof.
  intros (pre & args & ok & post & T & N & F) (evs & T' & F').
  exists pre, args, ok, (post ++ evs). rewrite T', T, <- !app_assoc. cbn [app].
  repeat split; [exact N|]. apply Forall_app. split; assumption.
Qed.

Lemma stopped_before (name : string) (w x w' : World) :
  grows w x -> stopped name x w' -> stopped name w w'.
Proof.
  intros (evs & G) (pre & args & ok & post & T & N & F).
  exists (evs ++ pre), args, ok, post. rewrite T, G, <- !app_assoc.
  repeat split; assumption.
Qed.

Ltac build_stopped :=
  rewrite ?bind_run; cbn beta;
  lazymatch goal with
  | |- stopped ?n ?w (ret _ ?x).2 => change (stopped n w x); build_stopped
  | |- stopped ?n ?w (log ?l ?m ?x).2 =>
      apply (stopped_then n w x); [build_stopped | apply log_within]
  | |- stopped ?n ?w (runCommand ?l "lxc-stop" ?a ?x).2 =>
      apply stopped_intro; [build_grows | apply names_here]
  | |- stopped ?n ?w (runCommand ?l ?c ?a ?x).2 =>
      apply (stopped_then n w x);
        [build_stopped | apply runCommand_within; intros []; reflexivity]
  | |- stopped ?n ?w (os_Remove ?p ?x).2 =>
      apply (stopped_then n w x);
        [build_stopped | apply os_Remove_within; intros []; reflexivity]
  | |- stopped ?n ?w (cleanupMounts ?l ?a ?x).2 =>
      apply (stopped_then n w x);
        [build_stopped | apply cleanupMounts_within; intros ? []; reflexivity]
  | |- stopped ?n ?w (match ?e with Some _ => _ | None => _ end ?x).2 =>
      destruct e; build_stopped
  end.

Lemma fallbackToChroot_neutral (l : LXCBuilder) (rootfsPath scriptPath : string) (w : World) :
  within neutral w (fallbackToChroot l rootfsPath scriptPath w).2.
Proof. unfold fallbackToChroot. build_within. Qed.

Lemma halts_bind {A B} (name : string) (b : bool) (m : M A) (k : A -> M B) (w : World) :
  within neutral w (m w).2 -> halts name b (m w).2 (k (m w).1 (m w).2).2 ->
  halts name b w ((m ≫= k) w).2.
Proof. intros N H. rewrite bind_run. exact (halts_after _ _ _ _ _ N H). Qed.

Lemma halts_from_stopped (name : string) (b : bool) (w x w' : World) :
  stopped name w x -> halts name false x w' -> halts name b w w'.
Proof.
  intros (pre & args & ok & post & T & N & F) (evs & T' & R).
  exists ((pre ++ EvExec "lxc-stop" args ok :: post) ++ evs).
  rewrite T', T, <- !app_assoc. split; [reflexivity|].
  rewrite running_app. cbn [running app]. rewrite N.
  cbn [String.eqb Ascii.eqb Bool.eqb andb].
  rewrite running_app, (running_neutral name post F). exact R.
Qed.

Lemma createLayerFromParent_within (P : event -> bool) (l : LXCBuilder)
    (containerName parentLayer : string) (w : World) :
  (forall args ok, P (EvExec "cp" args ok) = true) ->
  (forall path data ok, P (EvWriteFile path data ok) = true) ->
  within P w (createLayerFromParent l containerName parentLayer w).2.
Proof.
  intros Hc Hw. unfold createLayerFromParent. rewrite !bind_run. cbn beta.
  set (w1 := (log l _ w).2).
  set (r2 := runCommand l "cp" _ w1).
  assert (G2 : within P w r2.2).
  { apply (within_trans P w w1); [apply log_within|].
    apply runCommand_within. intros ok. apply Hc. }
  destruct r2.1; [exact G2|].
  rewrite !bind_run. cbn beta. rewrite os_ReadFile_run. cbn [fst snd].
  destruct (fs r2.2 !! _) as [[]|]; cbn [fst snd]; try exact G2.
  destruct (negb _); [|exact G2].
  rewrite bind_run. apply (within_trans P w r2.2); [exact G2|].
  apply os_WriteFile_within. intros ok. apply Hw.
Qed.

Lemma halts_here (name : string) (w : World) : halts name false w w.
Proof. apply halts_within, within_refl. Qed.

Lemma buildJava8Layer_halts (l : LXCBuilder) (containerName parentLayer : string)
    (w : World) (b : bool) :
  halts containerName b w (buildJava8Layer l containerName parentLayer w).2.
Proof.
  unfold buildJava8Layer. rewrite bind_run, bind_run, bind_run. cbn beta.
  match goal with
  | |- context [runCommand l "lxc-stop" ?a ?x] =>
      set (w3 := (runCommand l "lxc-stop" a x).2);
      assert (St : stopped containerName w w3) by (unfold w3; build_stopped)
  end.
  apply (halts_from_stopped _ _ _ w3); [exact St|]. clearbody w3. clear St.
  apply halts_bind; [apply runCommand_within; intros []; reflexivity|].
  set (w4 := (runCommand l "lxc-destroy" _ w3).2). clearbody w4.
  rewrite bind_run.
  match goal with
  | |- context [fst (?m w4)] =>
      set (pm := m w4);
      assert (Hp : pm.2 = w4)
        by (unfold pm; destruct (negb _); [rewrite dirExists_run|]; reflexivity)
  end.
  rewrite Hp. generalize pm.1 as present. clear pm Hp. intros present.
  apply halts_bind.
  { destruct present.
    - rewrite bind_run. cbn beta.
      apply (within_trans _ _ (log l ("📦 Creating layer from parent: " +:+ parentLayer) w4).2);
        [apply log_within|].
      rewrite bind_run.
      match goal with
      | |- context [createLayerFromParent ?l ?a ?b ?x] =>
          set (r := createLayerFromParent l a b x);
          assert (N : within neutral x r.2)
            by (apply createLayerFromParent_within; [intros ? []|intros ? ? []]; reflexivity)
      end.
      destruct r.1; exact N.
    - rewrite bind_run.
      match goal with
      | |- context [runCommand ?l ?c ?a ?x] =>
          set (r := runCommand l c a x);
          assert (N : within neutral x r.2)
            by (apply runCommand_within; intros []; reflexivity)
      end.
      destruct r.1; exact N. }
  match goal with |- halts _ _ ?x _ => set (w5 := x); clearbody w5 end.
  match goal with |- context [match ?s with Some _ => _ | None => _ end] => destruct s end.
  { apply halts_here. }
  clear w4 present.
  apply halts_bind; [apply log_within|]. set (w6 := (log l _ w5).2). clearbody w6.
  apply halts_bind; [apply os_WriteFile_within; intros []; reflexivity|].
  set (r7 := os_WriteFile _ java8SetupScript w6).
  destruct r7.1; [apply halts_here|].
  generalize r7.2 as w8. clear. intros w8.
  apply halts_bind; [apply log_within|]. set (w9 := (log l _ w8).2). clearbody w9.
  rewrite bind_run.
  set (r10 := runCommand l "lxc-start" _ w9).
  destruct r10.1 as [e|] eqn:E.
  - apply (halts_after _ _ _ r10.2).
    { eexists. split; [exact (runCommand_fatal _ _ _ _ _ E)|]. repeat constructor. }
    apply halts_bind; [apply log_within|].
    apply halts_within, fallbackToChroot_neutral.
  - apply stopped_halts. apply (stopped_before _ _ r10.2); [apply runCommand_grows|].
    generalize r10.2 as w11. clear. intros w11.
    build_stopped.
Qed.

Lemma running_stops (name : string) (post : list event) :
  running name true post = false ->
  exists args ok, names name args = true /\ In (EvExec "lxc-stop" args ok) post.
Proof.
  induction post as [|e post IH]; [discriminate|].
  destruct e as [cmd args ok| | |]; cbn [running];
    try (intros H; destruct (IH H) as (a & o & N & I); exists a, o; split; [exact N|right; exact I]).
  destruct (String.eqb cmd "lxc-start" && names name args) eqn:E1.
  { cbn [orb]. intros H. destruct (IH H) as (a & o & N & I).
    exists a, o. split; [exact N|right; exact I]. }
  destruct (String.eqb cmd "lxc-stop" && names name args) eqn:E2.
  { intros _. apply andb_true_iff in E2 as [C N]. apply String.eqb_eq in C. subst cmd.
    exists args, ok. split; [exact N|left; reflexivity]. }
  intros H. destruct (IH H) as (a & o & N & I). exists a, o. split; [exact N|right; exact I].
Qed.

Lemma halts_stops (name : string) (b : bool) (w w' : World) (pre post : list event)
    (args : list string) :
  halts name b w w' ->
  added w w' = pre ++ EvExec "lxc-start" args true :: post ->
  names name args = true ->
  exists args' ok, names name args' = true /\ In (EvExec "lxc-stop" args' ok) post.
Proof.
  intros (evs & T & R) A N. rewrite (added_app _ _ _ T) in A. subst evs.
  rewrite running_app in R. cbn [running] in R. rewrite N in R.
  cbn [String.eqb Ascii.eqb Bool.eqb andb] in R. rewrite orb_true_r in R.
  exact (running_stops name post R).
Qed.

(** X16.  Whenever [buildJava8Layer] has started the container (an
    [lxc-start] of it succeeded), it runs an [lxc-stop] of that container
    afterwards, on the path that ends with an error as well. *)
Theorem buildJava8Layer_stops_what_it_started
    (l : LXCBuilder) (containerName parentLayer : string) (w : World)
    (pre post : list event) (args : list string) :
  let r := buildJava8Layer l containerName parentLayer w in
  added w r.2 = pre ++ EvExec "lxc-start" args true :: post ->
  names containerName args = true ->
  exists args' ok,
    names containerName args' = true /\ In (EvExec "lxc-stop" args' ok) post.
Proof.
  cbv zeta. apply (halts_stops containerName false). apply buildJava8Layer_halts.
Qed.

Lemma buildJava8Layer_stops_what_it_started_witness :
  let evs := added (world_of ∅) (buildJava8Layer builder "ubuntu-java8" "" (world_of ∅)).2 in
  evs !! 4 = Some (EvExec "lxc-start" ["-n"; "ubuntu-java8"; "-P"; "/w/containers"; "-d"] true) /\
  exists args' ok,
    names "ubuntu-java8" args' = true /\ In (EvExec "lxc-stop" args' ok) (drop 5 evs).
Proof.
  cbv zeta. split; [vm_compute; reflexivity|].
  apply (buildJava8Layer_stops_what_it_started builder "ubuntu-java8" "" (world_of ∅)
           (take 4 (added (world_of ∅)
                      (buildJava8Layer builder "ubuntu-java8" "" (world_of ∅)).2))
           _ ["-n"; "ubuntu-java8"; "-P"; "/w/containers"; "-d"]).
  - vm_compute. reflexivity.
  - reflexivity.
Defined.

Lemma buildUbuntuContainer_halts (l : LXCBuilder) (w : World) (b : bool) :
  halts "ubuntu-base" b w (buildUbuntuContainer l w).2.
Proof.
  unfold buildUbuntuContainer. cbv zeta. rewrite bind_run, bind_run, bind_run. cbn beta.
  match goal with
  | |- context [runCommand l "lxc-stop" ?a ?x] =>
      set (w3 := (runCommand l "lxc-stop" a x).2);
      assert (St : stopped "ubuntu-base" w w3) by (unfold w3; build_stopped)
  end.
  apply (halts_from_stopped _ _ _ w3); [exact St|]. clearbody w3. clear St.
  apply halts_bind; [apply runCommand_within; intros []; reflexivity|].
  set (w4 := (runCommand l "lxc-destroy" _ w3).2). clearbody w4.
  apply halts_bind; [apply runCommand_within; intros []; reflexivity|].
  set (r5 := runCommand l "lxc-create" _ w4).
  destruct r5.1; [apply halts_here|].
  generalize r5.2 as w6. clear. intros w6.
  apply halts_bind; [apply appendToConfig_within|].
  set (r7 := appendToConfig l _ additionalConfig w6).
  apply halts_bind; [destruct r7.1; [apply log_within|apply within_refl]|].
  match goal with |- halts _ _ ?x _ => set (w8 := x); clearbody w8 end.
  clear r7.
  apply halts_bind; [apply log_within|]. set (w9 := (log l _ w8).2). clearbody w9.
  apply halts_bind; [apply os_WriteFile_within; intros []; reflexivity|].
  set (r10 := os_WriteFile _ baseSetupScript w9).
  destruct r10.1; [apply halts_here|].
  generalize r10.2 as w11. clear. intros w11.
  apply halts_bind; [apply log_within|]. set (w12 := (log l _ w11).2). clearbody w12.
  rewrite bind_run.
  set (r13 := runCommand l "lxc-start" _ w12).
  destruct r13.1 as [e|] eqn:E.
  - apply (halts_after _ _ _ r13.2).
    { eexists. split; [exact (runCommand_fatal _ _ _ _ _ E)|]. repeat constructor. }
    apply halts_bind; [apply log_within|].
    apply halts_within, fallbackToChroot_neutral.
  - apply stopped_halts. apply (stopped_before _ _ r13.2); [apply runCommand_grows|].
    generalize r13.2 as w14. clear. intros w14.
    build_stopped.
Qed.

(** X17.  Whenever [buildUbuntuContainer] has started the container
    (an [lxc-start] of [ubuntu-base] succeeded), it runs an [lxc-stop] of
    it afterwards, on the path that ends with an error as well. *)
Theorem buildUbuntuContainer_stops_what_it_started
    (l : LXCBuilder) (w : World) (pre post : list event) (args : list string) :
  let r := buildUbuntuContainer l w in
  added w r.2 = pre ++ EvExec "lxc-start" args true :: post ->
  names "ubuntu-base" args = true ->
  exists args' ok,
    names "ubuntu-base" args' = true /\ In (EvExec "lxc-stop" args' ok) post.
Proof.
  cbv zeta. apply (halts_stops "ubuntu-base" false). apply buildUbuntuContainer_halts.
Qed.

Lemma buildUbuntuContainer_stops_what_it_started_witness :
  let evs := added (world_of ∅) (buildUbuntuContainer builder (world_of ∅)).2 in
  evs !! 4 = Some (EvExec "lxc-start" ["-n"; "ubuntu-base"; "-P"; "/w/containers"; "-d"] true) /\
  exists args' ok,
    names "ubuntu-base" args' = true /\ In (EvExec "lxc-stop" args' ok) (drop 5 evs).
Proof.
  cbv zeta. split; [vm_compute; reflexivity|].
  apply (buildUbuntuContainer_stops_what_it_started builder (world_of ∅)
           (take 4 (added (world_of ∅) (buildUbuntuContainer builder (world_of ∅)).2))
           _ ["-n"; "ubuntu-base"; "-P"; "/w/containers"; "-d"]).
  - vm_compute. reflexivity.
  - reflexivity.
Defined.

(** *** The metadata of a layer *)

Lemma prefix_refl_app (x rest : string) : String.prefix x (x +:+ rest) = true.
Proof.
  induction x as [|d o IH]; [destruct rest; reflexivity|].
  cbn. destruct (Ascii.ascii_dec d d); [exact IH|congruence].
Qed.

Lemma occurs_after (x p s : string) : occurs x s = true -> occurs x (p +:+ s) = true.
Proof.
  intros H. induction p as [|c p IH]; [exact H|].
  change (String c p +:+ s) with (String c (p +:+ s)). cbn [occurs].
  rewrite IH. apply orb_true_r.
Qed.

Lemma occurs_inside (x p rest : string) : occurs x (p +:+ x +:+ rest) = true.
Proof. apply occurs_after, occurs_match. Qed.

Lemma occurs_prefix (x s : string) : String.prefix x s = true -> occurs x s = true.
Proof. intros H. destruct s; cbn [occurs]; rewrite H; reflexivity. Qed.

Lemma prefix_cancel (a b c : string) :
  String.prefix (a +:+ b) (a +:+ c) = String.prefix b c.
Proof.
  induction a as [|d a IH]; [reflexivity|].
  change (String d a +:+ b) with (String d (a +:+ b)).
  change (String d a +:+ c) with (String d (a +:+ c)).
  cbn [String.prefix]. destruct (Ascii.ascii_dec d d); [exact IH|congruence].
Qed.

(** Finds a field in a text built by appending. *)
Ltac find_field :=
  first [ apply occurs_prefix; rewrite !prefix_cancel; apply prefix_refl_app
        | apply occurs_after; find_field ].

(** X18.  [createLayerMetadata] makes one attempt to write the file
    [<layer>-layer.json] of the work directory and nothing else; the text
    names the layer, the parent layer, the archive and the time of the
    call, each as a quoted field; when the write fails the disk is left as
    it was and nothing is reported to the caller; in both cases the path
    is the last line printed. *)
Theorem createLayerMetadata_names_the_archive
    (l : LXCBuilder) (wd n parent archive : string) (w : World) :
  let r := createLayerMetadata l wd n parent archive w in
  let meta := Join [wd; n +:+ "-layer.json"] in
  let field (k v : string) := dq +:+ k +:+ dq +:+ ": " +:+ dq +:+ v +:+ dq in
  exists data ok,
    added w r.2 = [EvWriteFile meta data ok] /\
    occurs (field "layer_name" n) data = true /\
    occurs (field "parent_layer" parent) data = true /\
    occurs (field "archive" archive) data = true /\
    occurs (field "created" (Format_RFC3339 (clock w (ticks w)))) data = true /\
    (ok = true -> fs r.2 = <[meta := File data]> (fs w)) /\
    (ok = false -> fs r.2 = fs w) /\
    last (stdout r.2) = Some (log_line (time_Now w).2 ("📄 Layer metadata: " +:+ meta)).
Proof.
  cbv zeta. unfold createLayerMetadata. rewrite !bind_run. cbn beta.
  set (meta := Join [wd; n +:+ "-layer.json"]).
  match goal with |- context [os_WriteFile meta ?d ?x] => set (data := d) end.
  change ((time_Now w).1) with (clock w (ticks w)) in data.
  assert (D : occurs (dq +:+ "layer_name" +:+ dq +:+ ": " +:+ dq +:+ n +:+ dq) data = true /\
              occurs (dq +:+ "parent_layer" +:+ dq +:+ ": " +:+ dq +:+ parent +:+ dq) data = true /\
              occurs (dq +:+ "archive" +:+ dq +:+ ": " +:+ dq +:+ archive +:+ dq) data = true /\
              occurs (dq +:+ "created" +:+ dq +:+ ": " +:+ dq
                      +:+ Format_RFC3339 (clock w (ticks w)) +:+ dq) data = true).
  { unfold data. repeat split; find_field. }
  destruct D as (D1 & D2 & D3 & D4).
  clearbody data.
  set (w1 := (time_Now w).2).
  assert (Q1 : quiet w w1) by apply time_Now_quiet.
  rewrite log_run. cbn [fst snd fs trace stdout]. rewrite last_snoc.
  unfold os_WriteFile.
  destruct (fs w1 !! meta) as [[]|];
    cbn [fst snd fs trace stdout ticks clock with_fs with_event log_line];
    [exists data, true|exists data, false|exists data, true|exists data, true|exists data, true];
    (split; [apply added_app; cbn [trace]; rewrite (quiet_trace _ _ Q1); reflexivity|]);
    repeat (split; [assumption|]);
    rewrite ?(quiet_fs _ _ Q1);
    (split; [intros; first [reflexivity|discriminate]|]);
    (split; [intros; first [reflexivity|discriminate]|]);
    reflexivity.
Qed.

End BuildFacts.

(** ** The build in a chroot *)

Module SandboxFacts.
Import LXC LXCObs LXCSim LXCFacts BuildObs BuildFacts.
Import SandboxLXC SandboxObs.

Local Open Scope nat_scope.
Local Arguments String.append : simpl nomatch.

Ltac sandbox_within :=
  rewrite ?bind_run; cbn beta;
  lazymatch goal with
  | |- within _ ?w ?w => apply within_refl
  | |- within ?P ?w (ret _ ?x).2 => change (within P w x); sandbox_within
  | |- within ?P ?w (log ?l ?m ?x).2 =>
      apply (within_trans P w x); [sandbox_within | apply log_within]
  | |- within ?P ?w (runCommand ?l ?n ?a ?x).2 =>
      apply (within_trans P w x);
        [sandbox_within | apply runCommand_within; intros []; reflexivity]
  | |- within ?P ?w (os_Remove ?p ?x).2 =>
      apply (within_trans P w x);
        [sandbox_within | apply os_Remove_within; intros []; reflexivity]
  | |- within ?P ?w (os_WriteFile ?p ?d ?x).2 =>
      apply (within_trans P w x);
        [sandbox_within | apply os_WriteFile_within; intros []; reflexivity]
  | |- within ?P ?w (appendToConfig ?l ?p ?t ?x).2 =>
      apply (within_trans P w x); [sandbox_within | apply appendToConfig_within]
  | |- within ?P ?w (match ?e with Some _ => _ | None => _ end ?x).2 =>
      destruct e; sandbox_within
  end.

Lemma buildUbuntuContainer_offline (l : LXCBuilder) (w : World) :
  within offline w (buildUbuntuContainer l w).2.
Proof. unfold buildUbuntuContainer. cbv zeta. sandbox_within. Qed.

Lemma os_Remove_trace (path : string) (w : World) :
  exists ok, trace (os_Remove path w).2 = trace w ++ [EvRemove path ok].
Proof.
  unfold os_Remove.
  destruct (fs w !! path) as [[]|]; [| destruct (has_child _ _) | | |];
    eexists; reflexivity.
Qed.

Lemma buildUbuntuContainer_chroot_verdict (l : LXCBuilder) (w : World) :
  verdict_of chroot_fatal chroot_failure w (buildUbuntuContainer l w).
Proof.
  unfold buildUbuntuContainer. cbv zeta.
  apply verdict_bind; [apply log_within|]. set (w1 := (log l _ w).2).
  apply verdict_bind; [apply log_within|]. set (w2 := (log l _ w1).2).
  apply verdict_bind; [apply runCommand_within; intros []; reflexivity|].
  set (w3 := (runCommand l "lxc-stop" _ w2).2).
  apply verdict_bind; [apply runCommand_within; intros []; reflexivity|].
  set (w4 := (runCommand l "lxc-destroy" _ w3).2).
  clearbody w4. clear w1 w2 w3.
  rewrite bind_run.
  set (r5 := runCommand l "lxc-create" _ w4).
  destruct r5.1 as [e|] eqn:E.
  { eapply (verdict_fail w4 r5.2 _ _ [] []); [reflexivity| |exact (runCommand_fatal _ _ _ _ _ E)].
    reflexivity. }
  apply (verdict_trans _ r5.2); [exact (runCommand_done _ _ _ _ _ eq_refl E)|].
  generalize r5.2 as w6. clear. intros w6.
  apply verdict_bind; [apply appendToConfig_within|].
  set (r7 := appendToConfig l _ additionalConfig w6).
  apply verdict_bind; [destruct r7.1; [apply log_within|apply within_refl]|].
  match goal with |- verdict_of _ _ ?x _ => set (w8 := x); clearbody w8 end.
  clear r7.
  apply verdict_bind; [apply log_within|]. set (w9 := (log l _ w8).2). clearbody w9.
  rewrite bind_run.
  set (scriptPath := Join [ContainerDir l; "setup.sh"]).
  destruct (os_WriteFile_cases scriptPath setupScript w9)
    as [(R & T & _)|(c & R & T & _)];
    set (r10 := os_WriteFile scriptPath setupScript w9) in *; rewrite R.
  2:{ apply (verdict_fail w9 r10.2 _ _ [] []) with (3 := T); reflexivity. }
  apply (verdict_trans _ r10.2).
  { eexists. split; [exact T|]. repeat constructor. }
  generalize r10.2 as w11. clear. intros w11.
  apply verdict_done.
  - rewrite !bind_run. reflexivity.
  - sandbox_within.
Qed.

(** X19.  The [buildUbuntuContainer] of [sandbox/images/lxc.go] returns
    nil exactly when [lxc-create] succeeded and the set-up script could
    be written: a failing [chroot], a failing copy of the script or a
    configuration file that could not be extended does not fail it, and
    its errors are these two.  It never runs [lxc-start], [lxc-info] or
    [lxc-attach], and when it returns nil its last two actions are the
    removal of the script and of its copy in the root file system. *)
Theorem chroot_build_fails_on_create_or_write (l : LXCBuilder) (w : World) :
  let r := buildUbuntuContainer l w in
  let scriptPath := Join [ContainerDir l; "setup.sh"] in
  let inner := Join [Join [ContainerDir l; "ubuntu-base"; "rootfs"]; "setup.sh"] in
  (r.1 = None <-> Forall (fun e => chroot_fatal e = false) (added w r.2)) /\
  (forall e, r.1 = Some e -> chroot_failure e = true) /\
  Forall (fun e => offline e = true) (added w r.2) /\
  (r.1 = None ->
   exists pre b1 b2, added w r.2 = pre ++ [EvRemove scriptPath b1; EvRemove inner b2]).
Proof.
  cbv zeta.
  destruct (verdict_reads _ _ (buildUbuntuContainer_chroot_verdict l w)) as (H1 & H2).
  split; [exact H1|]. split; [exact H2|]. split.
  - destruct (buildUbuntuContainer_offline l w) as (evs & T & F).
    rewrite (added_app _ _ _ T). exact F.
  - clear H1 H2. unfold buildUbuntuContainer. cbv zeta.
    rewrite bind_run, bind_run, bind_run, bind_run, bind_run. cbn beta.
    match goal with |- context [runCommand l "lxc-create" ?a ?x] =>
      set (r5 := runCommand l "lxc-create" a x);
      assert (G5 : within (fun _ => true) w r5.2) by (unfold r5; sandbox_within)
    end.
    destruct r5.1; [discriminate|].
    rewrite bind_run, bind_run, bind_run, bind_run. cbn beta.
    match goal with |- context [os_WriteFile ?p ?d ?x] =>
      set (r10 := os_WriteFile p d x);
      assert (G10 : within (fun _ => true) r5.2 r10.2) by (unfold r10; sandbox_within)
    end.
    destruct r10.1; [discriminate|]. intros _.
    rewrite !bind_run. cbn beta.
    match goal with |- context [os_Remove ?p2 (os_Remove ?p1 ?x).2] =>
      set (X := x);
      assert (GX : within (fun _ => true) r10.2 X) by (unfold X; sandbox_within);
      destruct (os_Remove_trace p1 X) as (b1 & T1);
      destruct (os_Remove_trace p2 (os_Remove p1 X).2) as (b2 & T2)
    end.
    destruct G5 as (e5 & T5 & _), G10 as (e10 & T10 & _), GX as (eX & TX & _).
    exists (e5 ++ e10 ++ eX), b1, b2. apply added_app.
    match goal with |- trace (ret None ?x).2 = ?rhs => change (trace x = rhs) end.
    rewrite log_trace.
    rewrite T2, T1, TX, T10, T5, <- !app_assoc. reflexivity.
Qed.
End SandboxFacts.
